(** * Manufacturing chatbot: aggregation and query-resolution core

    A shallow embedding of [data_processor.py], [llama_client.py],
    [routes.py] and [chart_generator.py], the properties of the
    specification settled on it, and further properties of the program.

    Conventions of the embedding.
    - Python [str] is [string].  The functions of [Str] and [Text] are
      those of [str] and [re] on the texts of the ASCII range
      ([Str.isascii]); the letters, digits and spaces that Python knows
      beyond that range are not modelled.
    - Python [dict] is an association list in insertion order.
    - A [float] and a [numpy.float64] are values of binary64 ([Binary64]):
      every operation rounds to the nearest value, ties to even, and
      overflows to an infinity.  A [numpy.int64] is a [Z] that the
      operations wrap around.  A sum of floats is computed where adding
      rounds nothing ([Binary64.summable]); elsewhere it depends on the
      order of the additions and is left to the [World].
    - A [try]/[except] block is a computation in the [result] monad followed
      by a handler.
    - What the program reads from outside (the clock, the table store, the
      inference services, the [json] and formatting libraries, the chart
      renderer) is a field of the record [World]. *)

From Stdlib Require Import List String Ascii ZArith QArith Qround Qabs Bool Lia.
From Stdlib Require Import Sorted.
From Stdlib Require Qcanon.
From Stdlib Require Import Permutation Lqa.
From Stdlib Require Import DecimalString DecimalZ Decimal.
Import ListNotations.

Local Open Scope string_scope.
Local Open Scope Z_scope.

(** ** Exceptions and the result monad *)

Inductive exn : Type :=
| KeyError (msg : string)
| AttributeError (msg : string)
| TypeError (msg : string)
| ValueError (msg : string)
| ZeroDivisionError (msg : string)
| OverflowError (msg : string)
| RuntimeError (msg : string).

(** [str(e)] *)
Definition str_exn (e : exn) : string :=
  match e with
  | KeyError m | AttributeError m | TypeError m | ValueError m
  | ZeroDivisionError m | OverflowError m | RuntimeError m => m
  end.

Inductive result (A : Type) : Type :=
| Ok (a : A)
| Raise (e : exn).
Arguments Ok {A} a.
Arguments Raise {A} e.

Definition bind {A B} (r : result A) (k : A -> result B) : result B :=
  match r with
  | Ok a => k a
  | Raise e => Raise e
  end.

Declare Scope py_scope.
Delimit Scope py_scope with py.
Notation "x <- c ;; k" := (bind c (fun x => k))
  (at level 61, c at next level, right associativity) : py_scope.
Notation "' p <- c ;; k" := (bind c (fun x => let p := x in k))
  (at level 61, p pattern, c at next level, right associativity) : py_scope.
Local Open Scope py_scope.

(** [try: body except Exception as e: handler(e)] *)
Definition try_except {A} (body : result A) (handler : exn -> A) : A :=
  match body with
  | Ok a => a
  | Raise e => handler e
  end.

(** a loop that collects results and stops at the first exception *)
Fixpoint mapM {A B} (f : A -> result B) (l : list A) : result (list B) :=
  match l with
  | [] => Ok []
  | a :: l' => b <- f a ;; bs <- mapM f l' ;; Ok (b :: bs)
  end.

(** ** Strings *)

Module Str.

Definition dq : string := String (ascii_of_nat 34) EmptyString.
Definition nl : string := String (ascii_of_nat 10) EmptyString.

Definition code (c : ascii) : nat := nat_of_ascii c.

(** [s.isascii()]: every character of [s] is in the ASCII range.  On such
    a text the functions of this module are those of [str] and [re]; the
    letters, digits and spaces that Python knows beyond that range are not
    modelled. *)
Fixpoint isascii (s : string) : bool :=
  match s with
  | EmptyString => true
  | String c s' => (code c <? 128)%nat && isascii s'
  end.

Definition is_upper (c : ascii) : bool :=
  (65 <=? code c)%nat && (code c <=? 90)%nat.

Definition is_lower (c : ascii) : bool :=
  (97 <=? code c)%nat && (code c <=? 122)%nat.

Definition is_digit (c : ascii) : bool :=
  (48 <=? code c)%nat && (code c <=? 57)%nat.

(** [\w] of the [re] module, on ASCII *)
Definition is_word (c : ascii) : bool :=
  is_upper c || is_lower c || is_digit c || (code c =? 95)%nat.

(** [str.isspace], on ASCII: tab .. carriage return, the four separators
    and the space *)
Definition is_space (c : ascii) : bool :=
  ((9 <=? code c)%nat && (code c <=? 13)%nat)
  || ((28 <=? code c)%nat && (code c <=? 32)%nat).

Definition lower_char (c : ascii) : ascii :=
  if is_upper c then ascii_of_nat (code c + 32) else c.

(** [s.lower()] *)
Fixpoint lower (s : string) : string :=
  match s with
  | EmptyString => EmptyString
  | String c s' => String (lower_char c) (lower s')
  end.

(** [s.startswith(p)] *)
Fixpoint startswith (p s : string) : bool :=
  match p, s with
  | EmptyString, _ => true
  | String _ _, EmptyString => false
  | String a p', String b s' => Ascii.eqb a b && startswith p' s'
  end.

(** [sub in s] *)
Fixpoint contains (sub s : string) : bool :=
  startswith sub s
  || match s with
     | EmptyString => false
     | String _ s' => contains sub s'
     end.

(** [any(word in s for word in words)] *)
Definition contains_any (words : list string) (s : string) : bool :=
  existsb (fun w => contains w s) words.

Fixpoint lstrip (s : string) : string :=
  match s with
  | EmptyString => EmptyString
  | String c s' => if is_space c then lstrip s' else s
  end.

Fixpoint rstrip (s : string) : string :=
  match s with
  | EmptyString => EmptyString
  | String c s' =>
      match rstrip s' with
      | EmptyString => if is_space c then EmptyString else String c EmptyString
      | r => String c r
      end
  end.

(** [s.strip()] *)
Definition strip (s : string) : string := rstrip (lstrip s).

Definition is_empty (s : string) : bool :=
  match s with EmptyString => true | _ => false end.

Fixpoint drop (n : nat) (s : string) : string :=
  match n, s with
  | O, _ => s
  | S _, EmptyString => EmptyString
  | S n', String _ s' => drop n' s'
  end.

(** [re.search(rf'\b{key}\b', s)] for a [key] made of word characters:
    an occurrence of [key] with no word character on either side.
    [prev] tells whether the character before [s] is a word character. *)
Fixpoint search_word_from (prev : bool) (key s : string) : bool :=
  match s with
  | EmptyString => false
  | String c s' =>
      (negb prev && startswith key s
       && match drop (String.length key) s with
          | EmptyString => true
          | String d _ => negb (is_word d)
          end)
      || search_word_from (is_word c) key s'
  end.

Definition search_word (key s : string) : bool :=
  search_word_from false key s.

(** [re.match(r'20\d{2}', s)]: the pattern at the head of [s] *)
Definition match_year (s : string) : option string :=
  match s with
  | String c0 (String c1 (String a (String b _))) =>
      if Ascii.eqb c0 "2" && Ascii.eqb c1 "0" && is_digit a && is_digit b
      then Some (String c0 (String c1 (String a (String b EmptyString))))
      else None
  | _ => None
  end.

(** [re.search(r'20\d{2}', s)]: the leftmost match, as [m.group()] *)
Fixpoint search_year (s : string) : option string :=
  match match_year s with
  | Some y => Some y
  | None =>
      match s with
      | EmptyString => None
      | String _ s' => search_year s'
      end
  end.

End Str.

(** [str(n)] *)
Definition str_int (z : Z) : string := NilZero.string_of_int (Z.to_int z).

(** ** Calendar: [calendar], [datetime] and [dateutil.relativedelta] *)

Module Calendar.

Record datetime : Type := mkDatetime {
  year : Z; month : Z; day : Z; hour : Z; minute : Z; second : Z
}.

Definition MINYEAR : Z := 1.
Definition MAXYEAR : Z := 9999.

(** [calendar.isleap] *)
Definition isleap (y : Z) : bool :=
  (y mod 4 =? 0) && (negb (y mod 100 =? 0) || (y mod 400 =? 0)).

(** [calendar.mdays] *)
Definition mdays : list Z := [0; 31; 28; 31; 30; 31; 30; 31; 31; 30; 31; 30; 31].

Definition February : Z := 2.

(** [calendar.monthrange(year, month)[1]] *)
Definition monthrange_days (y m : Z) : result Z :=
  if (1 <=? m) && (m <=? 12)
  then Ok (nth (Z.to_nat m) mdays 0
           + (if (m =? February) && isleap y then 1 else 0))
  else Raise (ValueError "bad month number; must be 1-12").

(** [datetime.date(y, m, d)] *)
Definition date (y m d : Z) : result datetime :=
  if negb ((MINYEAR <=? y) && (y <=? MAXYEAR))
  then Raise (ValueError "year is out of range")
  else if negb ((1 <=? m) && (m <=? 12))
  then Raise (ValueError "month must be in 1..12")
  else
    dim <- monthrange_days y m ;;
    if (1 <=? d) && (d <=? dim)
    then Ok (mkDatetime y m d 0 0 0)
    else Raise (ValueError "day is out of range for month").

(** [dt.replace(year=y, month=m, day=d)] *)
Definition replace (dt : datetime) (y m d : Z) : result datetime :=
  _ <- date y m d ;;
  Ok (mkDatetime y m d (hour dt) (minute dt) (second dt)).

(** [dt - relativedelta(months=1)], that is [relativedelta(months=-1)]
    added to [dt] *)
Definition sub_one_month (dt : datetime) : result datetime :=
  let y := year dt in
  let m := month dt + -1 in
  let '(y, m) :=
    if m >? 12 then (y + 1, m - 12)
    else if m <? 1 then (y - 1, m + 12)
    else (y, m) in
  dim <- monthrange_days y m ;;
  replace dt y m (Z.min dim (day dt)).

Definition digit (z : Z) : string :=
  String (ascii_of_nat (48 + Z.to_nat (z mod 10))) EmptyString.

Definition pad2 (z : Z) : string := digit (z / 10) ++ digit z.

Definition pad4 (z : Z) : string :=
  digit (z / 1000) ++ digit (z / 100) ++ digit (z / 10) ++ digit z.

(** [d.strftime("%Y-%m-%d")]: the C library writes the year as it is,
    without leading zeros, and the month and the day on two digits *)
Definition strftime_Ymd (dt : datetime) : string :=
  str_int (year dt) ++ "-" ++ pad2 (month dt) ++ "-" ++ pad2 (day dt).

(** the date of [ts.isoformat()]: the year on four digits *)
Definition isodate (dt : datetime) : string :=
  pad4 (year dt) ++ "-" ++ pad2 (month dt) ++ "-" ++ pad2 (day dt).

(** [ts.isoformat()] of a timestamp with whole seconds *)
Definition isoformat (dt : datetime) : string :=
  isodate dt ++ "T" ++ pad2 (hour dt) ++ ":" ++ pad2 (minute dt)
  ++ ":" ++ pad2 (second dt).

(** order of timestamps *)
Definition ordinal (dt : datetime) : Z :=
  ((((year dt * 12 + (month dt - 1)) * 31 + (day dt - 1)) * 24 + hour dt)
     * 60 + minute dt) * 60 + second dt.

(** [ts.to_period('M')]: a calendar month *)
Definition period : Type := (Z * Z)%type.

Definition to_period_M (dt : datetime) : period := (year dt, month dt).

Definition period_ordinal (p : period) : Z := fst p * 12 + (snd p - 1).

(** [str(period)]: ["YYYY-MM"] *)
Definition str_period (p : period) : string :=
  pad4 (fst p) ++ "-" ++ pad2 (snd p).

Definition valid (dt : datetime) : Prop :=
  MINYEAR <= year dt <= MAXYEAR /\ 1 <= month dt <= 12 /\ 1 <= day dt <= 31
  /\ 0 <= hour dt < 24 /\ 0 <= minute dt < 60 /\ 0 <= second dt < 60.

End Calendar.

(** [int(s)] on decimal numerals *)
Definition int_of_str (s : string) : result Z :=
  match NilZero.int_of_string s with
  | Some d => Ok (Z.of_int d)
  | None => Raise (ValueError "invalid literal for int() with base 10")
  end.

(** ** Binary64: the numbers of [float] and [numpy.float64] *)

Module Binary64.

(** A [float] is a value of IEEE 754 binary64: not a number, an infinity,
    the negative zero, or the rational a finite value denotes; [fin 0] is
    the positive zero. *)
Inductive float : Type :=
| nan
| inf (negative : bool)
| negzero
| fin (q : Q).

(** [2^e] *)
Definition pow2 (e : Z) : Q :=
  if 0 <=? e then inject_Z (2 ^ e) else 1 # Z.to_pos (2 ^ (- e)).

Fixpoint is_pow2 (d : positive) : bool :=
  match d with
  | xH => true
  | xO d' => is_pow2 d'
  | xI _ => false
  end.

(** a fraction in lowest terms [n / 2^j] with [j <= 1074] and
    [|n| <= 2^53] is a binary64 value *)
Definition representable (r : Q) : bool :=
  is_pow2 (Qden r) && (Zpos (Qden r) <=? 2 ^ 1074)
  && (Z.abs (Qnum r) <=? 2 ^ 53).

(** rounding to the nearest integer, ties to even *)
Definition round_half_even (q : Q) : Z :=
  let f := Qfloor q in
  let r := (q - inject_Z f)%Q in
  if Qle_bool r (1 # 2)%Q && negb (Qeq_bool r (1 # 2)%Q) then f
  else if negb (Qle_bool r (1 # 2)%Q) then f + 1
  else if Z.even f then f else f + 1.

(** the binade of [q], not zero: [2^e <= |q| < 2^(e+1)] *)
Definition exponent (q : Q) : Z :=
  let e := Z.log2 (Z.abs (Qnum q)) - Z.log2 (Zpos (Qden q)) in
  if Qle_bool (pow2 e) (Qabs q) then e else e - 1.

(** the binary64 value nearest to [q], not zero: 53 significant bits, no
    exponent under -1074, ties to the even significand; an infinity from
    [2^1024] on, and the zero of the sign of [q] under half the smallest
    value *)
Definition nearest (q : Q) : float :=
  let u := pow2 (Z.max (exponent q - 52) (-1074)) in
  let m := round_half_even (q / u) in
  let negative := negb (Qle_bool 0 q) in
  if m =? 0 then (if negative then negzero else fin 0)
  else
    let r := Qred (inject_Z m * u) in
    if Qle_bool (pow2 1024) (Qabs r) then inf negative else fin r.

(** rounding of a real number to binary64; the result is in lowest
    terms *)
Definition rnd (q : Q) : float :=
  let r := Qred q in
  if representable r then fin r else nearest r.

Definition is_zero_float (f : float) : bool :=
  match f with
  | negzero => true
  | fin q => Qeq_bool q 0
  | _ => false
  end.

(** the sign bit *)
Definition signbit (f : float) : bool :=
  match f with
  | nan => false
  | inf s => s
  | negzero => true
  | fin q => negb (Qle_bool 0 q)
  end.

Definition zero (negative : bool) : float :=
  if negative then negzero else fin 0.

(** [a - b] in binary64 *)
Definition fsub (a b : float) : float :=
  match a, b with
  | nan, _ | _, nan => nan
  | inf s, inf t => if Bool.eqb s t then nan else inf s
  | inf s, _ => inf s
  | _, inf t => inf (negb t)
  | negzero, negzero => fin 0
  | negzero, fin y => if Qeq_bool y 0 then negzero else rnd (- y)
  | fin x, negzero => fin x
  | fin x, fin y => rnd (x - y)
  end.

(** [a * b] in binary64 *)
Definition fmul (a b : float) : float :=
  match a, b with
  | nan, _ | _, nan => nan
  | inf s, x | x, inf s =>
      if is_zero_float x then nan else inf (xorb s (signbit x))
  | fin x, fin y =>
      if Qeq_bool x 0 || Qeq_bool y 0 then zero (xorb (signbit a) (signbit b))
      else rnd (x * y)
  | _, _ => zero (xorb (signbit a) (signbit b))
  end.

(** [a / b] in binary64: a division by zero is an infinity, or [nan] for
    a zero dividend *)
Definition fdiv (a b : float) : float :=
  match a, b with
  | nan, _ | _, nan => nan
  | inf _, inf _ => nan
  | inf s, x => inf (xorb s (signbit x))
  | x, inf t => zero (xorb (signbit x) t)
  | _, _ =>
      if is_zero_float b then
        (if is_zero_float a then nan else inf (xorb (signbit a) (signbit b)))
      else
        match a, b with
        | fin x, fin y =>
            if Qeq_bool x 0 then zero (xorb (signbit a) (signbit b))
            else rnd (x / y)
        | _, _ => zero (xorb (signbit a) (signbit b))
        end
  end.

(** the order: 0 for the finite values, -1 and 1 for the infinities *)
Definition rank (f : float) : Z :=
  match f with
  | inf true => -1
  | inf false => 1
  | _ => 0
  end.

Definition finite_value (f : float) : Q :=
  match f with
  | fin q => q
  | _ => 0%Q
  end.

Definition is_nan (f : float) : bool :=
  match f with nan => true | _ => false end.

(** [a < b] and [a <= b] in binary64: false when one of them is [nan] *)
Definition flt (a b : float) : bool :=
  negb (is_nan a) && negb (is_nan b)
  && ((rank a <? rank b)
      || ((rank a =? rank b)
          && negb (Qle_bool (finite_value b) (finite_value a)))).

Definition fle (a b : float) : bool :=
  negb (is_nan a) && negb (is_nan b)
  && ((rank a <? rank b)
      || ((rank a =? rank b) && Qle_bool (finite_value a) (finite_value b))).

(** *** Sums that round nothing *)

Definition Qsum (qs : list Q) : Q := fold_right Qplus 0%Q qs.

Definition Qabs_sum (qs : list Q) : Q :=
  fold_right (fun q a => Qabs q + a)%Q 0%Q qs.

(** [q] is an integer *)
Definition is_integer (q : Q) : bool := (Qden (Qred q) =? 1)%positive.

(** the numbers are multiples of [2^g], and their absolute values add up
    to [2^53] times [2^g] at most *)
Definition exact_at (g : Z) (qs : list Q) : bool :=
  forallb (fun q => is_integer (q / pow2 g)) qs
  && Qle_bool (Qabs_sum qs) (inject_Z (2 ^ 53) * pow2 g).

Fixpoint exact_below (n : nat) (g : Z) (qs : list Q) : bool :=
  match n with
  | O => false
  | S n' => if exact_at g qs then true else exact_below n' (g - 1) qs
  end.

(** [exact_at g] for some [g] from 0 down to -1074.  Each of the numbers
    is then a binary64 value and so is every sum of some of them: adding
    them in binary64 rounds nothing, in whatever order and by whatever
    algorithm. *)
Definition summable (qs : list Q) : bool := exact_below 1075 0 qs.

End Binary64.

(** ** Tables: the part of [pandas] the program uses *)

Module Pandas.
Import Calendar Binary64.

Inductive dtype : Type := int64 | float64 | bool_ | datetime64 | object.

Definition dtype_name (d : dtype) : string :=
  match d with
  | int64 => "int64"
  | float64 => "float64"
  | bool_ => "bool"
  | datetime64 => "datetime64[ns]"
  | object => "object"
  end.

(** A value in a table, or in a row as the source delivers it.  [CNaN] is
    the missing value of numeric columns and [NaT] in a column of
    timestamps; [CNone] is Python's [None].  [CInt] is an integer of the
    source, within the bounds of [int64]; [CFloat] is a finite value of
    binary64. *)
Inductive cell : Type :=
| CNone
| CNaN
| CInt (z : Z)
| CFloat (q : Q)
| CBool (b : bool)
| CStr (s : string)
| CTime (t : datetime).

(** [pd.isna] *)
Definition isna (c : cell) : bool :=
  match c with CNone | CNaN => true | _ => false end.

(** one row: column name to value, as [dict(entity)] *)
Definition row : Type := list (string * cell).

Fixpoint row_get (r : row) (c : string) : cell :=
  match r with
  | [] => CNaN
  | (k, v) :: r' => if String.eqb k c then v else row_get r' c
  end.

Record DataFrame : Type := mkDataFrame {
  columns : list (string * dtype);
  rows : list row
}.

Definition column_names (df : DataFrame) : list string :=
  map fst (columns df).

(** [c in df.columns] *)
Definition has_column (df : DataFrame) (c : string) : bool :=
  existsb (String.eqb c) (column_names df).

Fixpoint lookup_dtype (cols : list (string * dtype)) (c : string)
  : option dtype :=
  match cols with
  | [] => None
  | (k, d) :: cols' => if String.eqb k c then Some d else lookup_dtype cols' c
  end.

(** [df[c]]: the dtype and the values of a column *)
Definition get_column (df : DataFrame) (c : string)
  : result (dtype * list cell) :=
  match lookup_dtype (columns df) c with
  | Some d => Ok (d, map (fun r => row_get r c) (rows df))
  | None => Raise (KeyError c)
  end.

Fixpoint row_set (r : row) (c : string) (v : cell) : row :=
  match r with
  | [] => [(c, v)]
  | (k, x) :: r' => if String.eqb k c then (k, v) :: r' else (k, x) :: row_set r' c v
  end.

Fixpoint set_dtype (cols : list (string * dtype)) (c : string) (d : dtype)
  : list (string * dtype) :=
  match cols with
  | [] => [(c, d)]
  | (k, x) :: cols' =>
      if String.eqb k c then (k, d) :: cols' else (k, x) :: set_dtype cols' c d
  end.

(** [df[c] = f(df[c])], with the dtype of the new column *)
Definition map_column (df : DataFrame) (c : string) (d : dtype)
    (f : cell -> cell) : DataFrame :=
  mkDataFrame (set_dtype (columns df) c d)
              (map (fun r => row_set r c (f (row_get r c))) (rows df)).

(** [len(df)] *)
Definition len (df : DataFrame) : Z := Z.of_nat (List.length (rows df)).

(** [df.empty] *)
Definition empty (df : DataFrame) : bool :=
  match rows df, columns df with
  | [], _ | _, [] => true
  | _, _ => false
  end.

(** [df[keep]]: the listed columns, in the order of the list *)
Fixpoint select_dtypes (cols : list (string * dtype)) (keep : list string)
  : result (list (string * dtype)) :=
  match keep with
  | [] => Ok []
  | c :: keep' =>
      match lookup_dtype cols c with
      | None => Raise (KeyError (c ++ " not in index"))
      | Some d => rest <- select_dtypes cols keep' ;; Ok ((c, d) :: rest)
      end
  end.

Definition select_columns (df : DataFrame) (keep : list string)
  : result DataFrame :=
  cols <- select_dtypes (columns df) keep ;;
  Ok (mkDataFrame cols
        (map (fun r => map (fun c => (c, row_get r c)) keep) (rows df))).

(** [df.dropna(how='all')] *)
Definition dropna_all (df : DataFrame) : DataFrame :=
  mkDataFrame (columns df)
    (filter (fun r => existsb (fun c => negb (isna (row_get r c)))
                              (column_names df))
            (rows df)).

(** [df.dropna(subset=[c])] *)
Definition dropna_subset (df : DataFrame) (c : string) : DataFrame :=
  mkDataFrame (columns df)
    (filter (fun r => negb (isna (row_get r c))) (rows df)).

(** *** Building a table from rows: [pd.DataFrame(rows)] *)

Fixpoint add_new (seen : list string) (r : row) : list string :=
  match r with
  | [] => seen
  | (k, _) :: r' =>
      if existsb (String.eqb k) seen then add_new seen r'
      else add_new (seen ++ [k]) r'
  end.

(** the keys of all rows, in the order of their first appearance *)
Definition union_keys (rs : list row) : list string :=
  fold_left add_new rs [].

Definition is_int (c : cell) : bool :=
  match c with CInt _ => true | _ => false end.
Definition is_bool (c : cell) : bool :=
  match c with CBool _ => true | _ => false end.
Definition is_time (c : cell) : bool :=
  match c with CTime _ => true | _ => false end.
Definition is_number (c : cell) : bool :=
  match c with CInt _ | CFloat _ | CNaN => true | _ => false end.

(** the dtype [pandas] infers for a column of Python objects *)
Definition infer_dtype (cs : list cell) : dtype :=
  if forallb is_int cs then int64
  else if forallb is_bool cs then bool_
  else if forallb (fun c => is_number c || isna c) cs && existsb is_number cs
  then float64
  else if forallb (fun c => is_time c || isna c) cs && existsb is_time cs
  then datetime64
  else object.

(** a value stored in a column of the given dtype: in a column of floats
    an integer is rounded to binary64 *)
Definition store (d : dtype) (c : cell) : cell :=
  match d, c with
  | float64, CInt z =>
      match rnd (inject_Z z) with
      | fin q => CFloat q
      | _ => CNaN
      end
  | float64, CNone => CNaN
  | datetime64, CNone => CNaN
  | _, _ => c
  end.

Definition from_rows (rs : list row) : DataFrame :=
  let names := union_keys rs in
  let cols :=
    map (fun c => (c, infer_dtype (map (fun r => row_get r c) rs))) names in
  mkDataFrame cols
    (map (fun r => map (fun '(c, d) => (c, store d (row_get r c))) cols) rs).

End Pandas.

(** ** Python values *)

Module Py.
Export Binary64.
Import Calendar Pandas.

Unset Elimination Schemes.
Inductive pyval : Type :=
| PyNone
| PyBool (b : bool)
| PyInt (z : Z)                       (* native [int] *)
| PyFloat (f : float)                 (* native [float] *)
| PyStr (s : string)
| PyList (l : list pyval)
| PyTuple (l : list pyval)
| PyDict (d : list (string * pyval))
| NpInt64 (z : Z)                     (* [numpy.int64] scalar *)
| NpFloat64 (f : float)               (* [numpy.float64] scalar *)
| PyFrame (df : DataFrame).
Set Elimination Schemes.

Definition dict : Type := list (string * pyval).

(** [d.get(k)] *)
Fixpoint dict_get (d : dict) (k : string) : option pyval :=
  match d with
  | [] => None
  | (k', v) :: d' => if String.eqb k' k then Some v else dict_get d' k
  end.

(** [k in d] *)
Definition dict_has (d : dict) (k : string) : bool :=
  match dict_get d k with Some _ => true | None => false end.

(** [d[k] = v] *)
Fixpoint dict_set (d : dict) (k : string) (v : pyval) : dict :=
  match d with
  | [] => [(k, v)]
  | (k', x) :: d' =>
      if String.eqb k' k then (k', v) :: d' else (k', x) :: dict_set d' k v
  end.

(** a dict display or comprehension: later keys overwrite earlier ones *)
Definition dict_of (kvs : list (string * pyval)) : dict :=
  fold_left (fun d kv => dict_set d (fst kv) (snd kv)) kvs [].

Definition keys (d : dict) : list string := map fst d.

(** [type(v).__name__] *)
Definition type_name (v : pyval) : string :=
  match v with
  | PyNone => "NoneType"
  | PyBool _ => "bool"
  | PyInt _ => "int"
  | PyFloat _ => "float"
  | PyStr _ => "str"
  | PyList _ => "list"
  | PyTuple _ => "tuple"
  | PyDict _ => "dict"
  | NpInt64 _ => "numpy.int64"
  | NpFloat64 _ => "numpy.float64"
  | PyFrame _ => "DataFrame"
  end.

Definition Qeqb (a b : Q) : bool := Qeq_bool a b.
Definition Qltb (a b : Q) : bool := negb (Qle_bool b a).

(** truth value of an object, as [if v] and [not v] test it; a table has
    none *)
Definition truthy (v : pyval) : result bool :=
  match v with
  | PyNone => Ok false
  | PyBool b => Ok b
  | PyInt z | NpInt64 z => Ok (negb (z =? 0))
  | PyFloat f | NpFloat64 f => Ok (negb (is_zero_float f))
  | PyStr s => Ok (negb (Str.is_empty s))
  | PyList l | PyTuple l => Ok (match l with [] => false | _ => true end)
  | PyDict d => Ok (match d with [] => false | _ => true end)
  | PyFrame _ =>
      Raise (ValueError "The truth value of a DataFrame is ambiguous")
  end.

(** *** Numbers *)

(** a number seen by the arithmetic operators: whether it is a [numpy]
    scalar, and its value as an integer or a float *)
Inductive number : Type :=
| NInt (np : bool) (z : Z)
| NFloat (np : bool) (f : float).

Definition as_number (v : pyval) : option number :=
  match v with
  | PyBool b => Some (NInt false (if b then 1 else 0))
  | PyInt z => Some (NInt false z)
  | NpInt64 z => Some (NInt true z)
  | PyFloat f => Some (NFloat false f)
  | NpFloat64 f => Some (NFloat true f)
  | _ => None
  end.

Definition of_number (n : number) : pyval :=
  match n with
  | NInt false z => PyInt z
  | NInt true z => NpInt64 z
  | NFloat false f => PyFloat f
  | NFloat true f => NpFloat64 f
  end.

Definition is_np (n : number) : bool :=
  match n with NInt b _ | NFloat b _ => b end.

(** the bounds of [int64], and the wrap-around of its arithmetic *)
Definition fits64 (z : Z) : bool := (- 2 ^ 63 <=? z) && (z <? 2 ^ 63).

Definition wrap64 (z : Z) : Z := (z + 2 ^ 63) mod 2 ^ 64 - 2 ^ 63.

(** the conversion of a number to binary64 *)
Definition to_float (n : number) : float :=
  match n with
  | NInt _ z => rnd (inject_Z z)
  | NFloat _ f => f
  end.

(** the conversion of an operand: Python refuses an [int] beyond the
    range of binary64 *)
Definition as_float (n : number) : result float :=
  match n with
  | NInt false z =>
      match rnd (inject_Z z) with
      | inf _ => Raise (OverflowError "int too large to convert to float")
      | f => Ok f
      end
  | _ => Ok (to_float n)
  end.

Definition unsupported (op : string) (a b : pyval) : exn :=
  TypeError ("unsupported operand type(s) for " ++ op ++ ": '"
             ++ type_name a ++ "' and '" ++ type_name b ++ "'").

(** [a - b] and [a * b].  Two Python integers give the exact integer; with
    a [numpy.int64] the operation is the one of [int64], which wraps
    around, and a Python integer out of its bounds is refused; with a
    float the operation is the one of binary64. *)
Definition arith (name : string) (zop : Z -> Z -> Z)
    (fop : float -> float -> float) (a b : pyval) : result pyval :=
  match as_number a, as_number b with
  | Some (NInt p x), Some (NInt p' y) =>
      if p || p' then
        if fits64 x && fits64 y then Ok (NpInt64 (wrap64 (zop x y)))
        else Raise (OverflowError "Python integer out of bounds for int64")
      else Ok (PyInt (zop x y))
  | Some x, Some y =>
      fx <- as_float x ;;
      fy <- as_float y ;;
      Ok (of_number (NFloat (is_np x || is_np y) (fop fx fy)))
  | _, _ => Raise (unsupported name a b)
  end.

(** [a - b] *)
Definition sub : pyval -> pyval -> result pyval := arith "-" Z.sub fsub.

(** [a * b] *)
Definition mul : pyval -> pyval -> result pyval := arith "*" Z.mul fmul.

(** [a / b]: true division.  With a [numpy] scalar it is the division of
    binary64, which raises nothing.  Between Python numbers a zero divisor
    is an error, and the quotient of two integers is rounded once. *)
Definition truediv (a b : pyval) : result pyval :=
  match as_number a, as_number b with
  | Some x, Some y =>
      if is_np x || is_np y then
        fx <- as_float x ;;
        fy <- as_float y ;;
        Ok (NpFloat64 (fdiv fx fy))
      else
        match x, y with
        | NInt _ n, NInt _ d =>
            if d =? 0 then Raise (ZeroDivisionError "division by zero")
            else
              match rnd (inject_Z n / inject_Z d) with
              | inf _ =>
                  Raise (OverflowError
                           "integer division result too large for a float")
              | f => Ok (PyFloat f)
              end
        | _, _ =>
            fx <- as_float x ;;
            fy <- as_float y ;;
            if is_zero_float fy
            then Raise (ZeroDivisionError "float division by zero")
            else Ok (PyFloat (fdiv fx fy))
        end
  | _, _ => Raise (unsupported "/" a b)
  end.

(** the value of a number as Python compares it, an integer being exact *)
Definition exact (n : number) : float :=
  match n with
  | NInt _ z => fin (inject_Z z)
  | NFloat _ f => f
  end.

(** the two sides of a comparison: integers and Python numbers are
    compared by their exact values; [numpy] converts an integer that meets
    a float first *)
Definition sides (x y : number) : float * float :=
  match x, y with
  | NInt _ _, NInt _ _ => (exact x, exact y)
  | _, _ =>
      if is_np x || is_np y then (to_float x, to_float y)
      else (exact x, exact y)
  end.

(** [a < b], [a <= b] *)
Definition compare (name : string) (test : float -> float -> bool)
    (a b : pyval) : result bool :=
  match as_number a, as_number b with
  | Some x, Some y => Ok (test (fst (sides x y)) (snd (sides x y)))
  | _, _ => Raise (unsupported name a b)
  end.

(** [a > b] *)
Definition gt (a b : pyval) : result bool :=
  compare ">" (fun x y => flt y x) a b.

(** [v.item() if hasattr(v, "item") else v] *)
Definition item (v : pyval) : pyval :=
  match v with
  | NpInt64 z => PyInt z
  | NpFloat64 f => PyFloat f
  | _ => v
  end.

(** [hasattr(v, "item")]: a [numpy] scalar, boxed *)
Definition has_item (v : pyval) : bool :=
  match v with NpInt64 _ | NpFloat64 _ => true | _ => false end.

(** [round(x, 2)] of a float: the decimal value of [x] is rounded to two
    places, ties to even, and the result is the float nearest to that *)
Definition round2 (f : float) : float :=
  match f with
  | fin q =>
      let m := round_half_even (q * 100)%Q in
      if m =? 0 then zero (signbit f) else rnd (inject_Z m / 100)
  | _ => f
  end.

(** [float(v)] *)
Definition float_of (v : pyval) : result float :=
  match as_number v with
  | Some n => as_float n
  | None => Raise (TypeError "float() argument must be a string or a real number")
  end.

Definition Qtruncate (q : Q) : Z :=
  if Qle_bool 0%Q q then Qfloor q else Qceiling q.

(** [int(v)] of a number: truncation towards zero *)
Definition int_of (v : pyval) : result Z :=
  match as_number v with
  | Some (NInt _ z) => Ok z
  | Some (NFloat _ (fin q)) => Ok (Qtruncate q)
  | Some (NFloat _ negzero) => Ok 0
  | Some (NFloat _ nan) => Raise (ValueError "cannot convert float NaN to integer")
  | Some (NFloat _ (inf _)) =>
      Raise (OverflowError "cannot convert float infinity to integer")
  | None => Raise (TypeError "int() argument must be a string or a real number")
  end.

End Py.

(** ** [json]: the serialiser, and a reference parser for what it emits *)

Module Json.
Import Py.

Definition quote : ascii := ascii_of_nat 34.
Definition backslash : ascii := ascii_of_nat 92.

(** the body of a string literal; characters that need a [\u] escape are
    outside the model *)
Fixpoint escape (s : string) : result string :=
  match s with
  | EmptyString => Ok EmptyString
  | String c s' =>
      r <- escape s' ;;
      if Ascii.eqb c quote then Ok (String backslash (String quote r))
      else if Ascii.eqb c backslash then Ok (String backslash (String backslash r))
      else if (Str.code c <? 32)%nat || (126 <? Str.code c)%nat
      then Raise (RuntimeError "escape outside the model")
      else Ok (String c r)
  end.

Definition literal (s : string) : result string :=
  e <- escape s ;; Ok (String quote e ++ String quote EmptyString).

(** [json.dumps(v)] with the default separators; the text of a float is
    outside the model *)
Fixpoint dumps (v : pyval) : result string :=
  match v with
  | PyNone => Ok "null"
  | PyBool true => Ok "true"
  | PyBool false => Ok "false"
  | PyInt z => Ok (str_int z)
  | PyStr s => literal s
  | PyList l | PyTuple l =>
      items <- (fix go (l : list pyval) : result (list string) :=
                  match l with
                  | [] => Ok []
                  | x :: l' => a <- dumps x ;; r <- go l' ;; Ok (a :: r)
                  end) l ;;
      Ok ("[" ++ String.concat ", " items ++ "]")
  | PyDict d =>
      items <- (fix go (d : list (string * pyval)) : result (list string) :=
                  match d with
                  | [] => Ok []
                  | (k, x) :: d' =>
                      key <- literal k ;;
                      a <- dumps x ;;
                      r <- go d' ;;
                      Ok ((key ++ ": " ++ a) :: r)
                  end) d ;;
      Ok ("{" ++ String.concat ", " items ++ "}")
  | PyFloat _ | NpFloat64 _ => Raise (RuntimeError "float text outside the model")
  | NpInt64 _ | PyFrame _ =>
      Raise (TypeError ("Object of type " ++ type_name v
                        ++ " is not JSON serializable"))
  end.

(** *** A reference parser

    It reads the texts [dumps] writes: [null], [true], [false], integers,
    strings with the escapes above, arrays and objects. *)

Fixpoint skip_ws (s : string) : string :=
  match s with
  | String c s' => if Str.is_space c then skip_ws s' else s
  | EmptyString => s
  end.

(** the characters of a string literal up to its closing quote *)
Fixpoint parse_chars (s : string) : option (string * string) :=
  match s with
  | EmptyString => None
  | String c s' =>
      if Ascii.eqb c quote then Some (EmptyString, s')
      else if Ascii.eqb c backslash then
        match s' with
        | String e s'' =>
            if Ascii.eqb e quote || Ascii.eqb e backslash then
              match parse_chars s'' with
              | Some (r, rest) => Some (String e r, rest)
              | None => None
              end
            else None
        | EmptyString => None
        end
      else
        match parse_chars s' with
        | Some (r, rest) => Some (String c r, rest)
        | None => None
        end
  end.

Fixpoint take_digits (s : string) : string * string :=
  match s with
  | String c s' =>
      if Str.is_digit c
      then let '(d, rest) := take_digits s' in (String c d, rest)
      else (EmptyString, s)
  | EmptyString => (EmptyString, s)
  end.

Definition parse_int (s : string) : option (pyval * string) :=
  let '(sign, body) :=
    match s with
    | String "-" s' => (-1, s')
    | _ => (1, s)
    end in
  let '(digits, rest) := take_digits body in
  match digits, int_of_str digits, rest with
  | EmptyString, _, _ => None
  | _, _, String "." _ | _, _, String "e" _ | _, _, String "E" _ => None
  | _, Ok z, _ => Some (PyInt (sign * z), rest)
  | _, Raise _, _ => None
  end.

Fixpoint parse_value (fuel : nat) (s : string) : option (pyval * string) :=
  match fuel with
  | O => None
  | S fuel' =>
      let s := skip_ws s in
      if Str.startswith "null" s then Some (PyNone, Str.drop 4 s)
      else if Str.startswith "true" s then Some (PyBool true, Str.drop 4 s)
      else if Str.startswith "false" s then Some (PyBool false, Str.drop 5 s)
      else
        match s with
        | EmptyString => None
        | String c s' =>
            if Ascii.eqb c quote then
              match parse_chars s' with
              | Some (str, rest) => Some (PyStr str, rest)
              | None => None
              end
            else if Ascii.eqb c "[" then
              match skip_ws s' with
              | String "]" rest => Some (PyList [], rest)
              | _ =>
                  match parse_items fuel' s' with
                  | Some (l, rest) => Some (PyList l, rest)
                  | None => None
                  end
              end
            else if Ascii.eqb c "{" then
              match skip_ws s' with
              | String "}" rest => Some (PyDict [], rest)
              | _ =>
                  match parse_members fuel' s' with
                  | Some (d, rest) => Some (PyDict (dict_of d), rest)
                  | None => None
                  end
              end
            else parse_int s
        end
  end
with parse_items (fuel : nat) (s : string) : option (list pyval * string) :=
  match fuel with
  | O => None
  | S fuel' =>
      match parse_value fuel' s with
      | Some (v, rest) =>
          match skip_ws rest with
          | String "," rest' =>
              match parse_items fuel' rest' with
              | Some (l, rest'') => Some (v :: l, rest'')
              | None => None
              end
          | String "]" rest' => Some ([v], rest')
          | _ => None
          end
      | None => None
      end
  end
with parse_members (fuel : nat) (s : string)
  : option (list (string * pyval) * string) :=
  match fuel with
  | O => None
  | S fuel' =>
      match skip_ws s with
      | String c s' =>
          if Ascii.eqb c quote then
            match parse_chars s' with
            | Some (k, rest) =>
                match skip_ws rest with
                | String ":" rest' =>
                    match parse_value fuel' rest' with
                    | Some (v, rest'') =>
                        match skip_ws rest'' with
                        | String "," r =>
                            match parse_members fuel' r with
                            | Some (d, r') => Some ((k, v) :: d, r')
                            | None => None
                            end
                        | String "}" r => Some ([(k, v)], r)
                        | _ => None
                        end
                    | None => None
                    end
                | _ => None
                end
            | None => None
            end
          else None
      | EmptyString => None
      end
  end.

(** [json.loads(s)] on that subset *)
Definition loads (s : string) : result pyval :=
  match parse_value (2 * String.length s + 2) s with
  | Some (v, rest) =>
      match skip_ws rest with
      | EmptyString => Ok v
      | _ => Raise (ValueError "Extra data")
      end
  | None => Raise (ValueError "Expecting value")
  end.

End Json.

(** ** The world outside the program *)

(** the answer of the HTTP inference service: the call raises, or it
    returns a status code and a body; [text] is
    [response.json()['choices'][0]['text']], absent when the body has no
    such entry *)
Inductive http_outcome : Type :=
| HttpRaises (e : exn)
| HttpResponse (status_code : Z) (text : option Py.pyval).

(** the outcome of [subprocess.run]: the call raises (time-out, missing
    program), or the process completes *)
Inductive proc_outcome : Type :=
| ProcRaises (e : exn)
| ProcCompleted (returncode : Z) (stdout : string).

(** the report templates of the rule-based composer *)
Inductive template : Type :=
| Comprehensive | Comparison | Quality | OEE | Energy | Cost | Basic.

Record World : Type := mkWorld {
  (** [datetime.now()] *)
  now : Calendar.datetime;
  (** [pd.to_datetime(..., errors='coerce')] on one value that is neither
      missing nor a timestamp: a timestamp, [NaT] ([None]), or an error *)
  parse_datetime : Pandas.cell -> result (option Calendar.datetime);
  (** [pd.to_numeric(..., errors='coerce')] on one string: a [CInt], a
      [CFloat], or [CNaN] *)
  parse_numeric : string -> Z + Q + unit;
  (** a reduction ([sum], [mean]) that [pandas] leaves to the Python
      objects of a column *)
  object_reduce : string -> list Pandas.cell -> result Py.pyval;
  (** a reduction of floats that rounds on the way, by the routine that
      computes it (["Series.sum"], ["groupby.mean"], ...): the result
      depends on the order and the grouping of the additions *)
  float_reduce : string -> list Q -> Binary64.float;
  (** [str(v)] of a value that labels a dictionary entry *)
  label_of : Pandas.cell -> string;
  (** the table store: getting the table client, and
      [query_entities(filter)] *)
  get_table_client : result unit;
  query_entities : string -> result (list Pandas.row);
  (** the three inference services, by prompt (and model path) *)
  lm_studio : string -> http_outcome;
  llama_cpp : string -> proc_outcome;
  ollama : string -> string -> proc_outcome;
  (** [json.loads] and [json.dumps(v, indent=2)] *)
  json_loads : string -> result Py.pyval;
  json_dumps_indent : Py.pyval -> result string;
  (** [str(v)] of a value put into an f-string *)
  str_of : Py.pyval -> string;
  (** the f-string of [_prepare_data_summary], on the summary *)
  format_data_summary : Py.pyval -> result string;
  (** the f-string report templates: machine, summary, machine data *)
  render : template -> string -> Py.pyval -> Py.dict -> result string;
  (** [ChartGenerator.generate_charts], which catches its own errors *)
  generate_charts : Py.pyval -> Py.dict -> list Py.pyval
}.

(** ** [data_processor.py] *)

Module DataProcessor.
Import Calendar Pandas Py.

Section WithWorld.
Variable W : World.

(** *** Reductions of a column *)

Definition cell_Q (c : cell) : option Q :=
  match c with
  | CInt z => Some (inject_Z z)
  | CFloat q => Some q
  | CBool b => Some (if b then 1%Q else 0%Q)
  | _ => None
  end.

Definition cell_Z (c : cell) : Z :=
  match c with
  | CInt z => z
  | CBool true => 1
  | _ => 0
  end.

(** the numbers of a column, missing values skipped *)
Fixpoint numbers (cs : list cell) : list Q :=
  match cs with
  | [] => []
  | c :: cs' =>
      match cell_Q c with
      | Some q => q :: numbers cs'
      | None => numbers cs'
      end
  end.

Definition Zsum (zs : list Z) : Z := fold_right Z.add 0 zs.

(** the sum of floats: exact when adding them rounds nothing, and what the
    routine computes otherwise *)
Definition float_sum (routine : string) (qs : list Q) : float :=
  if summable qs then fin (Qred (Qsum qs)) else float_reduce W routine qs.

(** the mean of floats: the sum divided by the count, [nan] for no value *)
Definition float_mean (routine : string) (qs : list Q) : float :=
  match qs with
  | [] => nan
  | _ =>
      if summable qs
      then rnd (Qsum qs / inject_Z (Z.of_nat (List.length qs)))
      else float_reduce W routine qs
  end.

(** the sum of a column, missing values skipped: integers and booleans add
    up in [int64], which wraps around *)
Definition sum_of (routine : string) (s : dtype * list cell) : result pyval :=
  let '(d, cs) := s in
  match d with
  | int64 | bool_ => Ok (NpInt64 (wrap64 (Zsum (map cell_Z cs))))
  | float64 => Ok (NpFloat64 (float_sum routine (numbers cs)))
  | datetime64 =>
      Raise (TypeError "datetime64 type does not support sum operations")
  | object => object_reduce W "sum" cs
  end.

(** the mean of a column, missing values skipped: the values are added up
    as floats *)
Definition mean_of (routine : string) (s : dtype * list cell) : result pyval :=
  let '(d, cs) := s in
  match d with
  | int64 | bool_ | float64 =>
      Ok (NpFloat64 (float_mean routine (numbers cs)))
  | datetime64 | object => object_reduce W "mean" cs
  end.

(** [series.sum()] *)
Definition series_sum : dtype * list cell -> result pyval :=
  sum_of "Series.sum".

(** [series.mean()] *)
Definition series_mean : dtype * list cell -> result pyval :=
  mean_of "Series.mean".

(** *** Cleaning *)

Definition numeric_columns : list string :=
  [ "Ai_partcount"; "avg_apparent_power"; "avg_avail"; "avg_current";
    "avg_energy_consumption"; "avg_oee"; "avg_perf"; "avg_quality";
    "avg_reactive_power"; "avg_real_power"; "avg_total_energy";
    "total_part_count"; "total_part_reject"; "total_running"; "total_off";
    "total_idle"; "powerUnitCost" ].

(** [pd.to_datetime(df['date'], errors='coerce')], value by value *)
Definition to_datetime_cell (c : cell) : result cell :=
  match c with
  | CNone | CNaN => Ok CNaN
  | CTime t => Ok (CTime t)
  | _ =>
      r <- parse_datetime W c ;;
      Ok (match r with Some t => CTime t | None => CNaN end)
  end.

(** [df['date'] = pd.to_datetime(df['date'], errors='coerce')] *)
Definition convert_date (df : DataFrame) : result DataFrame :=
  ts <- mapM (fun r => to_datetime_cell (row_get r "date")) (rows df) ;;
  Ok (mkDataFrame (set_dtype (columns df) "date" datetime64)
        (map (fun '(r, t) => row_set r "date" t) (combine (rows df) ts))).

(** [pd.to_numeric(..., errors='coerce')] on one value of an object
    column *)
Definition to_numeric_cell (c : cell) : cell :=
  match c with
  | CInt z => CInt z
  | CFloat q => CFloat q
  | CBool b => CInt (if b then 1 else 0)
  | CStr s =>
      match parse_numeric W s with
      | inl (inl z) => CInt z
      | inl (inr q) => CFloat q
      | inr _ => CNaN
      end
  | _ => CNaN
  end.

(** [df[col] = pd.to_numeric(df[col], errors='coerce')]: a numeric column
    stays as it is; the values of another column are converted one by
    one, and the column is [int64] when all of them are integers *)
Definition convert_numeric (df : DataFrame) (col : string) : DataFrame :=
  match lookup_dtype (columns df) col with
  | Some int64 | Some float64 | Some bool_ | None => df
  | Some _ =>
      let cs := map (fun r => to_numeric_cell (row_get r col)) (rows df) in
      if forallb is_int cs
      then map_column df col int64 to_numeric_cell
      else map_column df col float64
             (fun c => store float64 (to_numeric_cell c))
  end.

Definition convert_numeric_columns (df : DataFrame) : DataFrame :=
  fold_left
    (fun df col => if has_column df col then convert_numeric df col else df)
    numeric_columns df.

(** [clean_dataframe]: the object [df] is updated in place while the
    function runs, so the handler returns what has been converted so far *)
Definition clean_dataframe (df : DataFrame) : DataFrame :=
  match (if has_column df "date" then convert_date df else Ok df) with
  | Raise _ => df
  | Ok df1 =>
      let df2 := convert_numeric_columns df1 in
      dropna_all df2
  end.

(** [sam_clean_dataframe] *)
Definition sam_clean_dataframe (df : DataFrame) : DataFrame :=
  match (if has_column df "date" then convert_date df else Ok df) with
  | Raise _ => df
  | Ok df1 =>
      let df2 := convert_numeric_columns df1 in
      let keep_columns :=
        (["date"] ++ filter (has_column df2) numeric_columns)%list in
      match select_columns df2 keep_columns with
      | Raise _ => df2
      | Ok df3 => dropna_all df3
      end
  end.

(** *** Date range *)

Definition default_date_range : pyval :=
  PyDict [("start", PyNone); ("end", PyNone); ("days", PyInt 0)].

Definition cell_eqb (a b : cell) : bool :=
  match a, b with
  | CNone, CNone | CNaN, CNaN => true
  | CInt x, CInt y => x =? y
  | CFloat x, CFloat y => Qeq_bool x y
  | CBool x, CBool y => Bool.eqb x y
  | CStr x, CStr y => String.eqb x y
  | CTime x, CTime y => ordinal x =? ordinal y
  | _, _ => false
  end.

(** [series.unique()] *)
Fixpoint unique (cs : list cell) : list cell :=
  match cs with
  | [] => []
  | c :: cs' => c :: filter (fun x => negb (cell_eqb c x)) (unique cs')
  end.

(** the timestamps of a column, [NaT] skipped *)
Fixpoint times (cs : list cell) : list datetime :=
  match cs with
  | [] => []
  | CTime t :: cs' => t :: times cs'
  | _ :: cs' => times cs'
  end.

Definition earliest (a b : datetime) : datetime :=
  if ordinal b <? ordinal a then b else a.

Definition latest (a b : datetime) : datetime :=
  if ordinal a <? ordinal b then b else a.

(** [series.dt.date], value by value: [NaT] stays *)
Definition dt_date (c : cell) : cell :=
  match c with
  | CTime t => CTime (mkDatetime (year t) (month t) (day t) 0 0 0)
  | _ => CNaN
  end.

(** [get_date_range].  The [.dt] accessor exists on a column of
    timestamps only. *)
Definition get_date_range (df : DataFrame) : pyval :=
  try_except
    (if has_column df "date" then
       '(d, cs) <- get_column df "date" ;;
       if negb (forallb isna cs) then
         match d, times cs with
         | datetime64, t :: ts =>
             Ok (PyDict
                   [("start", PyStr (isoformat (fold_left earliest ts t)));
                    ("end", PyStr (isoformat (fold_left latest ts t)));
                    ("days", PyInt (Z.of_nat
                                      (List.length (unique (map dt_date cs)))))])
         | _, _ =>
             Raise (AttributeError
                      "Can only use .dt accessor with datetimelike values")
         end
       else Ok default_date_range
     else Ok default_date_range)
    (fun _ => default_date_range).

(** *** File summary *)

(** [df[c].sum() if c in df.columns else 0] *)
Definition sum_or_zero (df : DataFrame) (c : string) : result pyval :=
  if has_column df c then s <- get_column df c ;; series_sum s
  else Ok (PyInt 0).

Definition mean_or_zero (df : DataFrame) (c : string) : result pyval :=
  if has_column df c then s <- get_column df c ;; series_mean s
  else Ok (PyInt 0).

(** [((produced - rejected) / produced) * 100] *)
Definition quality_formula (produced rejected : pyval) : result pyval :=
  d <- sub produced rejected ;;
  q <- truediv d produced ;;
  mul q (PyInt 100).

Definition get_file_summary_body (df : DataFrame) : result dict :=
  produced <- sum_or_zero df "Ai_partcount" ;;
  rejected <- sum_or_zero df "total_part_reject" ;;
  average_oee <- mean_or_zero df "avg_oee" ;;
  total_energy <- sum_or_zero df "avg_total_energy" ;;
  let summary :=
    dict_of [("total_records", PyInt (len df));
             ("total_parts_produced", produced);
             ("total_parts_rejected", rejected);
             ("average_oee", average_oee);
             ("total_energy", total_energy)] in
  positive <- gt produced (PyInt 0) ;;
  if positive then
    rate <- quality_formula produced rejected ;;
    Ok (dict_set summary "quality_rate" rate)
  else Ok (dict_set summary "quality_rate" (PyInt 0)).

(** [get_file_summary] *)
Definition get_file_summary (df : DataFrame) : dict :=
  try_except (get_file_summary_body df) (fun _ => []).

Definition sam_get_file_summary_body (df : DataFrame) : result dict :=
  produced <- sum_or_zero df "Ai_partcount" ;;
  rejected <- sum_or_zero df "total_part_reject" ;;
  avg_oee <- mean_or_zero df "avg_oee" ;;
  total_energy <- sum_or_zero df "avg_total_energy" ;;
  positive <- gt produced (PyInt 0) ;;
  quality_rate <-
    (if positive then quality_formula produced rejected else Ok (PyInt 0)) ;;
  produced_int <- int_of produced ;;
  rejected_int <- int_of rejected ;;
  avg_oee_float <- float_of avg_oee ;;
  total_energy_float <- float_of total_energy ;;
  quality_rate_float <- float_of quality_rate ;;
  Ok (dict_of [("total_records", PyInt (len df));
               ("total_parts_produced", PyInt produced_int);
               ("total_parts_rejected", PyInt rejected_int);
               ("average_oee", PyFloat (round2 avg_oee_float));
               ("total_energy", PyFloat (round2 total_energy_float));
               ("quality_rate", PyFloat (round2 quality_rate_float))]).

(** [sam_get_file_summary] *)
Definition sam_get_file_summary (df : DataFrame) : dict :=
  try_except (sam_get_file_summary_body df) (fun _ => []).

(** *** Machine summary *)

Definition count (c : cell) (cs : list cell) : nat :=
  List.length (filter (cell_eqb c) cs).

Fixpoint insert_by_count (x : cell * nat) (l : list (cell * nat))
  : list (cell * nat) :=
  match l with
  | [] => [x]
  | y :: l' =>
      if (snd y <=? snd x)%nat then x :: l else y :: insert_by_count x l'
  end.

(** [series.value_counts()]: the distinct values that are not missing with
    their number of occurrences, the most frequent first, and in the order
    of their first occurrence for equal counts *)
Definition value_counts (cs : list cell) : list (cell * nat) :=
  let present := filter (fun c => negb (isna c)) cs in
  fold_right insert_by_count []
    (map (fun c => (c, count c present)) (unique present)).

Definition label (c : cell) : string :=
  match c with
  | CStr s => s
  | _ => label_of W c
  end.

(** [df[c].value_counts().to_dict()] *)
Definition status_counts (df : DataFrame) (c : string) : result dict :=
  '(_, cs) <- get_column df c ;;
  Ok (dict_of (map (fun '(v, n) => (label v, PyInt (Z.of_nat n)))
                   (value_counts cs))).

Inductive how : Type := Sum | Mean.

(** one aggregate of a group, by the routines of [groupby] *)
Definition reduce (h : how) (s : dtype * list cell) : result pyval :=
  match h with
  | Sum => sum_of "groupby.sum" s
  | Mean => mean_of "groupby.mean" s
  end.

(** the calendar month of a row *)
Definition month_of (r : row) : option period :=
  match row_get r "date" with
  | CTime t => Some (to_period_M t)
  | _ => None
  end.

Fixpoint insert_period (p : period) (l : list period) : list period :=
  match l with
  | [] => [p]
  | q :: l' =>
      if period_ordinal p <? period_ordinal q then p :: l
      else if period_ordinal p =? period_ordinal q then l
      else q :: insert_period p l'
  end.

(** the group keys of [groupby]: the months that occur, in increasing
    order *)
Definition group_keys (rs : list row) : list period :=
  fold_right
    (fun r acc =>
       match month_of r with
       | Some p => insert_period p acc
       | None => acc
       end) [] rs.

Definition in_month (p : period) (r : row) : bool :=
  match month_of r with
  | Some q => period_ordinal q =? period_ordinal p
  | None => false
  end.

(** the rows of one group *)
Definition group (df : DataFrame) (p : period) : DataFrame :=
  mkDataFrame (columns df) (filter (in_month p) (rows df)).

Definition aggregate (df : DataFrame) (spec : list (string * how))
  : result (list (string * pyval)) :=
  mapM (fun '(c, h) => s <- get_column df c ;; v <- reduce h s ;; Ok (c, v))
       spec.

(** [df.groupby(df['date'].dt.to_period('M')).agg(spec)]: one row of
    aggregates per month.  A column of [spec] that the table lacks is a
    [KeyError]. *)
Definition groupby_month_agg (df : DataFrame) (spec : list (string * how))
  : result (list (period * list (string * pyval))) :=
  '(d, _) <- get_column df "date" ;;
  match d with
  | datetime64 =>
      match filter (fun c => negb (has_column df c)) (map fst spec) with
      | [] =>
          mapM (fun p => vs <- aggregate (group df p) spec ;; Ok (p, vs))
               (group_keys (rows df))
      | missing =>
          Raise (KeyError ("Column(s) [" ++ String.concat ", " missing
                           ++ "] do not exist"))
      end
  | _ =>
      Raise (AttributeError
               "Can only use .dt accessor with datetimelike values")
  end.

Definition is_numeric_dtype (d : dtype) : bool :=
  match d with int64 | float64 | bool_ => true | _ => false end.

(** [series.dtype in names] *)
Definition dtype_in (d : dtype) (names : list string) : bool :=
  existsb (String.eqb (dtype_name d)) names.

Definition get_machine_summary_body (df : DataFrame) : result dict :=
  let summary := get_file_summary df in
  (* machine status analysis *)
  summary <-
    (if has_column df "Machine Status" then
       counts <- status_counts df "Machine Status" ;;
       Ok (dict_set summary "machine_status_breakdown" (PyDict counts))
     else Ok summary) ;;
  (* maintenance analysis *)
  summary <-
    (if has_column df "Maintenance Flag" then
       '(d, cs) <- get_column df "Maintenance Flag" ;;
       maintenance_count <-
         (if dtype_in d ["int64"; "float64"] then series_sum (d, cs)
          else Ok (PyInt 0)) ;;
       Ok (dict_set summary "maintenance_events" maintenance_count)
     else Ok summary) ;;
  (* time-based analysis *)
  if has_column df "date" then
    let df_with_date := dropna_subset df "date" in
    if negb (empty df_with_date) then
      let summary :=
        dict_set summary "date_range" (get_date_range df_with_date) in
      monthly_data <-
        groupby_month_agg df_with_date
          [("Ai_partcount", Sum); ("avg_oee", Mean);
           ("avg_total_energy", Sum); ("energyCost", Sum)] ;;
      (* [.to_dict('index')] hands out native numbers *)
      let monthly :=
        dict_of (map (fun '(k, vs) =>
                        (str_period k,
                         PyDict (dict_of (map (fun '(c, v) => (c, item v)) vs))))
                     monthly_data) in
      Ok (dict_set summary "monthly_breakdown" (PyDict monthly))
    else Ok summary
  else Ok summary.

(** [get_machine_summary] *)
Definition get_machine_summary (df : DataFrame) : dict :=
  try_except (get_machine_summary_body df) (fun _ => []).

(** [.fillna(0)] on one aggregate *)
Definition fillna0 (v : pyval) : pyval :=
  match v with
  | NpFloat64 nan => NpFloat64 (fin 0%Q)
  | PyFloat nan => PyFloat (fin 0%Q)
  | PyNone => PyInt 0
  | _ => v
  end.

(** a value of a row handed out by [iterrows]: when every aggregated
    column is numeric the row is a [float64] series, whose items are
    native floats; otherwise the row holds the objects themselves *)
Definition row_item (all_numeric : bool) (v : pyval) : pyval :=
  if all_numeric then
    match as_number v with
    | Some n => PyFloat (to_float n)
    | None => v
    end
  else v.

Definition sam_get_machine_summary_body (df : DataFrame) : result dict :=
  let summary := get_file_summary df in
  let summary := map (fun '(k, v) => (k, item v)) summary in
  (* machine status breakdown *)
  summary <-
    (if has_column df "Machine Status" then
       counts <- status_counts df "Machine Status" ;;
       Ok (dict_set summary "machine_status_breakdown"
             (PyDict (map (fun '(k, v) => (k, item v)) counts)))
     else Ok summary) ;;
  (* maintenance events *)
  summary <-
    (if has_column df "Maintenance Flag" then
       '(d, cs) <- get_column df "Maintenance Flag" ;;
       if dtype_in d ["int64"; "float64"; "bool"] then
         total <- series_sum (d, cs) ;;
         n <- int_of total ;;
         Ok (dict_set summary "maintenance_events" (PyInt n))
       else Ok (dict_set summary "maintenance_events" (PyInt 0))
     else Ok summary) ;;
  (* date range + monthly breakdown *)
  if has_column df "date" then
    let df_with_date := dropna_subset df "date" in
    if negb (empty df_with_date) then
      let summary :=
        dict_set summary "date_range" (get_date_range df_with_date) in
      let monthly_agg :=
        ([("Ai_partcount", Sum); ("avg_oee", Mean); ("avg_total_energy", Sum)]
         ++ (if has_column df "energyCost" then [("energyCost", Sum)] else []))%list
      in
      monthly_data <- groupby_month_agg df_with_date monthly_agg ;;
      let all_numeric :=
        forallb (fun c => match lookup_dtype (columns df) c with
                          | Some d => is_numeric_dtype d
                          | None => false
                          end) (map fst monthly_agg) in
      let monthly_dict :=
        dict_of (map (fun '(period, row) =>
                        (str_period period,
                         PyDict (dict_of
                                   (map (fun '(k, v) =>
                                           (k, item (row_item all_numeric (fillna0 v))))
                                        row))))
                     monthly_data) in
      Ok (dict_set summary "monthly_breakdown" (PyDict monthly_dict))
    else Ok summary
  else Ok summary.

(** [sam_get_machine_summary] *)
Definition sam_get_machine_summary (df : DataFrame) : dict :=
  try_except (sam_get_machine_summary_body df) (fun _ => []).

(** *** Resolving the date of a query *)

Definition months : list (string * Z) :=
  [ ("january", 1); ("jan", 1);
    ("february", 2); ("feb", 2);
    ("march", 3); ("mar", 3);
    ("april", 4); ("apr", 4);
    ("may", 5);
    ("june", 6); ("jun", 6);
    ("july", 7); ("jul", 7);
    ("august", 8); ("aug", 8);
    ("september", 9); ("sep", 9); ("sept", 9);
    ("october", 10); ("oct", 10);
    ("november", 11); ("nov", 11);
    ("december", 12); ("dec", 12) ].

(** the loop over [months.items()], left at the first key found *)
Fixpoint first_month (table : list (string * Z)) (query_lower : string)
  : option Z :=
  match table with
  | [] => None
  | (key, value) :: table' =>
      if Str.search_word key query_lower then Some value
      else first_month table' query_lower
  end.

(** [_extract_date_from_query] *)
Definition _extract_date_from_query (query : string) : Z * string :=
  try_except
    (let query_lower := Str.lower query in
     if Str.contains "this month" query_lower then
       Ok (month (now W), str_int (year (now W)))
     else if Str.contains "last month" query_lower then
       last_month <- sub_one_month (now W) ;;
       Ok (month last_month, str_int (year last_month))
     else if Str.contains "this year" query_lower then
       Ok (1, str_int (year (now W)))
     else if Str.contains "last year" query_lower then
       Ok (1, str_int (year (now W) - 1))
     else
       let month := first_month months query_lower in
       let year :=
         match Str.search_year query_lower with
         | Some y => y
         | None => str_int (year (now W))
         end in
       let month :=
         match month with
         | Some m => if m =? 0 then 1 else m
         | None => 1
         end in
       Ok (month, year))
    (fun _ => (month (now W), str_int (year (now W)))).

(** *** Fetching the rows of a query *)

(** [date_start] and [date_end] of the resolved month *)
Definition date_window (month_year : Z * string) : result (string * string) :=
  let '(month, year) := month_year in
  y <- int_of_str year ;;
  first <- date y month 1 ;;
  last_day <- monthrange_days y month ;;
  last <- date y month last_day ;;
  Ok (strftime_Ymd first, strftime_Ymd last).

Definition filter_expr (machine date_start date_end : string) : string :=
  "device_name eq '" ++ machine ++ "' and date ge '" ++ date_start
  ++ "' and date le '" ++ date_end ++ "'".

Definition shape (df : DataFrame) : pyval :=
  PyTuple [PyInt (len df); PyInt (Z.of_nat (List.length (columns df)))].

(** the body of [get_specific_file_data], with the filters it sends to the
    table store *)
Definition get_specific_file_data_body (machine query : string)
  : list string * result dict :=
  let month_year := _extract_date_from_query query in
  match date_window month_year with
  | Raise e => ([], Raise e)
  | Ok (date_start, date_end) =>
      match get_table_client W with
      | Raise e => ([], Raise e)
      | Ok _ =>
          let filter := filter_expr machine date_start date_end in
          ([filter],
           rows <- query_entities W filter ;;
           match rows with
           | [] => Ok []
           | _ =>
               let df := from_rows rows in
               let df := sam_clean_dataframe df in
               Ok (dict_of
                     [("machine", PyStr machine);
                      ("files",
                       PyDict (dict_of
                         [("from_table",
                           PyDict (dict_of
                             [("dataframe", PyFrame df);
                              ("shape", shape df);
                              ("columns", PyList (map PyStr (column_names df)));
                              ("date_range", get_date_range df);
                              ("summary", PyDict (get_file_summary df))]))]));
                      ("combined_data", PyFrame df);
                      ("summary", PyDict (sam_get_machine_summary df))])
           end)
      end
  end.

(** the filters [get_specific_file_data] sends to the table store *)
Definition issued_filters (machine query : string) : list string :=
  fst (get_specific_file_data_body machine query).

(** [get_specific_file_data] *)
Definition get_specific_file_data (machine query : string) : dict :=
  try_except (snd (get_specific_file_data_body machine query)) (fun _ => []).

End WithWorld.
End DataProcessor.

(** ** [llama_client.py] *)

Module LlamaClient.
Import Py.

Section WithWorld.
Variable W : World.

(** [v[k]] *)
Definition getitem (v : pyval) (k : string) : result pyval :=
  match v with
  | PyDict d =>
      match dict_get d k with
      | Some x => Ok x
      | None => Raise (KeyError k)
      end
  | _ => Raise (TypeError ("'" ++ type_name v ++ "' object is not subscriptable"))
  end.

(** [v[0]] *)
Definition first_item (v : pyval) : result pyval :=
  match v with
  | PyTuple (x :: _) | PyList (x :: _) => Ok x
  | PyTuple [] | PyList [] => Raise (RuntimeError "index out of range")
  | PyDict _ => Raise (KeyError "0")
  | PyStr (String c _) => Ok (PyStr (String c EmptyString))
  | PyStr EmptyString => Raise (RuntimeError "index out of range")
  | _ => Raise (TypeError ("'" ++ type_name v ++ "' object is not subscriptable"))
  end.

(** [v.items()] *)
Definition items (v : pyval) : result dict :=
  match v with
  | PyDict d => Ok d
  | _ => Raise (AttributeError ("'" ++ type_name v
                                ++ "' object has no attribute 'items'"))
  end.

(** [v.get(k, default)] *)
Definition get (v : pyval) (k : string) (default : pyval) : result pyval :=
  match v with
  | PyDict d =>
      Ok (match dict_get d k with Some x => x | None => default end)
  | _ => Raise (AttributeError ("'" ++ type_name v
                                ++ "' object has no attribute 'get'"))
  end.

(** [str(v)] *)
Definition str (v : pyval) : string :=
  match v with
  | PyStr s => s
  | PyInt z => str_int z
  | PyBool true => "True"
  | PyBool false => "False"
  | PyNone => "None"
  | _ => str_of W v
  end.

Definition is_empty_dict (d : dict) : bool :=
  match d with [] => true | _ => false end.

(** [_prepare_data_context] *)
Definition _prepare_data_context (machine_data : dict) : string :=
  try_except
    (if is_empty_dict machine_data || negb (dict_has machine_data "files")
     then Ok "No data available"
     else
       files <- getitem (PyDict machine_data) "files" ;;
       entries <- items files ;;
       files_info <-
         mapM (fun '(filename, file_data) =>
                      shape <- getitem file_data "shape" ;;
                      n <- first_item shape ;;
                      Ok (filename ++ ": " ++ str n ++ " records"))
                   entries ;;
       Ok ("Files: " ++ String.concat ", " files_info))
    (fun _ => "Data context unavailable").

(** [_prepare_data_summary] *)
Definition _prepare_data_summary (machine_data : dict) : string :=
  try_except
    (if is_empty_dict machine_data || negb (dict_has machine_data "summary")
     then Ok "No summary available"
     else
       summary <- getitem (PyDict machine_data) "summary" ;;
       format_data_summary W summary)
    (fun _ => "Summary unavailable").

(** one line of a prompt, at the indentation of the source *)
Definition ln (s : string) : string := "            " ++ s ++ Str.nl.

Definition q (s : string) : string := Str.dq ++ s ++ Str.dq.

Definition analysis_prompt (query machine context : string) : string :=
  Str.nl
  ++ ln "Analyze this manufacturing data query and provide a structured response."
  ++ ln EmptyString
  ++ ln ("Machine: " ++ machine)
  ++ ln ("Available data: " ++ context)
  ++ ln EmptyString
  ++ ln ("User query: " ++ q query)
  ++ ln EmptyString
  ++ ln "Please analyze and respond with JSON format:"
  ++ ln "{"
  ++ ln ("    " ++ q "intent" ++ ": "
         ++ q "summary|comparison|trend|specific_metric|report" ++ ",")
  ++ ln ("    " ++ q "time_period" ++ ": "
         ++ q "specific dates or periods mentioned" ++ ",")
  ++ ln ("    " ++ q "metrics" ++ ": ["
         ++ q "list of specific metrics requested" ++ "],")
  ++ ln ("    " ++ q "needs_chart" ++ ": true/false,")
  ++ ln ("    " ++ q "chart_types" ++ ": [" ++ q "bar" ++ ", " ++ q "line"
         ++ ", " ++ q "pie" ++ ", " ++ q "comparison" ++ "],")
  ++ ln ("    " ++ q "analysis_type" ++ ": " ++ q "descriptive analysis needed")
  ++ ln "}"
  ++ "            ".

Definition response_prompt (query machine analysis_json data_summary : string)
  : string :=
  Str.nl
  ++ ln ("You are a manufacturing data analyst AI assistant. Generate a comprehensive response to the user's query about machine "
         ++ machine ++ ".")
  ++ ln EmptyString
  ++ ln ("User Query: " ++ q query)
  ++ ln EmptyString
  ++ ln ("Analysis Context: " ++ analysis_json)
  ++ ln EmptyString
  ++ ln ("Data Summary: " ++ data_summary)
  ++ ln EmptyString
  ++ ln "Instructions:"
  ++ ln "1. Provide a clear, professional response"
  ++ ln "2. Include specific numbers and insights from the data"
  ++ ln "3. Mention key performance indicators (OEE, production rates, quality metrics)"
  ++ ln "4. Highlight any notable trends or patterns"
  ++ ln "5. Keep the response informative but concise"
  ++ ln "6. Use manufacturing terminology appropriately"
  ++ ln EmptyString
  ++ ln "Response:"
  ++ "            ".

Definition strs (l : list string) : pyval := PyList (map PyStr l).

Definition summary_intent : pyval :=
  PyDict (dict_of
    [("intent", PyStr "summary"); ("time_period", PyStr "current");
     ("metrics", strs ["OEE"; "Production"; "Quality"; "Energy"]);
     ("needs_chart", PyBool true);
     ("chart_types", strs ["bar"; "pie"; "line"]);
     ("files_needed", PyList []);
     ("analysis_type", PyStr "comprehensive_summary")]).

Definition comparison_intent : pyval :=
  PyDict (dict_of
    [("intent", PyStr "comparison"); ("time_period", PyStr "multi_period");
     ("metrics", strs ["OEE"; "Production"; "Quality"]);
     ("needs_chart", PyBool true);
     ("chart_types", strs ["bar"; "line"; "comparison"]);
     ("files_needed", PyList []);
     ("analysis_type", PyStr "comparative_analysis")]).

Definition trend_intent : pyval :=
  PyDict (dict_of
    [("intent", PyStr "trend"); ("time_period", PyStr "time_series");
     ("metrics", strs ["OEE"; "Energy"; "Production"]);
     ("needs_chart", PyBool true);
     ("chart_types", strs ["line"; "area"]);
     ("files_needed", PyList []);
     ("analysis_type", PyStr "trend_analysis")]).

Definition metric_intent : pyval :=
  PyDict (dict_of
    [("intent", PyStr "specific_metric"); ("time_period", PyStr "current");
     ("metrics", strs ["OEE"; "Production"]);
     ("needs_chart", PyBool true);
     ("chart_types", strs ["bar"]);
     ("files_needed", PyList []);
     ("analysis_type", PyStr "metric_analysis")]).

(** the intent chosen by [_rule_based_response] for an analysis request *)
Definition rule_based_intent (prompt_lower : string) : pyval :=
  if Str.contains_any ["summary"; "overview"; "report"] prompt_lower
  then summary_intent
  else if Str.contains_any ["compare"; "comparison"; "vs"] prompt_lower
  then comparison_intent
  else if Str.contains_any ["trend"; "over time"] prompt_lower
  then trend_intent
  else metric_intent.

(** [_rule_based_response]: the JSON text of an intent for an analysis
    request; the function ends without a [return] otherwise, which is
    [None] *)
Definition _rule_based_response (prompt : string) : result pyval :=
  let prompt_lower := Str.lower prompt in
  if Str.contains "analyze" prompt_lower && Str.contains "json" prompt_lower
  then text <- Json.dumps (rule_based_intent prompt_lower) ;; Ok (PyStr text)
  else Ok PyNone.

(** the primary service: [Some text] when it answers with status 200 and a
    body of the expected shape *)
Definition primary (prompt : string) : option pyval :=
  match lm_studio W prompt with
  | HttpResponse 200 (Some text) => Some text
  | HttpResponse _ _ => None
  | HttpRaises _ => None
  end.

(** the secondary service *)
Definition secondary (prompt : string) : option pyval :=
  match llama_cpp W prompt with
  | ProcCompleted returncode stdout =>
      if (returncode =? 0) && negb (Str.is_empty (Str.strip stdout))
         && negb (Str.startswith "ERROR:" stdout)
      then Some (PyStr (Str.strip stdout))
      else None
  | ProcRaises _ => None
  end.

Definition model_paths : list string :=
  ["./models/Vocalis-q4_k_m.gguf"; "./Vocalis-q4_k_m.gguf"; "vocalis"].

(** the loop over the alternative model paths *)
Fixpoint tertiary (paths : list string) (prompt : string) : option pyval :=
  match paths with
  | [] => None
  | model_path :: paths' =>
      match ollama W model_path prompt with
      | ProcCompleted returncode stdout =>
          if (returncode =? 0) && negb (Str.is_empty (Str.strip stdout))
          then Some (PyStr (Str.strip stdout))
          else tertiary paths' prompt
      | ProcRaises _ => tertiary paths' prompt
      end
  end.

(** [_call_llama] *)
Definition _call_llama (prompt : string) : result pyval :=
  match primary prompt with
  | Some text => Ok text
  | None =>
      match secondary prompt with
      | Some text => Ok text
      | None =>
          match tertiary model_paths prompt with
          | Some text => Ok text
          | None => _rule_based_response prompt
          end
      end
  end.

(** [_fallback_analysis] *)
Definition _fallback_analysis (query : string) : pyval :=
  let query_lower := Str.lower query in
  let intent :=
    if Str.contains_any ["summary"; "overview"; "report"] query_lower
    then "summary"
    else if Str.contains_any ["compare"; "comparison"; "vs"; "versus"] query_lower
    then "comparison"
    else if Str.contains_any ["trend"; "over time"; "change"] query_lower
    then "trend"
    else "specific_metric" in
  let needs_chart :=
    Str.contains_any ["chart"; "graph"; "visual"; "plot"; "show"] query_lower in
  PyDict (dict_of
    [("intent", PyStr intent); ("time_period", PyStr "all");
     ("metrics", strs ["OEE"; "Production"; "Quality"]);
     ("needs_chart", PyBool needs_chart);
     ("chart_types", strs ["bar"; "line"]);
     ("analysis_type", PyStr "basic_analysis")]).

(** [json.loads(response)] *)
Definition loads (response : pyval) : result pyval :=
  match response with
  | PyStr s => json_loads W s
  | _ => Raise (TypeError ("the JSON object must be str, bytes or bytearray, not "
                           ++ type_name response))
  end.

(** [analyze_query] *)
Definition analyze_query (query machine : string) (machine_data : dict)
  : pyval :=
  try_except
    (let context := _prepare_data_context machine_data in
     response <- _call_llama (analysis_prompt query machine context) ;;
     Ok (try_except (loads response) (fun _ => _fallback_analysis query)))
    (fun _ => _fallback_analysis query).

(** the template [_fallback_response] selects *)
Definition select_template (query_lower : string) : template :=
  if Str.contains_any ["summary"; "overview"; "report"] query_lower
  then Comprehensive
  else if Str.contains_any ["compare"; "comparison"] query_lower
  then Comparison
  else if Str.contains "quality" query_lower then Quality
  else if Str.contains "oee" query_lower then OEE
  else if Str.contains "energy" query_lower then Energy
  else if Str.contains "cost" query_lower then Cost
  else Basic.

(** [_fallback_response] *)
Definition _fallback_response (query machine : string) (machine_data : dict)
  : string :=
  try_except
    (if is_empty_dict machine_data || negb (dict_has machine_data "summary")
     then Ok ("No data available for machine " ++ machine
              ++ ". Please ensure the machine folder contains CSV files.")
     else
       summary <- getitem (PyDict machine_data) "summary" ;;
       let query_lower := Str.lower query in
       render W (select_template query_lower) machine summary machine_data)
    (fun _ => "Unable to process data for machine " ++ machine
              ++ ". Please check the data files and try again.").

(** [response.strip()] *)
Definition strip (response : pyval) : result string :=
  match response with
  | PyStr s => Ok (Str.strip s)
  | _ => Raise (AttributeError ("'" ++ type_name response
                                ++ "' object has no attribute 'strip'"))
  end.

(** [generate_response] *)
Definition generate_response (query machine : string) (machine_data : dict)
    (analysis : pyval) : string :=
  try_except
    (let data_summary := _prepare_data_summary machine_data in
     analysis_json <- json_dumps_indent W analysis ;;
     response <-
       _call_llama (response_prompt query machine analysis_json data_summary) ;;
     strip response)
    (fun _ => _fallback_response query machine machine_data).

End WithWorld.
End LlamaClient.

(** ** [routes.py] *)

Module Routes.
Import Py.

Section WithWorld.
Variable W : World.

(** [process_chat_query] *)
Definition process_chat_query (query machine : string) : dict :=
  try_except
    (let machine_data := DataProcessor.get_specific_file_data W machine query in
     if LlamaClient.is_empty_dict machine_data then
       Ok (dict_of
             [("response",
               PyStr ("No data found for machine " ++ machine
                      ++ ". Please check if the machine folder exists and contains CSV files."));
              ("charts", PyList []);
              ("type", PyStr "error")])
     else
       let analysis := LlamaClient.analyze_query W query machine machine_data in
       let response_text :=
         LlamaClient.generate_response W query machine machine_data analysis in
       query_specific <-
         truthy (match dict_get machine_data "query_specific" with
                 | Some v => v
                 | None => PyNone
                 end) ;;
       let response_text :=
         if query_specific then
           let requested_file :=
             match dict_get machine_data "requested_file" with
             | Some v => v
             | None => PyStr EmptyString
             end in
           "**Analysis for " ++ LlamaClient.str W requested_file ++ ":**"
           ++ Str.nl ++ Str.nl ++ response_text
         else response_text in
       needs_chart <- LlamaClient.get analysis "needs_chart" (PyBool false) ;;
       wanted <- truthy needs_chart ;;
       let charts :=
         if wanted then generate_charts W analysis machine_data else [] in
       Ok (dict_of
             [("response", PyStr response_text);
              ("type", PyStr "success");
              ("analysis", analysis);
              ("charts", PyList charts)]))
    (fun e =>
       dict_of
         [("response",
           PyStr ("I encountered an error while processing your request: "
                  ++ str_exn e));
          ("charts", PyList []);
          ("type", PyStr "error")]).

End WithWorld.
End Routes.

(** ** The specification's own notions *)

Module Spec.
Import Calendar Pandas Py.

(** "one calendar month before": January goes back to December of the
    previous year *)
Definition month_before (m y : Z) : Z * Z :=
  if m =? 1 then (12, y - 1) else (m - 1, y).

(** the leap-year rule: every fourth year, except the centuries that are
    not multiples of 400 *)
Definition leap_year (y : Z) : bool :=
  if y mod 400 =? 0 then true
  else if y mod 100 =? 0 then false
  else y mod 4 =? 0.

(** the days-in-month rule of the calendar *)
Definition days_in_month (y m : Z) : Z :=
  if m =? 2 then (if leap_year y then 29 else 28)
  else if existsb (Z.eqb m) [4; 6; 9; 11] then 30
  else 31.

(** a decimal digit *)
Definition digit_of (d : Z) : string :=
  match d with
  | 0 => "0" | 1 => "1" | 2 => "2" | 3 => "3" | 4 => "4"
  | 5 => "5" | 6 => "6" | 7 => "7" | 8 => "8" | _ => "9"
  end.

(** ["YYYY"]: a year on four digits *)
Definition four_digits (y : Z) : string :=
  digit_of (y / 1000) ++ digit_of (y / 100 mod 10) ++ digit_of (y / 10 mod 10)
  ++ digit_of (y mod 10).

(** ["MM"], ["DD"]: a month or a day on two digits *)
Definition two_digits (n : Z) : string :=
  digit_of (n / 10) ++ digit_of (n mod 10).

(** ["YYYY-MM-DD"] *)
Definition iso_date (y m d : Z) : string :=
  four_digits y ++ "-" ++ two_digits m ++ "-" ++ two_digits d.

(** the filter of the remote table query *)
Definition table_filter (machine : string) (y m : Z) : string :=
  "device_name eq '" ++ machine ++ "' and date ge '" ++ iso_date y m 1
  ++ "' and date le '" ++ iso_date y m (days_in_month y m) ++ "'".

(** the intents of a [QueryIntent] *)
Definition intents : list string :=
  ["summary"; "comparison"; "trend"; "specific_metric"; "report"].

Definition is_str (o : option pyval) : bool :=
  match o with Some (PyStr _) => true | _ => false end.
Definition is_list (o : option pyval) : bool :=
  match o with Some (PyList _) => true | _ => false end.
Definition is_boolean (o : option pyval) : bool :=
  match o with Some (PyBool _) => true | _ => false end.

(** a well-formed [QueryIntent]: a dictionary with the six fields of the
    data model, each of its kind *)
Definition well_formed_intent (v : pyval) : bool :=
  match v with
  | PyDict d =>
      match dict_get d "intent" with
      | Some (PyStr i) => existsb (String.eqb i) intents
      | _ => false
      end
      && is_str (dict_get d "time_period")
      && is_list (dict_get d "metrics")
      && is_boolean (dict_get d "needs_chart")
      && is_list (dict_get d "chart_types")
      && is_str (dict_get d "analysis_type")
  | _ => false
  end.




(** the answer to a prompt is no JSON: [json.loads] raises on what
    [_call_llama] returns *)
Definition answer_is_no_json (W : World) (prompt : string) : Prop :=
  exists response e,
    LlamaClient._call_llama W prompt = Ok response
    /\ LlamaClient.loads W response = Raise e.


(** the number a cell contributes to a sum: nothing when it is missing *)
Definition cell_number (c : cell) : Q :=
  match c with
  | CInt z => inject_Z z
  | CFloat q => q
  | CBool true => 1%Q
  | _ => 0%Q
  end.

(** the sum of a column over some rows *)
Definition column_sum (rs : list row) (c : string) : Q :=
  fold_right Qplus 0%Q (map (fun r => cell_number (row_get r c)) rs).

(** the rows with a date *)
Definition dated (rs : list row) : list row :=
  filter (fun r => negb (isna (row_get r "date"))) rs.

(** the value of a number: none for [nan] and the infinities *)
Definition number_value (v : pyval) : option Q :=
  match as_number v with
  | Some n =>
      match exact n with
      | fin q => Some q
      | negzero => Some 0%Q
      | _ => None
      end
  | None => None
  end.

(** the table-wide total of a column: zero when the table lacks it *)
Definition column_total (df : DataFrame) (c : string) : Q :=
  if has_column df c then column_sum (rows df) c else 0%Q.

(** the number in a field of a summary *)
Definition field (s : dict) (k : string) : option Q :=
  match dict_get s k with
  | Some v => number_value v
  | None => None
  end.

(** the order of calendar months *)
Definition earlier (p q : period) : Prop := period_ordinal p < period_ordinal q.

(** the sum of [f] over some rows *)
Definition sum_rows (f : row -> Q) (rs : list row) : Q :=
  fold_right Qplus 0%Q (map f rs).

(** what a row contributes to the group of month [k] *)
Definition share (f : row -> Q) (r : row) (k : period) : Q :=
  if DataProcessor.in_month k r then f r else 0%Q.

(** the aggregate of a numeric column in a group *)
Definition numeric_reduce (W : World) (h : DataProcessor.how) (d : dtype)
    (cs : list cell) : pyval :=
  match h, d with
  | DataProcessor.Sum, float64 =>
      NpFloat64 (DataProcessor.float_sum W "groupby.sum"
                   (DataProcessor.numbers cs))
  | DataProcessor.Sum, _ =>
      NpInt64 (wrap64 (DataProcessor.Zsum (map DataProcessor.cell_Z cs)))
  | DataProcessor.Mean, _ =>
      NpFloat64 (DataProcessor.float_mean W "groupby.mean"
                   (DataProcessor.numbers cs))
  end.

(** the aggregate of column [c] over the rows of month [p] *)
Definition numeric_agg (W : World) (df : DataFrame) (p : period) (c : string)
    (h : DataProcessor.how) : pyval :=
  match lookup_dtype (columns df) c with
  | Some d =>
      numeric_reduce W h d
        (map (fun r => row_get r c)
             (filter (DataProcessor.in_month p) (rows df)))
  | None => PyNone
  end.

(** the sum of the absolute values of the integers of a column *)
Definition Zabs_sum (zs : list Z) : Z := fold_right (fun z a => Z.abs z + a) 0 zs.

(** the values of a column add up without rounding and without wrapping
    around: floats that are [summable], integers whose absolute values add
    up to [2^53] at most *)
Definition exactly_summed (df : DataFrame) (c : string) : bool :=
  match lookup_dtype (columns df) c with
  | Some float64 =>
      summable (DataProcessor.numbers (map (fun r => row_get r c) (rows df)))
  | Some (int64 | bool_) =>
      Zabs_sum (map (fun r => DataProcessor.cell_Z (row_get r c)) (rows df))
      <=? 2 ^ 53
  | _ => true
  end.

(** a number of value [a] that binary64 holds: an integer of [2^53] at
    most, or a finite float in lowest terms *)
Definition holds (n : number) (a : Q) : Prop :=
  match n with
  | NInt _ z => Z.abs z <= 2 ^ 53 /\ (inject_Z z == a)%Q
  | NFloat _ (fin q) => q = Qred a
  | NFloat _ _ => False
  end.

(** a total as the summaries compute it: a [numpy] scalar, an integer
    within the bounds of [int64] or a float, or the integer 0 of a missing
    column *)
Definition is_total (v : pyval) : Prop :=
  (exists z, v = NpInt64 z /\ fits64 z = true)
  \/ (exists f, v = NpFloat64 f) \/ v = PyInt 0.

(** the quality rate of the totals [P] and [R] in binary64: the
    difference, the quotient and the product are rounded one after the
    other *)
Definition quality_rate (P R : Q) : float :=
  fmul (fdiv (rnd (P - R)) (fin (Qred P))) (fin 100).

(** the sum of a field over the months of a breakdown *)
Definition monthly_total (mb : dict) (c : string) : option Q :=
  fold_right
    (fun kv acc =>
       match snd kv, acc with
       | PyDict m, Some a =>
           match field m c with
           | Some q => Some (q + a)%Q
           | None => None
           end
       | _, _ => None
       end) (Some 0%Q) mb.

(** the entry of one month in the breakdown of [get_machine_summary] *)
Definition month_entry (W : World) (df : DataFrame) (p : period)
  : string * pyval :=
  (str_period p,
   PyDict
     [("Ai_partcount", item (numeric_agg W df p "Ai_partcount" DataProcessor.Sum));
      ("avg_oee", item (numeric_agg W df p "avg_oee" DataProcessor.Mean));
      ("avg_total_energy",
       item (numeric_agg W df p "avg_total_energy" DataProcessor.Sum));
      ("energyCost", item (numeric_agg W df p "energyCost" DataProcessor.Sum))]).

(** a native scalar: not a [numpy] scalar *)
Definition native (v : pyval) : bool := negb (has_item v).

(** every aggregate of a summary is native, the entries of the breakdowns
    included *)
Definition all_native (summary : dict) : bool :=
  forallb
    (fun '(_, v) =>
       match v with
       | PyDict inner =>
           forallb
             (fun '(_, x) =>
                match x with
                | PyDict month => forallb (fun '(_, y) => native y) month
                | _ => native x
                end) inner
       | _ => native v
       end) summary.

(** a value of the column has the kind its dtype announces *)
Definition cell_has_dtype (d : dtype) (c : cell) : bool :=
  match d, c with
  | int64, CInt _ => true
  | float64, (CFloat _ | CNaN) => true
  | bool_, CBool _ => true
  | datetime64, CNaN => true
  | datetime64, CTime t =>
      (0 <=? year t) && (year t <=? 9999) && (1 <=? month t) && (month t <=? 12)
  | object, _ => true
  | _, _ => false
  end.

Definition well_typed (df : DataFrame) : bool :=
  forallb (fun r => forallb (fun '(c, d) => cell_has_dtype d (row_get r c))
                            (columns df))
          (rows df).

Definition column_is (df : DataFrame) (c : string) (ok : dtype -> bool) : bool :=
  match lookup_dtype (columns df) c with
  | Some d => ok d
  | None => true
  end.

(** a [NormalizedTable]: the values fit their columns, the date column holds
    timestamps and the canonical numeric columns hold numbers *)
Definition normalized (df : DataFrame) : bool :=
  well_typed df
  && column_is df "date" (fun d => match d with datetime64 => true | _ => false end)
  && forallb (fun c => column_is df c DataProcessor.is_numeric_dtype)
             DataProcessor.numeric_columns.

End Spec.

(** ** Concrete worlds and tables *)

Module Examples.
Import Calendar Pandas Py.

Definition digit_value (c : ascii) : Z := Z.of_nat (Str.code c) - 48.

(** a date written ["YYYY-MM-DD"]; anything else is coerced to [NaT] *)
Definition parse_iso_date (c : cell) : result (option datetime) :=
  match c with
  | CStr (String y1 (String y2 (String y3 (String y4 (String "-"
           (String m1 (String m2 (String "-"
              (String d1 (String d2 EmptyString)))))))))) =>
      if forallb Str.is_digit [y1; y2; y3; y4; m1; m2; d1; d2] then
        Ok (Some (mkDatetime
                    (digit_value y1 * 1000 + digit_value y2 * 100
                     + digit_value y3 * 10 + digit_value y4)
                    (digit_value m1 * 10 + digit_value m2)
                    (digit_value d1 * 10 + digit_value d2) 0 0 0))
      else Ok None
  | _ => Ok None
  end.

Definition parse_integer (s : string) : Z + Q + unit :=
  match int_of_str s with
  | Ok z => inl (inl z)
  | Raise _ => inr tt
  end.

(** a sum of floats in the order of the rows, each addition rounded *)
Definition running_sum (qs : list Q) : float :=
  fold_left (fun acc q => fsub acc (rnd (- q))) qs (fin 0).

Definition reduce_in_order (routine : string) (qs : list Q) : float :=
  if Str.contains "mean" routine
  then fdiv (running_sum qs) (rnd (inject_Z (Z.of_nat (List.length qs))))
  else running_sum qs.

(** a world on 15 January 2024 whose inference services are all down and
    whose table store answers with [entities] *)
Definition offline (entities : list row) : World := {|
  now := mkDatetime 2024 1 15 10 30 0;
  parse_datetime := parse_iso_date;
  parse_numeric := parse_integer;
  object_reduce := fun _ _ => Raise (TypeError "unsupported operand");
  float_reduce := reduce_in_order;
  label_of := fun _ => "value";
  get_table_client := Ok tt;
  query_entities := fun _ => Ok entities;
  lm_studio := fun _ => HttpRaises (RuntimeError "connection refused");
  llama_cpp := fun _ => ProcCompleted 0 "ERROR: No module named llama_cpp";
  ollama := fun _ _ => ProcRaises (RuntimeError "No such file or directory");
  json_loads := Json.loads;
  json_dumps_indent := Json.dumps;
  str_of := fun _ => "value";
  format_data_summary := fun _ => Ok "Total Records: 1";
  render := fun _ machine _ _ => Ok ("Manufacturing Summary - Machine " ++ machine);
  generate_charts := fun _ _ => []
|}.

Definition jan15 : cell := CTime (mkDatetime 2024 1 15 0 0 0).
Definition feb02 : cell := CTime (mkDatetime 2024 2 2 8 0 0).

(** three parts produced, one rejected *)
Definition three_parts : DataFrame :=
  mkDataFrame
    [("Ai_partcount", float64); ("total_part_reject", float64)]
    [[("Ai_partcount", CFloat 3); ("total_part_reject", CFloat 1)]].

(** a table with every aggregated column, one row of which has no date *)
Definition undated_row : DataFrame :=
  mkDataFrame
    [("date", datetime64); ("Ai_partcount", float64); ("avg_oee", float64);
     ("avg_total_energy", float64); ("energyCost", float64)]
    [[("date", jan15); ("Ai_partcount", CFloat 5); ("avg_oee", CFloat 80);
      ("avg_total_energy", CFloat (3 # 2)); ("energyCost", CFloat 2)];
     [("date", CNaN); ("Ai_partcount", CFloat 7); ("avg_oee", CFloat 60);
      ("avg_total_energy", CFloat (1 # 2)); ("energyCost", CFloat 2)]].

(** the same columns, every row dated, over two months *)
Definition two_months : DataFrame :=
  mkDataFrame
    [("date", datetime64); ("Ai_partcount", float64); ("avg_oee", float64);
     ("avg_total_energy", float64); ("energyCost", float64)]
    [[("date", jan15); ("Ai_partcount", CFloat 5); ("avg_oee", CFloat 80);
      ("avg_total_energy", CFloat (3 # 2)); ("energyCost", CFloat 2)];
     [("date", feb02); ("Ai_partcount", CFloat 7); ("avg_oee", CFloat 60);
      ("avg_total_energy", CFloat (1 # 2)); ("energyCost", CFloat 2)]].

(** a table of canonical columns only: no [energyCost] *)
Definition canonical : DataFrame :=
  mkDataFrame
    [("date", datetime64); ("Ai_partcount", int64); ("avg_oee", float64);
     ("avg_total_energy", float64)]
    [[("date", jan15); ("Ai_partcount", CInt 5); ("avg_oee", CFloat 80);
      ("avg_total_energy", CFloat (3 # 2))]].

(** a table of part counts only, stored as integers *)
Definition part_counts : DataFrame :=
  mkDataFrame [("Ai_partcount", int64)] [[("Ai_partcount", CInt 5)]].

(** rows of the table store without a [date] *)
Definition dateless_rows : list row :=
  [[("Machine Status", CStr "Running"); ("Maintenance Flag", CInt 1);
    ("Ai_partcount", CInt 5)]].

(** rows of the table store with a [date] *)
Definition dated_rows : list row :=
  [[("date", CStr "2024-01-15"); ("Machine Status", CStr "Running");
    ("Maintenance Flag", CInt 1); ("Ai_partcount", CInt 5)]].


End Examples.

(** ** More of the program

    The functions of [data_processor.py], [llama_client.py], [routes.py]
    and [chart_generator.py] that the modules above leave out. *)

(** *** More of [str] and [re] *)

Module Text.

(** [s.endswith(p)] *)
Definition endswith (p s : string) : bool :=
  (String.length p <=? String.length s)%nat
  && String.eqb (Str.drop (String.length s - String.length p) s) p.

(** the digits at the head of [s] *)
Fixpoint digits_prefix (s : string) : string :=
  match s with
  | EmptyString => EmptyString
  | String c s' =>
      if Str.is_digit c then String c (digits_prefix s') else EmptyString
  end.

(** [re.findall(r'\d+', s)], its first element: the leftmost run of
    digits, as long as it goes (the digits of the ASCII range) *)
Fixpoint first_digits (s : string) : option string :=
  match s with
  | EmptyString => None
  | String c s' =>
      if Str.is_digit c then Some (digits_prefix s) else first_digits s'
  end.

End Text.

(** *** Comparisons of numbers *)

Module Num.
Import Py.

(** [a >= b] *)
Definition ge : pyval -> pyval -> result bool :=
  compare ">=" (fun x y => fle y x).

(** [a < b] *)
Definition lt : pyval -> pyval -> result bool := compare "<" flt.

(** [max(a, b)]: [b] when [b > a], [a] otherwise *)
Definition max2 (a b : pyval) : result pyval :=
  c <- gt b a ;; Ok (if c then b else a).

End Num.

(** *** Equality with a string, and membership *)

Module Membership.
Import Py.

(** the truth of [v == s] for a string [s]: a value that is no string
    compares unequal, and the comparison with a table has no truth value *)
Definition eq_str (v : pyval) (s : string) : result bool :=
  match v with
  | PyStr x => Ok (String.eqb x s)
  | PyFrame _ =>
      Raise (ValueError "The truth value of a DataFrame is ambiguous")
  | _ => Ok false
  end.

(** [s in l] for a list: the items are compared one after the other *)
Fixpoint list_has (s : string) (l : list pyval) : result bool :=
  match l with
  | [] => Ok false
  | x :: l' => c <- eq_str x s ;; if c then Ok true else list_has s l'
  end.

(** [s in v] for a string [s] *)
Definition str_in (s : string) (v : pyval) : result bool :=
  match v with
  | PyStr x => Ok (Str.contains s x)
  | PyList l | PyTuple l => list_has s l
  | PyDict d => Ok (dict_has d s)
  | PyFrame df => Ok (Pandas.has_column df s)
  | _ => Raise (TypeError ("argument of type '" ++ type_name v
                           ++ "' is not iterable"))
  end.

End Membership.

(** *** [data_processor.py]: the local folder and the filters *)

Module Loader.
Import Calendar Pandas Py DataProcessor.

(** the file system, as [os] and [os.path] show it *)
Record Files : Type := mkFiles {
  path_exists : string -> bool;
  listdir : string -> result (list string);
  isdir : string -> bool
}.

(** [os.path.join(a, b)], POSIX *)
Definition join (a b : string) : string :=
  if Str.startswith "/" b then b
  else if Str.is_empty a || Text.endswith "/" a then a ++ b
  else a ++ "/" ++ b.

(** [sys.int_info.default_max_str_digits] *)
Definition max_str_digits : nat := 4300.

(** [int(run)] for a run of digits: longer numerals than the limit are
    refused *)
Definition int_of_digits (run : string) : result Z :=
  if (max_str_digits <? String.length run)%nat
  then Raise (ValueError "Exceeds the limit (4300 digits) for integer string conversion")
  else int_of_str run.

(** the sort key of a machine folder:
    [int(re.findall(r'\d+', x)[0]) if re.findall(r'\d+', x) else 0] *)
Definition machine_key (x : string) : result Z :=
  match Text.first_digits x with
  | Some run => int_of_digits run
  | None => Ok 0
  end.

Fixpoint insert_by_key (kx : Z * string) (l : list (Z * string))
  : list (Z * string) :=
  match l with
  | [] => [kx]
  | ky :: l' =>
      if fst kx <=? fst ky then kx :: l else ky :: insert_by_key kx l'
  end.

(** [list.sort(key=...)] on the decorated list: the sort is stable, items
    with equal keys keep their order *)
Definition sort_by_key (l : list (Z * string)) : list (Z * string) :=
  fold_right insert_by_key [] l.

(** [get_available_machines] *)
Definition get_available_machines (F : Files) (data_folder : string)
  : list string :=
  try_except
    (machines <-
       (if path_exists F data_folder then
          items <- listdir F data_folder ;;
          Ok (filter (fun item => isdir F (join data_folder item)
                                  && Str.startswith "M" item) items)
        else Ok []) ;;
     keys <- mapM machine_key machines ;;
     Ok (map snd (sort_by_key (combine keys machines))))
    (fun _ => []).

Definition is_float (c : cell) : bool :=
  match c with CFloat _ => true | _ => false end.

(** whether the [.str] accessor refuses a column: it accepts the columns
    of objects that [pandas] infers to be strings, empty or mixed *)
Definition str_refused (d : dtype) (cs : list cell) : bool :=
  match d with
  | object =>
      match filter (fun c => negb (isna c)) cs with
      | [] => false
      | present =>
          forallb (fun c => is_int c || is_float c) present
          || forallb is_bool present || forallb is_time present
      end
  | _ => true
  end.

(** [series.str.lower() == name]: a value that is no string compares
    unequal *)
Definition operator_is (name_lower : string) (r : row) : bool :=
  match row_get r "Operator Name" with
  | CStr s => String.eqb (Str.lower s) name_lower
  | _ => false
  end.

(** [filter_by_operator] *)
Definition filter_by_operator (df : DataFrame) (operator_name : string)
  : result DataFrame :=
  if has_column df "Operator Name" then
    '(d, cs) <- get_column df "Operator Name" ;;
    if str_refused d cs
    then Raise (AttributeError "Can only use .str accessor with string values!")
    else Ok (mkDataFrame (columns df)
               (filter (operator_is (Str.lower operator_name)) (rows df)))
  else Ok df.

(** [df[df['Date'].dt.<field> == value]] *)
Definition where_date (field : datetime -> Z) (value : Z) (df : DataFrame)
  : result DataFrame :=
  '(d, _) <- get_column df "Date" ;;
  match d with
  | datetime64 =>
      Ok (mkDataFrame (columns df)
            (filter (fun r => match row_get r "Date" with
                              | CTime t => field t =? value
                              | _ => false
                              end) (rows df)))
  | _ =>
      Raise (AttributeError
               "Can only use .dt accessor with datetimelike values")
  end.

(** [filter_data_by_query] *)
Definition filter_data_by_query (df : DataFrame) (query : string)
  : DataFrame :=
  try_except
    (let query_lower := Str.lower query in
     filtered_df <-
       (if Str.contains "may" query_lower && has_column df "Date"
        then where_date month 5 df
        else if Str.contains "june" query_lower && has_column df "Date"
        then where_date month 6 df
        else Ok df) ;;
     match Str.search_year query with
     | Some year_match =>
         if has_column df "Date" then
           year <- int_of_str year_match ;;
           where_date Calendar.year year filtered_df
         else Ok filtered_df
     | None => Ok filtered_df
     end)
    (fun _ => df).

End Loader.

(** *** [llama_client.py]: the assessments and the comparison report *)

Module Reports.
Import Py.

(** [_get_quality_assessment] *)
Definition _get_quality_assessment (quality_rate : pyval) : result string :=
  c <- Num.ge quality_rate (PyInt 99) ;;
  if c then Ok "Exceptional quality performance - exceeding industry standards"
  else
    c <- Num.ge quality_rate (PyInt 95) ;;
    if c then Ok "Excellent quality control - meeting high-performance benchmarks"
    else
      c <- Num.ge quality_rate (PyInt 90) ;;
      if c then Ok "Good quality performance - within acceptable manufacturing standards"
      else
        c <- Num.ge quality_rate (PyInt 85) ;;
        if c then Ok "Average quality performance - room for improvement"
        else Ok "Below standard quality performance - immediate attention required".

Definition bullet : string :=
  String (ascii_of_nat 226) (String (ascii_of_nat 128)
    (String (ascii_of_nat 162) EmptyString)).

Definition rupee : string :=
  String (ascii_of_nat 226) (String (ascii_of_nat 130)
    (String (ascii_of_nat 185) EmptyString)).

(** the lines of a recommendation: [bullet] and a text, separated by line
    feeds *)
Definition bullets (lines : list string) : string :=
  String.concat Str.nl (map (fun l => bullet ++ " " ++ l) lines).

(** [_get_quality_recommendations] *)
Definition _get_quality_recommendations (quality_rate rejected_parts : pyval)
  : result string :=
  c <- Num.lt quality_rate (PyInt 90) ;;
  if c then
    Ok (bullets ["Implement enhanced quality control procedures";
                 "Review and optimize manufacturing processes";
                 "Increase inspection frequency";
                 "Provide additional operator training"])
  else
    c <- Num.lt quality_rate (PyInt 95) ;;
    if c then
      Ok (bullets ["Fine-tune process parameters";
                   "Implement preventive maintenance schedule";
                   "Monitor critical quality points"])
    else
      Ok (bullets ["Maintain current quality standards";
                   "Continue monitoring for consistent performance";
                   "Share best practices across other machines"]).

(** [_get_oee_analysis] *)
Definition _get_oee_analysis (oee : pyval) : result string :=
  c <- Num.ge oee (PyInt 85) ;;
  if c then Ok "World-class OEE performance - excellent operational efficiency"
  else
    c <- Num.ge oee (PyInt 75) ;;
    if c then Ok "Good OEE performance - above average manufacturing efficiency"
    else
      c <- Num.ge oee (PyInt 65) ;;
      if c then Ok "Average OEE performance - typical for manufacturing operations"
      else Ok "Below average OEE performance - significant improvement opportunities".

(** [_get_oee_recommendations] *)
Definition _get_oee_recommendations (oee : pyval) : result string :=
  c <- Num.lt oee (PyInt 65) ;;
  if c then
    Ok (bullets ["Focus on reducing planned and unplanned downtime";
                 "Optimize changeover procedures";
                 "Implement predictive maintenance";
                 "Address quality issues to reduce rework"])
  else
    c <- Num.lt oee (PyInt 75) ;;
    if c then
      Ok (bullets ["Reduce minor stops and speed losses";
                   "Improve operator efficiency";
                   "Optimize maintenance scheduling"])
    else
      Ok (bullets ["Fine-tune performance parameters";
                   "Implement continuous improvement practices";
                   "Benchmark against best-in-class operations"]).

Section WithFormat.

(** [format(value, spec)], the conversion of a replacement field
    [{value:spec}] of an f-string *)
Variable format : string -> pyval -> result string.

(** [len(v)] *)
Definition len (v : pyval) : result Z :=
  match v with
  | PyDict d => Ok (Z.of_nat (List.length d))
  | PyList l | PyTuple l => Ok (Z.of_nat (List.length l))
  | PyStr s => Ok (Z.of_nat (String.length s))
  | PyFrame df => Ok (Pandas.len df)
  | _ => Raise (TypeError ("object of type '" ++ type_name v ++ "' has no len()"))
  end.

(** [k in v] for a string [k] *)
Definition has_key (v : pyval) (k : string) : result bool :=
  Membership.str_in k v.

(** [_generate_basic_report] *)
Definition _generate_basic_report (machine : string) (summary : pyval)
  : result string :=
  produced <- LlamaClient.get summary "total_parts_produced" (PyInt 0) ;;
  produced <- format "," produced ;;
  quality <- LlamaClient.get summary "quality_rate" (PyInt 0) ;;
  quality <- format ".1f" quality ;;
  oee <- LlamaClient.get summary "average_oee" (PyInt 0) ;;
  oee <- format ".1f" oee ;;
  energy <- LlamaClient.get summary "total_energy" (PyInt 0) ;;
  energy <- format ".1f" energy ;;
  cost <- LlamaClient.get summary "total_cost" (PyInt 0) ;;
  cost <- format ",.2f" cost ;;
  records <- LlamaClient.get summary "total_records" (PyInt 0) ;;
  records <- format EmptyString records ;;
  operators <- LlamaClient.get summary "unique_operators" (PyInt 0) ;;
  operators <- format EmptyString operators ;;
  shifts <- LlamaClient.get summary "unique_shifts" (PyInt 0) ;;
  shifts <- format EmptyString shifts ;;
  parts <- LlamaClient.get summary "unique_parts" (PyInt 0) ;;
  parts <- format EmptyString parts ;;
  Ok (Str.nl
      ++ "**Manufacturing Summary - Machine " ++ machine ++ "**" ++ Str.nl
      ++ Str.nl
      ++ "**Key Metrics:**" ++ Str.nl
      ++ bullet ++ " Total Production: " ++ produced ++ " parts" ++ Str.nl
      ++ bullet ++ " Quality Rate: " ++ quality ++ "%" ++ Str.nl
      ++ bullet ++ " Average OEE: " ++ oee ++ "%" ++ Str.nl
      ++ bullet ++ " Energy Consumption: " ++ energy ++ " KwH" ++ Str.nl
      ++ bullet ++ " Total Cost: " ++ rupee ++ cost ++ Str.nl
      ++ Str.nl
      ++ "**Operational Overview:**" ++ Str.nl
      ++ "The machine has processed " ++ records
      ++ " production records with " ++ operators ++ " operators across "
      ++ shifts ++ " shifts, producing " ++ parts
      ++ " different part types." ++ Str.nl).

(** the figures of one month in the comparison:
    [data.get('Part Produced', 0)] and [data.get('OEE (%)', 0)] *)
Definition month_production (data : pyval) : result pyval :=
  LlamaClient.get data "Part Produced" (PyInt 0).

Definition month_oee (data : pyval) : result pyval :=
  LlamaClient.get data "OEE (%)" (PyInt 0).

(** the line of the first month, and of a month after [prev] *)
Definition first_line (month : string) (data : pyval) : result string :=
  production <- month_production data ;;
  oee <- month_oee data ;;
  _ <- LlamaClient.get data "Total_energy (KwH)" (PyInt 0) ;;
  p <- format "," production ;;
  o <- format ".1f" oee ;;
  Ok (bullet ++ " " ++ month ++ ": " ++ p ++ " parts, OEE: " ++ o ++ "%"
      ++ Str.nl).

Definition next_line (prev_month : string) (prev_data : pyval)
    (month : string) (data : pyval) : result string :=
  production <- month_production data ;;
  oee <- month_oee data ;;
  _ <- LlamaClient.get data "Total_energy (KwH)" (PyInt 0) ;;
  prev_production <- month_production prev_data ;;
  difference <- sub production prev_production ;;
  base <- LlamaClient.get prev_data "Part Produced" (PyInt 1) ;;
  base <- Num.max2 base (PyInt 1) ;;
  ratio <- truediv difference base ;;
  prod_change <- mul ratio (PyInt 100) ;;
  prev_oee <- month_oee prev_data ;;
  oee_change <- sub oee prev_oee ;;
  p <- format "," production ;;
  pc <- format "+.1f" prod_change ;;
  o <- format ".1f" oee ;;
  oc <- format "+.1f" oee_change ;;
  Ok (bullet ++ " " ++ month ++ ": " ++ p ++ " parts (" ++ pc ++ "% vs "
      ++ prev_month ++ "), OEE: " ++ o ++ "% (" ++ oc ++ "%)" ++ Str.nl).

(** the loop over [enumerate(monthly_data.items())], after the first
    month *)
Fixpoint next_lines (prev : string * pyval) (rest : list (string * pyval))
  : result string :=
  match rest with
  | [] => Ok EmptyString
  | entry :: rest' =>
      line <- next_line (fst prev) (snd prev) (fst entry) (snd entry) ;;
      more <- next_lines entry rest' ;;
      Ok (line ++ more)
  end.

Definition production_lines (monthly_data : list (string * pyval))
  : result string :=
  match monthly_data with
  | [] => Ok EmptyString
  | entry :: rest =>
      line <- first_line (fst entry) (snd entry) ;;
      more <- next_lines entry rest ;;
      Ok (line ++ more)
  end.

(** [max(items, key=...)] and [min(items, key=...)] with the key
    [x[1].get('OEE (%)', 0)]: the first item whose key none exceeds *)
Fixpoint extreme (better : pyval -> pyval -> result bool)
    (best : string * pyval) (rest : list (string * pyval))
  : result (string * pyval) :=
  match rest with
  | [] => Ok best
  | x :: rest' =>
      kx <- month_oee (snd x) ;;
      kb <- month_oee (snd best) ;;
      c <- better kx kb ;;
      extreme better (if c then x else best) rest'
  end.

Definition best_of (monthly_data : list (string * pyval))
  : result (string * pyval) :=
  match monthly_data with
  | [] => Raise (ValueError "max() arg is an empty sequence")
  | x :: rest => _ <- month_oee (snd x) ;; extreme gt x rest
  end.

Definition worst_of (monthly_data : list (string * pyval))
  : result (string * pyval) :=
  match monthly_data with
  | [] => Raise (ValueError "min() arg is an empty sequence")
  | x :: rest => _ <- month_oee (snd x) ;; extreme Num.lt x rest
  end.

(** the two wordings of the trend analysis, chosen by
    [(best - worst) < 10] *)
Definition trend_wording (best_oee worst_oee : pyval)
  : result (string * string) :=
  spread <- sub best_oee worst_oee ;;
  steady <- Num.lt spread (PyInt 10) ;;
  Ok (if steady then ("consistent", "stable operations")
      else ("variable", "opportunities for process optimization")).

(** the verdict of the comparison on a breakdown by month *)
Definition verdict (monthly_data : list (string * pyval))
  : result (string * string) :=
  best_month <- best_of monthly_data ;;
  worst_month <- worst_of monthly_data ;;
  best_oee <- month_oee (snd best_month) ;;
  worst_oee <- month_oee (snd worst_month) ;;
  trend_wording best_oee worst_oee.

(** [_generate_comparison_report] *)
Definition _generate_comparison_report (machine : string) (summary : pyval)
    (machine_data : dict) : result string :=
  present <- has_key summary "monthly_breakdown" ;;
  few <-
    (if present then
       breakdown <- LlamaClient.getitem summary "monthly_breakdown" ;;
       n <- len breakdown ;;
       Ok (n <? 2)
     else Ok true) ;;
  if few then _generate_basic_report machine summary
  else
    breakdown <- LlamaClient.getitem summary "monthly_breakdown" ;;
    monthly_data <- LlamaClient.items breakdown ;;
    months <- format EmptyString (PyInt (Z.of_nat (List.length monthly_data))) ;;
    lines <- production_lines monthly_data ;;
    best_month <- best_of monthly_data ;;
    worst_month <- worst_of monthly_data ;;
    best_oee <- month_oee (snd best_month) ;;
    worst_oee <- month_oee (snd worst_month) ;;
    best <- format ".1f" best_oee ;;
    worst <- format ".1f" worst_oee ;;
    spread <- sub best_oee worst_oee ;;
    variation <- format ".1f" spread ;;
    wording <- trend_wording best_oee worst_oee ;;
    Ok (Str.strip
          (Str.nl
           ++ "**Comparative Analysis Report - Machine " ++ machine ++ "**"
           ++ Str.nl ++ Str.nl
           ++ "**Period Comparison Overview:**" ++ Str.nl
           ++ "Analyzing performance across " ++ months
           ++ " time periods to identify trends and variations in manufacturing efficiency."
           ++ Str.nl ++ Str.nl
           ++ "**Production Comparison:**" ++ Str.nl
           ++ lines
           ++ Str.nl
           ++ "**Key Insights:**" ++ Str.nl
           ++ bullet ++ " Best Performance: " ++ fst best_month ++ " with "
           ++ best ++ "% OEE" ++ Str.nl
           ++ bullet ++ " Lowest Performance: " ++ fst worst_month ++ " with "
           ++ worst ++ "% OEE" ++ Str.nl
           ++ bullet ++ " Performance Variation: " ++ variation
           ++ "% OEE difference" ++ Str.nl
           ++ Str.nl
           ++ "**Trend Analysis:**" ++ Str.nl
           ++ "The data shows " ++ fst wording
           ++ " performance across time periods, indicating " ++ snd wording
           ++ "." ++ Str.nl)).

End WithFormat.
End Reports.

(** *** [chart_generator.py] *)

Module ChartGenerator.
Import Calendar Pandas Py DataProcessor.

Inductive chart : Type :=
| OeeDistribution | ProductionQuality | MonthlyComparison | ShiftComparison
| OeeTrend | EnergyTrend | MachineStatus | CostTrend.

Section WithPlot.
Variable W : World.

(** what the plotting of a chart gives once the guards of its creator are
    passed: the encoded image and the description, or an error raised on
    the way (by the grouping that feeds the plot, by [matplotlib]) *)
Variable draw : chart -> DataFrame -> result (string * string).

(** the number of groups of [df.groupby('Shift').agg(...)], or its error *)
Variable shift_groups : DataFrame -> result nat.

Definition chart_dict (type title image description : string) : pyval :=
  PyDict (dict_of [("type", PyStr type); ("title", PyStr title);
                   ("image", PyStr image); ("description", PyStr description)]).

(** [df.dropna(subset=cols)]: a label that is no column is a [KeyError] *)
Definition dropna_subsets (df : DataFrame) (cols : list string)
  : result DataFrame :=
  match filter (fun c => negb (has_column df c)) cols with
  | [] =>
      Ok (mkDataFrame (columns df)
            (filter (fun r => forallb (fun c => negb (isna (row_get r c))) cols)
                    (rows df)))
  | missing => Raise (KeyError (String.concat ", " missing))
  end.

(** [_create_oee_chart] *)
Definition _create_oee_chart (machine_name : string) (df : DataFrame)
  : option pyval :=
  try_except
    ('(_, cs) <- get_column df "avg_oee" ;;
     match filter (fun c => negb (isna c)) cs with
     | [] => Ok None
     | _ =>
         '(image, description) <- draw OeeDistribution df ;;
         Ok (Some (chart_dict "histogram"
                     ("OEE Performance Distribution - " ++ machine_name)
                     image description))
     end)
    (fun _ => None).

(** [_create_production_quality_chart] *)
Definition _create_production_quality_chart (df : DataFrame) : option pyval :=
  try_except
    (produced <- get_column df "total_part_count" ;;
     _ <- series_sum W produced ;;
     rejected <- get_column df "total_part_reject" ;;
     _ <- series_sum W rejected ;;
     '(image, description) <- draw ProductionQuality df ;;
     Ok (Some (chart_dict "pie" "Production Quality Overview"
                 image description)))
    (fun _ => None).

(** [_create_monthly_comparison_chart] *)
Definition _create_monthly_comparison_chart (df : DataFrame) : option pyval :=
  try_except
    (df_clean <- dropna_subsets df ["date"] ;;
     if empty df_clean then Ok None
     else
       monthly_data <-
         groupby_month_agg W df_clean
           [("total_part_count", Sum); ("avg_oee", Mean)] ;;
       if (List.length monthly_data <? 2)%nat then Ok None
       else
         '(image, description) <- draw MonthlyComparison df_clean ;;
         Ok (Some (chart_dict "combo" "Monthly Production and OEE Comparison"
                     image description)))
    (fun _ => None).

(** the columns of [shift_data]: the key and the aggregated columns *)
Definition shift_data_columns : list string :=
  ["Shift"; "total_part_count"; "avg_oee"; "total_part_reject"].

(** [shift_data[c]] *)
Definition shift_column (c : string) : result unit :=
  if existsb (String.eqb c) shift_data_columns then Ok tt
  else Raise (KeyError c).

(** [_create_shift_comparison_chart] *)
Definition _create_shift_comparison_chart (df : DataFrame) : option pyval :=
  try_except
    (groups <- shift_groups df ;;
     match groups with
     | O => Ok None
     | _ =>
         _ <- shift_column "Shift" ;;
         _ <- shift_column "Part Produced" ;;
         _ <- shift_column "Shift" ;;
         _ <- shift_column "OEE (%)" ;;
         '(image, description) <- draw ShiftComparison df ;;
         Ok (Some (chart_dict "bar" "Shift Performance Comparison"
                     image description))
     end)
    (fun _ => None).

(** the three trend charts: [_create_oee_trend_chart],
    [_create_energy_trend_chart] and [_create_cost_trend_chart] *)
Definition trend_chart (kind : chart) (value_column type title : string)
    (df : DataFrame) : option pyval :=
  try_except
    (df_clean <- dropna_subsets df ["Date"; value_column] ;;
     if empty df_clean then Ok None
     else
       '(image, description) <- draw kind df_clean ;;
       Ok (Some (chart_dict type title image description)))
    (fun _ => None).

Definition _create_oee_trend_chart : DataFrame -> option pyval :=
  trend_chart OeeTrend "OEE (%)" "line" "OEE Trend Over Time".

Definition _create_energy_trend_chart : DataFrame -> option pyval :=
  trend_chart EnergyTrend "Total_energy (KwH)" "area" "Energy Consumption Trend".

Definition _create_cost_trend_chart : DataFrame -> option pyval :=
  trend_chart CostTrend "Production Cost" "line" "Production Cost Trend".

(** [_create_machine_status_chart] *)
Definition _create_machine_status_chart (df : DataFrame) : option pyval :=
  try_except
    (_ <- get_column df "Machine Status" ;;
     '(image, description) <- draw MachineStatus df ;;
     Ok (Some (chart_dict "bar" "Machine Status Distribution"
                 image description)))
    (fun _ => None).

(** [if chart_data: charts.append(chart_data)] *)
Definition append_chart (charts : list pyval) (chart_data : option pyval)
  : list pyval :=
  match chart_data with
  | Some c => (charts ++ [c])%list
  | None => charts
  end.

(** [_generate_summary_charts] *)
Definition _generate_summary_charts (machine_name : string) (df : DataFrame)
  : list pyval :=
  let charts := [] in
  let charts :=
    if has_column df "avg_oee"
    then append_chart charts (_create_oee_chart machine_name df)
    else charts in
  if has_column df "total_part_count" && has_column df "total_part_rejected"
  then append_chart charts (_create_production_quality_chart df)
  else charts.

(** [_generate_comparison_charts] *)
Definition _generate_comparison_charts (df : DataFrame) : list pyval :=
  let charts := [] in
  let charts :=
    if has_column df "date"
    then append_chart charts (_create_monthly_comparison_chart df)
    else charts in
  if has_column df "Shift"
  then append_chart charts (_create_shift_comparison_chart df)
  else charts.

(** [_generate_trend_charts] *)
Definition _generate_trend_charts (df : DataFrame) : list pyval :=
  let charts := [] in
  if has_column df "date" then
    let charts :=
      if has_column df "avg_oee"
      then append_chart charts (_create_oee_trend_chart df)
      else charts in
    if has_column df "avg_total_energy"
    then append_chart charts (_create_energy_trend_chart df)
    else charts
  else charts.

(** [_generate_bar_charts] *)
Definition _generate_bar_charts (df : DataFrame) : list pyval :=
  if has_column df "Machine Status"
  then append_chart [] (_create_machine_status_chart df)
  else [].

(** [_generate_line_charts] *)
Definition _generate_line_charts (df : DataFrame) : list pyval :=
  if has_column df "date" && has_column df "energyCost"
  then append_chart [] (_create_cost_trend_chart df)
  else [].

(** a group of charts of a table; the generators catch what a value that
    is no table raises, and give no chart *)
Definition on_frame (generate : DataFrame -> list pyval) (df : pyval)
  : list pyval :=
  match df with
  | PyFrame d => generate d
  | _ => []
  end.

(** [generate_charts] *)
Definition generate_charts (analysis : pyval) (machine_data : dict)
  : list pyval :=
  try_except
    (let charts := [] in
     if LlamaClient.is_empty_dict machine_data
        || negb (dict_has machine_data "combined_data")
     then Ok charts
     else
       df <- LlamaClient.getitem (PyDict machine_data) "combined_data" ;;
       match df with
       | PyNone => Ok charts
       | _ =>
           machine_name <-
             LlamaClient.get (PyDict machine_data) "machine" (PyStr "Unknown") ;;
           let machine_name := LlamaClient.str W machine_name in
           intent <- LlamaClient.get analysis "intent" (PyStr "summary") ;;
           chart_types <-
             LlamaClient.get analysis "chart_types" (PyList [PyStr "bar"]) ;;
           is_summary <- Membership.eq_str intent "summary" ;;
           wants_summary <-
             (if is_summary then Ok true
              else
                analysis_type <-
                  LlamaClient.get analysis "analysis_type" (PyStr EmptyString) ;;
                Membership.str_in "summary" analysis_type) ;;
           let charts :=
             if wants_summary
             then (charts ++ on_frame (_generate_summary_charts machine_name) df)%list
             else charts in
           is_comparison <- Membership.eq_str intent "comparison" ;;
           let charts :=
             if is_comparison
             then (charts ++ on_frame _generate_comparison_charts df)%list
             else charts in
           is_trend <- Membership.eq_str intent "trend" ;;
           let charts :=
             if is_trend
             then (charts ++ on_frame _generate_trend_charts df)%list
             else charts in
           wants_bar <- Membership.str_in "bar" chart_types ;;
           let charts :=
             if wants_bar
             then (charts ++ on_frame _generate_bar_charts df)%list
             else charts in
           wants_line <- Membership.str_in "line" chart_types ;;
           let charts :=
             if wants_line
             then (charts ++ on_frame _generate_line_charts df)%list
             else charts in
           Ok (firstn 4 charts)
       end)
    (fun _ => []).

End WithPlot.
End ChartGenerator.

(** *** [routes.py]: the chat endpoint *)

Module Api.
Import Py.

(** what [jsonify] can serialise: no [numpy] integer, no table *)
Fixpoint serializable (v : pyval) : bool :=
  match v with
  | PyNone | PyBool _ | PyInt _ | PyFloat _ | PyStr _ | NpFloat64 _ => true
  | PyList l | PyTuple l => forallb serializable l
  | PyDict d => forallb (fun kv => serializable (snd kv)) d
  | NpInt64 _ | PyFrame _ => false
  end.

(** [jsonify(v)]: the payload of the response *)
Definition jsonify (v : pyval) : result pyval :=
  if serializable v then Ok v
  else Raise (TypeError ("Object of type " ++ type_name v
                         ++ " is not JSON serializable")).

Definition error (message : string) : pyval :=
  PyDict (dict_of [("error", PyStr message)]).

Section WithWorld.
Variable W : World.

(** [chat]: the payload and the status code; [request_json] is the outcome
    of [request.get_json()] *)
Definition chat (request_json : result pyval) : pyval * Z :=
  try_except
    (data <- request_json ;;
     given <- truthy data ;;
     if negb given then
       body <- jsonify (error "No data provided") ;; Ok (body, 400)
     else
       query <- LlamaClient.get data "query" (PyStr EmptyString) ;;
       query <- LlamaClient.strip query ;;
       machine <- LlamaClient.get data "machine" (PyStr EmptyString) ;;
       machine <- LlamaClient.strip machine ;;
       if Str.is_empty query then
         body <- jsonify (error "No query provided") ;; Ok (body, 400)
       else if Str.is_empty machine then
         body <- jsonify (error "No machine selected") ;; Ok (body, 400)
       else
         let response := Routes.process_chat_query W query machine in
         body <- jsonify (PyDict response) ;;
         Ok (body, 200))
    (fun e => (error ("Error processing request: " ++ str_exn e), 500)).

End WithWorld.
End Api.

(** ** Notions used to state the properties of these functions *)

Module Notions.
Import Pandas Py.

(** a month of a breakdown that has none of the fields the comparison
    report reads *)
Definition unread (entry : string * pyval) : bool :=
  match snd entry with
  | PyDict data =>
      negb (dict_has data "Part Produced") && negb (dict_has data "OEE (%)")
      && negb (dict_has data "Total_energy (KwH)")
  | _ => false
  end.

(** the query and the machine of a request are texts of the ASCII range *)
Definition ascii_request (request_json : result pyval) : Prop :=
  forall data k s,
    request_json = Ok (PyDict data) -> In k ["query"; "machine"] ->
    dict_get data k = Some (PyStr s) -> Str.isascii s = true.

(** a chart as the creators build it *)
Definition is_chart (v : pyval) : Prop :=
  exists type title image description,
    v = ChartGenerator.chart_dict type title image description.

Definition title_of (v : pyval) : option pyval :=
  match v with
  | PyDict d => dict_get d "title"
  | _ => None
  end.

End Notions.

(** ** More concrete cases *)

Module Cases.
Import Calendar Pandas Py.

(** a data folder with three machine folders and a file *)
Definition plant : Loader.Files := {|
  Loader.path_exists := fun p => String.eqb p "data";
  Loader.listdir := fun _ => Ok ["M10"; "M2"; "notes.txt"; "M1"];
  Loader.isdir := fun p => negb (Text.endswith ".txt" p)
|}.

(** 160 parts produced, 73 rejected *)
Definition rejects : DataFrame :=
  mkDataFrame [("Ai_partcount", int64); ("total_part_reject", int64)]
    [[("Ai_partcount", CInt 160); ("total_part_reject", CInt 73)]].

(** half a part produced, none rejected *)
Definition half_part : DataFrame :=
  mkDataFrame [("Ai_partcount", float64); ("total_part_reject", float64)]
    [[("Ai_partcount", CFloat (1 # 2)); ("total_part_reject", CFloat 0)]].

(** the log of a machine over two years *)
Definition production_log : DataFrame :=
  mkDataFrame [("Date", datetime64); ("Part Produced", int64)]
    [[("Date", CTime (mkDatetime 2023 5 2 0 0 0)); ("Part Produced", CInt 30)];
     [("Date", CTime (mkDatetime 2024 5 3 0 0 0)); ("Part Produced", CInt 40)];
     [("Date", CTime (mkDatetime 2024 6 4 0 0 0)); ("Part Produced", CInt 50)]].

(** a plot that always succeeds *)
Definition plot (kind : ChartGenerator.chart) (df : DataFrame)
  : result (string * string) :=
  Ok ("iVBORw0KGgo=", "a chart").

(** a world like [Examples.offline] whose table store has the rows of
    [Examples.dated_rows] and whose primary service answers every prompt
    with [text] and the status 200 *)
Definition answering (text : string) : World := {|
  now := mkDatetime 2024 1 15 10 30 0;
  parse_datetime := Examples.parse_iso_date;
  parse_numeric := Examples.parse_integer;
  object_reduce := fun _ _ => Raise (TypeError "unsupported operand");
  float_reduce := Examples.reduce_in_order;
  label_of := fun _ => "value";
  get_table_client := Ok tt;
  query_entities := fun _ => Ok Examples.dated_rows;
  lm_studio := fun _ => HttpResponse 200 (Some (PyStr text));
  llama_cpp := fun _ => ProcRaises (RuntimeError "No such file or directory");
  ollama := fun _ _ => ProcRaises (RuntimeError "No such file or directory");
  json_loads := Json.loads;
  json_dumps_indent := Json.dumps;
  str_of := fun _ => "value";
  format_data_summary := fun _ => Ok "Total Records: 1";
  render := fun _ machine _ _ => Ok ("Manufacturing Summary - Machine " ++ machine);
  generate_charts := fun _ _ => []
|}.

End Cases.

(** * Properties *)

Section CalendarFacts.
Import Calendar.

Lemma monthrange_days_spec (y m : Z) :
  1 <= m <= 12 -> monthrange_days y m = Ok (Spec.days_in_month y m).
Proof.
  intros Hm. unfold monthrange_days.
  replace ((1 <=? m) && (m <=? 12)) with true
    by (symmetry; apply andb_true_intro; split; apply Z.leb_le; lia).
  f_equal.
  assert (Hleap : isleap y = Spec.leap_year y).
  { unfold isleap, Spec.leap_year.
    destruct (Z.eqb_spec (y mod 400) 0), (Z.eqb_spec (y mod 100) 0),
      (Z.eqb_spec (y mod 4) 0); simpl; try reflexivity; exfalso; Z.div_mod_to_equations; lia. }
  assert (Hcases : m = 1 \/ m = 2 \/ m = 3 \/ m = 4 \/ m = 5 \/ m = 6 \/ m = 7
                   \/ m = 8 \/ m = 9 \/ m = 10 \/ m = 11 \/ m = 12) by lia.
  unfold Spec.days_in_month, February.
  repeat (destruct Hcases as [-> | Hcases]); try subst m; simpl;
    rewrite ?Hleap; try reflexivity; destruct (Spec.leap_year y); reflexivity.
Qed.

Lemma days_in_month_bounds (y m : Z) : 28 <= Spec.days_in_month y m <= 31.
Proof.
  unfold Spec.days_in_month.
  destruct (m =? 2); [destruct (Spec.leap_year y); lia|].
  destruct (existsb (Z.eqb m) [4; 6; 9; 11]); lia.
Qed.

Lemma date_ok (y m d : Z) :
  MINYEAR <= y <= MAXYEAR -> 1 <= m <= 12 -> 1 <= d <= Spec.days_in_month y m ->
  date y m d = Ok (mkDatetime y m d 0 0 0).
Proof.
  unfold MINYEAR, MAXYEAR. intros Hy Hm Hd. unfold date, MINYEAR, MAXYEAR.
  replace ((1 <=? y) && (y <=? 9999)) with true
    by (symmetry; apply andb_true_intro; split; apply Z.leb_le; lia).
  replace ((1 <=? m) && (m <=? 12)) with true
    by (symmetry; apply andb_true_intro; split; apply Z.leb_le; lia).
  simpl. rewrite (monthrange_days_spec y m Hm). simpl.
  replace ((1 <=? d) && (d <=? Spec.days_in_month y m)) with true
    by (symmetry; apply andb_true_intro; split; apply Z.leb_le; lia).
  reflexivity.
Qed.

Lemma sub_one_month_spec (dt : datetime) :
  valid dt -> 1 < year dt \/ 1 < month dt ->
  exists dt', sub_one_month dt = Ok dt'
              /\ (month dt', year dt') = Spec.month_before (month dt) (year dt).
Proof.
  intros (Hy & Hm & Hd & _) Hprev. unfold MINYEAR, MAXYEAR in Hy.
  unfold sub_one_month, Spec.month_before.
  replace (month dt + -1 >? 12) with false by (symmetry; rewrite Z.gtb_ltb; apply Z.ltb_ge; lia).
  destruct (Z.eqb_spec (month dt) 1) as [E | E].
  - rewrite E. change (1 + -1 <? 1) with true. cbv iota beta.
    change (1 + -1 + 12) with 12.
    pose proof (days_in_month_bounds (year dt - 1) 12) as Hb.
    rewrite (monthrange_days_spec (year dt - 1) 12) by lia.
    unfold bind at 1. unfold replace.
    rewrite date_ok; unfold MINYEAR, MAXYEAR; try lia.
    unfold bind. eexists; split; reflexivity.
  - replace (month dt + -1 <? 1) with false by (symmetry; apply Z.ltb_ge; lia).
    cbv iota beta.
    pose proof (days_in_month_bounds (year dt) (month dt + -1)) as Hb.
    rewrite (monthrange_days_spec (year dt) (month dt + -1)) by lia.
    unfold bind at 1. unfold replace.
    rewrite date_ok; unfold MINYEAR, MAXYEAR; try lia.
    unfold bind. eexists; split; [reflexivity|]. cbn [month year]. reflexivity.
Qed.

End CalendarFacts.

Section Numerals.

Lemma int_of_str_str_int (z : Z) : 0 < z -> int_of_str (str_int z) = Ok z.
Proof.
  intros Hz. unfold int_of_str, str_int.
  destruct z as [|p|p]; try lia.
  rewrite NilZero.isi.
  - now rewrite DecimalZ.of_to.
  - simpl. intros [= H]. now apply (DecimalPos.Unsigned.to_uint_nonnil p).
  - simpl. discriminate.
Qed.

Lemma is_digit_cases (c : ascii) :
  Str.is_digit c = true ->
  In c ["0"; "1"; "2"; "3"; "4"; "5"; "6"; "7"; "8"; "9"]%char.
Proof.
  destruct c as [[] [] [] [] [] [] [] []]; vm_compute; intros H;
    try discriminate H; tauto.
Qed.

Lemma search_year_cons (c : ascii) (s : string) :
  Str.search_year (String c s)
  = match Str.match_year (String c s) with
    | Some y => Some y
    | None => Str.search_year s
    end.
Proof. reflexivity. Qed.

Lemma search_year_range (s y : string) :
  Str.search_year s = Some y ->
  exists z, int_of_str y = Ok z /\ 2000 <= z <= 2099.
Proof.
  induction s as [|c s IH].
  - discriminate.
  - rewrite search_year_cons.
    destruct (Str.match_year (String c s)) as [m|] eqn:E.
    + intros [= <-]. unfold Str.match_year in E.
      destruct s as [|c1 [|a [|b s]]]; try discriminate E.
      destruct (Ascii.eqb_spec c "2"); [subst c|discriminate E].
      destruct (Ascii.eqb_spec c1 "0"); [subst c1|discriminate E].
      destruct (Str.is_digit a) eqn:Ha; [|discriminate E].
      destruct (Str.is_digit b) eqn:Hb; [|discriminate E].
      simpl in E. injection E as <-.
      apply is_digit_cases in Ha, Hb. simpl in Ha, Hb.
      repeat (destruct Ha as [<- | Ha]; [|]); try contradiction;
        repeat (destruct Hb as [<- | Hb]; [|]); try contradiction;
        eexists; (split; [vm_compute; reflexivity | lia]).
    + apply IH.
Qed.

End Numerals.

Section DateResolver.
Import Calendar DataProcessor.

Lemma first_month_range (table : list (string * Z)) (q : string) (m : Z) :
  Forall (fun kv => 1 <= snd kv <= 12) table ->
  first_month table q = Some m -> 1 <= m <= 12.
Proof.
  induction 1 as [|[k v] table Hv _ IH]; simpl.
  - discriminate.
  - destruct (Str.search_word k q); [intros [= <-]; exact Hv | exact IH].
Qed.

Lemma months_range : Forall (fun kv => 1 <= snd kv <= 12) months.
Proof. unfold months. repeat constructor; simpl; lia. Qed.

(** what the resolver returns is a month of the calendar and the numeral
    of a year that [date] accepts *)
Lemma resolved_date_valid (W : World) (query : string) :
  valid (now W) -> 1 < year (now W) ->
  1 <= fst (_extract_date_from_query W query) <= 12
  /\ exists y, int_of_str (snd (_extract_date_from_query W query)) = Ok y
               /\ MINYEAR <= y <= MAXYEAR
               /\ (1000 < year (now W) -> 1000 <= y).
Proof.
  intros Hv Hy. pose proof Hv as (Hyr & Hmo & _).
  unfold MINYEAR, MAXYEAR in *.
  unfold _extract_date_from_query.
  destruct (Str.contains "this month" (Str.lower query)).
  { simpl. split; [lia|]. exists (year (now W)).
    split; [apply int_of_str_str_int|]; lia. }
  destruct (Str.contains "last month" (Str.lower query)).
  { destruct (sub_one_month_spec _ Hv (or_introl Hy)) as (dt' & -> & E).
    unfold Spec.month_before in E. simpl.
    destruct (Z.eqb_spec (month (now W)) 1); injection E as -> ->.
    - split; [lia|]. exists (year (now W) - 1).
      split; [apply int_of_str_str_int|]; lia.
    - split; [lia|]. exists (year (now W)).
      split; [apply int_of_str_str_int|]; lia. }
  destruct (Str.contains "this year" (Str.lower query)).
  { simpl. split; [lia|]. exists (year (now W)).
    split; [apply int_of_str_str_int|]; lia. }
  destruct (Str.contains "last year" (Str.lower query)).
  { simpl. split; [lia|]. exists (year (now W) - 1).
    split; [apply int_of_str_str_int|]; lia. }
  unfold try_except. cbn [fst snd]. split.
  - destruct (first_month months (Str.lower query)) as [m|] eqn:E; [|lia].
    apply first_month_range in E; [|apply months_range].
    destruct (Z.eqb_spec m 0); lia.
  - destruct (Str.search_year (Str.lower query)) as [y|] eqn:E.
    + destruct (search_year_range _ _ E) as (z & Hz & Hr). exists z.
      split; [exact Hz | lia].
    + exists (year (now W)). split; [apply int_of_str_str_int|]; lia.
Qed.

(** [str] writes a year of four digits as the specification does *)
Lemma year_numeral (y : Z) : 1000 <= y <= 9999 -> str_int y = Spec.four_digits y.
Proof.
  intros Hy.
  assert (H : forallb (fun n => String.eqb (str_int (Z.of_nat n))
                                           (Spec.four_digits (Z.of_nat n)))
                      (seq (Z.to_nat 1000) (Z.to_nat 9000)) = true)
    by (vm_compute; reflexivity).
  rewrite forallb_forall in H.
  specialize (H (Z.to_nat y)). rewrite Z2Nat.id in H by lia.
  apply String.eqb_eq, H, in_seq. lia.
Qed.

(** [strftime] writes a month and a day as the specification does *)
Lemma two_numeral (n : Z) : 1 <= n <= 31 -> pad2 n = Spec.two_digits n.
Proof.
  intros Hn.
  assert (H : forallb (fun k => String.eqb (pad2 (Z.of_nat k))
                                           (Spec.two_digits (Z.of_nat k)))
                      (seq 1 31) = true) by (vm_compute; reflexivity).
  rewrite forallb_forall in H.
  specialize (H (Z.to_nat n)). rewrite Z2Nat.id in H by lia.
  apply String.eqb_eq, H, in_seq. lia.
Qed.

Lemma date_window_spec (m y : Z) (ystr : string) :
  int_of_str ystr = Ok y -> 1000 <= y <= MAXYEAR -> 1 <= m <= 12 ->
  date_window (m, ystr)
  = Ok (Spec.iso_date y m 1, Spec.iso_date y m (Spec.days_in_month y m)).
Proof.
  unfold MAXYEAR. intros Hs Hy Hm. unfold date_window. rewrite Hs.
  pose proof (days_in_month_bounds y m) as Hb.
  unfold bind at 1. rewrite date_ok by (unfold MINYEAR, MAXYEAR; lia).
  unfold bind at 1. rewrite monthrange_days_spec by exact Hm.
  unfold bind at 1. rewrite date_ok by (unfold MINYEAR, MAXYEAR; lia).
  cbn [bind]. unfold strftime_Ymd, Spec.iso_date. cbn [year month day].
  rewrite (year_numeral y) by lia.
  rewrite !(two_numeral m) by lia.
  rewrite (two_numeral 1) by lia.
  rewrite (two_numeral (Spec.days_in_month y m)) by lia.
  reflexivity.
Qed.

(** C8. For every machine and every query of the ASCII range, at a clock
    after the year 1000, the filter sent to the table store is exactly
    [device_name eq '<machine>' and date ge '<YYYY-MM-DD>' and date le
    '<YYYY-MM-DD>'], from the first to the last day of the resolved month,
    the last day following the days-in-month rule with leap years. *)
Theorem table_filter_exact (W : World) (machine query : string) :
  valid (now W) -> 1000 < year (now W) -> Str.isascii query = true ->
  get_table_client W = Ok tt ->
  exists y,
    int_of_str (snd (_extract_date_from_query W query)) = Ok y
    /\ issued_filters W machine query
       = [Spec.table_filter machine y (fst (_extract_date_from_query W query))].
Proof.
  intros Hv Hy _ Hc.
  destruct (resolved_date_valid W query Hv ltac:(lia)) as (Hm & y & Hs & Hr & Hk).
  exists y. split; [exact Hs|].
  unfold issued_filters, get_specific_file_data_body.
  destruct (_extract_date_from_query W query) as [m ystr]. simpl in Hm, Hs.
  rewrite (date_window_spec m y ystr Hs ltac:(split; [auto | apply Hr]) Hm), Hc.
  reflexivity.
Qed.

Lemma table_filter_exact_witness :
  valid (now (Examples.offline [])) /\ 1000 < year (now (Examples.offline []))
  /\ Str.isascii "energy in Feb 2024" = true
  /\ _extract_date_from_query (Examples.offline []) "energy in Feb 2024"
     = (2, "2024")
  /\ Spec.table_filter "MC_PRESS_133" 2024 2
     = "device_name eq 'MC_PRESS_133' and date ge '2024-02-01' and date le '2024-02-29'"
  /\ exists y,
       int_of_str (snd (_extract_date_from_query (Examples.offline [])
                          "energy in Feb 2024")) = Ok y
       /\ issued_filters (Examples.offline []) "MC_PRESS_133" "energy in Feb 2024"
          = [Spec.table_filter "MC_PRESS_133" y
               (fst (_extract_date_from_query (Examples.offline [])
                       "energy in Feb 2024"))].
Proof.
  assert (Hv : valid (now (Examples.offline [])))
    by (unfold valid, MINYEAR, MAXYEAR; simpl; lia).
  assert (Hy : 1000 < year (now (Examples.offline []))) by (simpl; lia).
  split; [exact Hv|]. split; [exact Hy|]. split; [reflexivity|].
  split; [reflexivity|]. split; [reflexivity|].
  apply (table_filter_exact (Examples.offline []) "MC_PRESS_133"
           "energy in Feb 2024" Hv Hy eq_refl eq_refl).
Defined.

(** the filters of a February in a leap year, of a February in a common
    year, and of the month before a January *)
Example february_2024 :
  issued_filters (Examples.offline []) "MC_PRESS_133" "energy in Feb 2024"
  = ["device_name eq 'MC_PRESS_133' and date ge '2024-02-01' and date le '2024-02-29'"].
Proof. reflexivity. Qed.

Example february_2023 :
  issued_filters (Examples.offline []) "MC_PRESS_133" "energy in Feb 2023"
  = ["device_name eq 'MC_PRESS_133' and date ge '2023-02-01' and date le '2023-02-28'"].
Proof. reflexivity. Qed.

Example december_2023 :
  issued_filters (Examples.offline []) "MC_PRESS_133" "OEE of last month"
  = ["device_name eq 'MC_PRESS_133' and date ge '2023-12-01' and date le '2023-12-31'"].
Proof. reflexivity. Qed.

(** C9, amended. A query that mentions "last month" and not "this month"
    resolves to the month and year one calendar month before now, January
    going back to December of the previous year. *)
Theorem last_month_resolution (W : World) (query : string) :
  valid (now W) -> 1 < year (now W) \/ 1 < month (now W) ->
  Str.contains "last month" (Str.lower query) = true ->
  Str.contains "this month" (Str.lower query) = false ->
  _extract_date_from_query W query
  = (fst (Spec.month_before (month (now W)) (year (now W))),
     str_int (snd (Spec.month_before (month (now W)) (year (now W))))).
Proof.
  intros Hv Hp Hl Ht. unfold _extract_date_from_query. rewrite Ht, Hl.
  destruct (sub_one_month_spec _ Hv Hp) as (dt' & -> & E).
  rewrite <- E. reflexivity.
Qed.

Lemma last_month_resolution_witness :
  _extract_date_from_query (Examples.offline []) "last month" = (12, "2023").
Proof.
  apply (last_month_resolution (Examples.offline []) "last month").
  - unfold valid, MINYEAR, MAXYEAR; simpl; lia.
  - left; simpl; lia.
  - reflexivity.
  - reflexivity.
Defined.

(** C9 as stated fails: "this month" is tested first. *)
Lemma last_month_shadowed :
  Str.contains "last month" (Str.lower "this month vs last month") = true
  /\ _extract_date_from_query (Examples.offline []) "this month vs last month"
     = (1, "2024")
  /\ Spec.month_before 1 2024 = (12, 2023)
  /\ _extract_date_from_query (Examples.offline []) "this month vs last month"
     <> (12, "2023").
Proof. split; [reflexivity|]. split; [reflexivity|]. split; [reflexivity|]. discriminate. Qed.

End DateResolver.

Section StringFacts.




Lemma contains_app_r (sub a b : string) :
  Str.contains sub b = true -> Str.contains sub (a ++ b) = true.
Proof.
  intros H. induction a as [|c a IH]; [exact H|].
  cbn [Str.contains append]. rewrite IH. apply orb_true_r.
Qed.

End StringFacts.

Section Classifier.
Import Py LlamaClient.
Variable W : World.





(** the keyword classifier always answers with a well-formed intent *)
Lemma fallback_analysis_well_formed (query : string) :
  Spec.well_formed_intent (_fallback_analysis query) = true.
Proof.
  unfold _fallback_analysis.
  destruct (Str.contains_any _ _); [reflexivity|].
  destruct (Str.contains_any _ _); [reflexivity|].
  destruct (Str.contains_any _ _); reflexivity.
Qed.

(** whatever the services do, the analysis is what [json.loads] read from
    the text of a service or of the rule-based responder, or the answer of
    the keyword classifier *)
Lemma analyze_query_cases (query machine : string) (machine_data : dict) :
  analyze_query W query machine machine_data = _fallback_analysis query
  \/ exists text,
       json_loads W text
       = Ok (analyze_query W query machine machine_data).
Proof.
  unfold analyze_query.
  destruct (_call_llama W _) as [response|e]; [|now left].
  cbn [bind try_except]. unfold loads.
  destruct response; try (now left).
  destruct (json_loads W s) as [v|e] eqn:E; [|now left].
  right. exists s. exact E.
Qed.


End Classifier.

Section ClassifierWitness.
Import Py LlamaClient.




(** C5. The claim fails on an answer that is JSON and no intent.  The
    primary service answers [null] with the status 200: [json.loads] reads
    [None], [analyze_query] returns it unchecked, [process_chat_query]
    fails on [analysis.get] and the user is answered with an error.  An
    answer [{}] is returned as an intent without fields.  An answer that
    is no JSON ends in the keyword classifier, with a well-formed
    intent. *)
Theorem unchecked_answer_is_returned :
  (forall query machine machine_data,
     analyze_query (Cases.answering "null") query machine machine_data = PyNone)
  /\ Spec.well_formed_intent PyNone = false
  /\ Routes.process_chat_query (Cases.answering "null") "OEE in January 2024"
       "MC_PRESS_133"
     = dict_of
         [("response",
           PyStr "I encountered an error while processing your request: 'NoneType' object has no attribute 'get'");
          ("charts", PyList []);
          ("type", PyStr "error")]
  /\ (forall query machine machine_data,
        analyze_query (Cases.answering "{}") query machine machine_data
        = PyDict [])
  /\ Spec.well_formed_intent (PyDict []) = false
  /\ (forall query machine machine_data,
        analyze_query (Cases.answering "I cannot answer in JSON") query machine
          machine_data
        = _fallback_analysis query)
  /\ forall query, Spec.well_formed_intent (_fallback_analysis query) = true.
Proof.
  split; [reflexivity|]. split; [reflexivity|]. split; [vm_compute; reflexivity|].
  split; [reflexivity|]. split; [reflexivity|]. split; [reflexivity|].
  apply fallback_analysis_well_formed.
Qed.

End ClassifierWitness.

Section ChatPipeline.
Import Py.
Variable W : World.

(** C6. When the fetched machine data is empty, the chat pipeline answers
    with an error object: type "error", no charts, a message. *)
Theorem empty_data_is_error (query machine : string) :
  DataProcessor.get_specific_file_data W machine query = [] ->
  let r := Routes.process_chat_query W query machine in
  dict_get r "type" = Some (PyStr "error")
  /\ dict_get r "charts" = Some (PyList [])
  /\ exists text, dict_get r "response" = Some (PyStr text).
Proof.
  intros H. unfold Routes.process_chat_query. rewrite H.
  cbn. repeat split. eexists. reflexivity.
Qed.

(** the table store has no row for the query: the fetched data is empty *)
Lemma no_rows_no_data (query machine : string) :
  (forall f, query_entities W f = Ok []) ->
  DataProcessor.get_specific_file_data W machine query = [].
Proof.
  intros H. unfold DataProcessor.get_specific_file_data,
    DataProcessor.get_specific_file_data_body.
  destruct (DataProcessor.date_window _) as [[s e]|]; [|reflexivity].
  destruct (get_table_client W); [|reflexivity].
  cbn [snd]. rewrite H. reflexivity.
Qed.

(** C7, amended. Every response object has a response text, a type and a
    list of charts; a success object also has the analysis, which is the
    dictionary [analyze_query] returned for the fetched data; an error
    object has no analysis and no chart. *)
Theorem response_object_shape (query machine : string) :
  let r := Routes.process_chat_query W query machine in
  let analysis :=
    LlamaClient.analyze_query W query machine
      (DataProcessor.get_specific_file_data W machine query) in
  (exists text, dict_get r "response" = Some (PyStr text))
  /\ (exists charts, dict_get r "charts" = Some (PyList charts))
  /\ ((dict_get r "type" = Some (PyStr "success")
       /\ dict_get r "analysis" = Some analysis
       /\ exists d, analysis = PyDict d)
      \/ (dict_get r "type" = Some (PyStr "error")
          /\ dict_get r "analysis" = None
          /\ dict_get r "charts" = Some (PyList []))).
Proof.
  cbv zeta.
  assert (Herr : forall text v,
    let r := dict_of [("response", PyStr text); ("charts", PyList []);
                      ("type", PyStr "error")] in
    (exists text, dict_get r "response" = Some (PyStr text))
    /\ (exists charts, dict_get r "charts" = Some (PyList charts))
    /\ ((dict_get r "type" = Some (PyStr "success")
         /\ dict_get r "analysis" = Some v
         /\ exists d, v = PyDict d)
        \/ (dict_get r "type" = Some (PyStr "error")
            /\ dict_get r "analysis" = None
            /\ dict_get r "charts" = Some (PyList [])))).
  { intros text v. cbn. split; [eexists; reflexivity|].
    split; [eexists; reflexivity|]. right. repeat split. }
  unfold Routes.process_chat_query.
  destruct (LlamaClient.is_empty_dict _); [apply Herr|].
  destruct (truthy _) as [qs|e]; [|apply Herr].
  cbn [bind].
  set (analysis := LlamaClient.analyze_query W query machine _).
  destruct (LlamaClient.get analysis "needs_chart" (PyBool false))
    as [needs|e] eqn:Hget; [|apply Herr].
  cbn [bind]. destruct (truthy needs) as [wanted|e]; [|apply Herr].
  cbn. split; [eexists; reflexivity|]. split; [eexists; reflexivity|].
  left. split; [reflexivity|]. split; [reflexivity|].
  destruct analysis; try discriminate Hget. eexists. reflexivity.
Qed.

End ChatPipeline.

Section ChatWitness.
Import Py.

Lemma empty_data_is_error_witness :
  let r := Routes.process_chat_query (Examples.offline []) "OEE in Feb 2024"
             "MC_PRESS_133" in
  dict_get r "type" = Some (PyStr "error")
  /\ dict_get r "charts" = Some (PyList [])
  /\ exists text, dict_get r "response" = Some (PyStr text).
Proof.
  apply (empty_data_is_error (Examples.offline []) "OEE in Feb 2024"
           "MC_PRESS_133").
  reflexivity.
Defined.

(** C7 as stated fails twice: the error object has no analysis, and the
    analysis of a success object need not be an intent: when the service
    answers [{}], it is the empty dictionary. *)
Lemma analysis_is_absent_or_unchecked :
  let r := Routes.process_chat_query (Examples.offline []) "OEE in Feb 2024"
             "MC_PRESS_133" in
  let r' := Routes.process_chat_query (Cases.answering "{}")
              "OEE in January 2024" "MC_PRESS_133" in
  dict_get r "type" = Some (PyStr "error")
  /\ keys r = ["response"; "charts"; "type"]
  /\ dict_has r "analysis" = false
  /\ dict_get r' "type" = Some (PyStr "success")
  /\ dict_get r' "analysis" = Some (PyDict [])
  /\ Spec.well_formed_intent (PyDict []) = false.
Proof. cbv zeta. repeat split; vm_compute; reflexivity. Qed.

End ChatWitness.

Section TableFacts.
Import Pandas.

Lemma has_column_lookup (df : DataFrame) (c : string) :
  has_column df c = true <-> exists d, lookup_dtype (columns df) c = Some d.
Proof.
  unfold has_column, column_names. induction (columns df) as [|[k d] cols IH]; simpl.
  - split; [discriminate | intros [d H]; discriminate H].
  - rewrite (String.eqb_sym c k). destruct (String.eqb k c).
    + split; [intros _; now exists d | reflexivity].
    + exact IH.
Qed.

Lemma lookup_dtype_in (cols : list (string * dtype)) (c : string) (d : dtype) :
  lookup_dtype cols c = Some d -> In (c, d) cols.
Proof.
  induction cols as [|[k x] cols IH]; simpl; [discriminate|].
  destruct (String.eqb_spec k c) as [-> | _].
  - intros [= ->]. now left.
  - intros H. right. now apply IH.
Qed.

Lemma well_typed_cell (df : DataFrame) (c : string) (d : dtype) (r : row) :
  Spec.well_typed df = true -> lookup_dtype (columns df) c = Some d ->
  In r (rows df) -> Spec.cell_has_dtype d (row_get r c) = true.
Proof.
  unfold Spec.well_typed. intros Hwt Hl Hr.
  rewrite forallb_forall in Hwt. specialize (Hwt r Hr).
  rewrite forallb_forall in Hwt.
  exact (Hwt (c, d) (lookup_dtype_in _ _ _ Hl)).
Qed.

End TableFacts.

Section Binary64Facts.
Import Py.

Lemma rnd_compat (q q' : Q) : (q == q')%Q -> rnd q = rnd q'.
Proof. intros H. unfold rnd. now rewrite (Qred_complete _ _ H). Qed.

Lemma Qred_inject_Z (z : Z) : Qred (inject_Z z) = inject_Z z.
Proof. apply Qcanon.Qred_identity. simpl. apply Z.gcd_1_r. Qed.

Lemma representable_int (z : Z) :
  Z.abs z <= 2 ^ 53 -> representable (inject_Z z) = true.
Proof.
  intros H. unfold representable. cbn [Qden Qnum inject_Z is_pow2].
  replace (Z.abs z <=? 2 ^ 53) with true by (symmetry; now apply Z.leb_le).
  reflexivity.
Qed.

Lemma rnd_int (z : Z) :
  Z.abs z <= 2 ^ 53 -> rnd (inject_Z z) = fin (inject_Z z).
Proof.
  intros H. unfold rnd. rewrite Qred_inject_Z.
  now rewrite (representable_int z H).
Qed.

Lemma fin_int (z : Z) (a : Q) :
  (inject_Z z == a)%Q -> fin (inject_Z z) = fin (Qred a).
Proof.
  intros H. rewrite <- (Qred_inject_Z z). f_equal. now apply Qred_complete.
Qed.

Lemma wrap64_small (z : Z) : - 2 ^ 63 <= z < 2 ^ 63 -> wrap64 z = z.
Proof. intros H. unfold wrap64. rewrite Z.mod_small; lia. Qed.

Lemma wrap64_fits (z : Z) : fits64 (wrap64 z) = true.
Proof.
  unfold fits64, wrap64.
  pose proof (Z.mod_pos_bound (z + 2 ^ 63) (2 ^ 64) ltac:(lia)) as H.
  apply andb_true_intro. split; [apply Z.leb_le | apply Z.ltb_lt]; lia.
Qed.

Lemma fits64_small (z : Z) : Z.abs z <= 2 ^ 53 -> fits64 z = true.
Proof.
  intros H. unfold fits64.
  apply andb_true_intro. split; [apply Z.leb_le | apply Z.ltb_lt]; lia.
Qed.

Lemma Qltb_lt (a b : Q) : Qltb a b = true <-> (a < b)%Q.
Proof.
  unfold Qltb. rewrite negb_true_iff. split.
  - intros H. apply Qnot_le_lt. intros Hle. apply Qle_bool_iff in Hle. congruence.
  - intros H. destruct (Qle_bool b a) eqn:E; [|reflexivity].
    apply Qle_bool_iff in E. exfalso. exact (Qlt_not_le _ _ H E).
Qed.

Lemma Qle_bool_compat (a a' b b' : Q) :
  (a == a')%Q -> (b == b')%Q -> Qle_bool a b = Qle_bool a' b'.
Proof.
  intros Ha Hb. destruct (Qle_bool a b) eqn:E, (Qle_bool a' b') eqn:E';
    try reflexivity.
  - apply Qle_bool_iff in E. rewrite Ha, Hb in E. apply Qle_bool_iff in E.
    congruence.
  - apply Qle_bool_iff in E'. rewrite <- Ha, <- Hb in E'.
    apply Qle_bool_iff in E'. congruence.
Qed.

(** the integers of a list whose absolute values add up to little add up
    to little *)
Lemma Zsum_abs (zs : list Z) : Z.abs (DataProcessor.Zsum zs) <= Spec.Zabs_sum zs.
Proof. induction zs as [|z zs IH]; simpl; lia. Qed.

Lemma Zabs_sum_nonneg (zs : list Z) : 0 <= Spec.Zabs_sum zs.
Proof. induction zs as [|z zs IH]; simpl; lia. Qed.

Lemma Qabs_sum_nonneg (qs : list Q) : (0 <= Qabs_sum qs)%Q.
Proof.
  induction qs as [|q qs IH]; simpl; [apply Qle_refl|].
  pose proof (Qabs_nonneg q) as H.
  replace 0%Q with (0 + 0)%Q by reflexivity. now apply Qplus_le_compat.
Qed.

Lemma exact_below_sub (n : nat) (g : Z) (qs sub : list Q) :
  (forall g, exact_at g qs = true -> exact_at g sub = true) ->
  exact_below n g qs = true -> exact_below n g sub = true.
Proof.
  intros H. revert g. induction n as [|n IH]; intros g; simpl; [easy|].
  destruct (exact_at g qs) eqn:E.
  - now rewrite (H g E).
  - intros Hn. rewrite (IH _ Hn). now destruct (exact_at g sub).
Qed.

End Binary64Facts.

Section Sums.
Import Pandas Py DataProcessor.

Lemma Qsum_numbers (cs : list cell) :
  (Qsum (numbers cs)
   == fold_right Qplus 0 (map (fun c => match cell_Q c with
                                        | Some q => q
                                        | None => 0
                                        end) cs))%Q.
Proof.
  induction cs as [|c cs IH]; simpl; [reflexivity|].
  destruct (cell_Q c); simpl; rewrite IH; [reflexivity | ring].
Qed.

Lemma float_cells_sum (cs : list cell) :
  Forall (fun c => Spec.cell_has_dtype float64 c = true) cs ->
  (Qsum (numbers cs) == fold_right Qplus 0 (map Spec.cell_number cs))%Q.
Proof.
  intros Hcs. rewrite Qsum_numbers.
  induction Hcs as [|c cs Hc _ IH]; simpl; [reflexivity|].
  rewrite IH. destruct c; try discriminate Hc; reflexivity.
Qed.

Lemma int_cells_sum (d : dtype) (cs : list cell) :
  d = int64 \/ d = bool_ ->
  Forall (fun c => Spec.cell_has_dtype d c = true) cs ->
  (inject_Z (Zsum (map cell_Z cs))
   == fold_right Qplus 0 (map Spec.cell_number cs))%Q.
Proof.
  intros Hd Hcs.
  induction Hcs as [|c cs Hc _ IH]; simpl; [reflexivity|].
  rewrite inject_Z_plus, IH.
  destruct Hd as [-> | ->]; destruct c; try discriminate Hc;
    [reflexivity | destruct b; reflexivity].
Qed.

(** the sum of a column that adds up without rounding or wrapping around
    is a [numpy] scalar that holds the sum of what the cells contribute *)
Lemma sum_of_exact (W : World) (routine : string) (d : dtype) (cs : list cell) :
  is_numeric_dtype d = true ->
  Forall (fun c => Spec.cell_has_dtype d c = true) cs ->
  match d with
  | float64 => summable (numbers cs) = true
  | _ => Spec.Zabs_sum (map cell_Z cs) <= 2 ^ 53
  end ->
  exists v n,
    sum_of W routine (d, cs) = Ok v /\ as_number v = Some n
    /\ is_np n = true
    /\ Spec.holds n (fold_right Qplus 0%Q (map Spec.cell_number cs)).
Proof.
  intros Hd Hcs He.
  assert (Hint : d = int64 \/ d = bool_ ->
            exists v n,
              sum_of W routine (d, cs) = Ok v /\ as_number v = Some n
              /\ is_np n = true
              /\ Spec.holds n (fold_right Qplus 0%Q (map Spec.cell_number cs))).
  { intros Hi.
    assert (Hb : Z.abs (Zsum (map cell_Z cs)) <= 2 ^ 53).
    { pose proof (Zsum_abs (map cell_Z cs)).
      destruct Hi as [-> | ->]; lia. }
    exists (NpInt64 (Zsum (map cell_Z cs))), (NInt true (Zsum (map cell_Z cs))).
    split.
    - destruct Hi as [-> | ->]; cbn [sum_of]; rewrite wrap64_small by lia;
        reflexivity.
    - split; [reflexivity|]. split; [reflexivity|].
      split; [exact Hb | now apply (int_cells_sum d)]. }
  destruct d; try discriminate Hd.
  - apply Hint. now left.
  - exists (NpFloat64 (fin (Qred (Qsum (numbers cs))))),
      (NFloat true (fin (Qred (Qsum (numbers cs))))).
    split; [cbn [sum_of]; unfold float_sum; now rewrite He|].
    split; [reflexivity|]. split; [reflexivity|].
    cbn [Spec.holds]. apply Qred_complete. now apply float_cells_sum.
  - apply Hint. now right.
Qed.

(** whatever its values, the sum of a numeric column is a [numpy] scalar,
    an integer within the bounds of [int64] or a float *)
Lemma sum_of_numeric (W : World) (routine : string) (d : dtype) (cs : list cell) :
  is_numeric_dtype d = true ->
  exists v, sum_of W routine (d, cs) = Ok v /\ Spec.is_total v.
Proof.
  intros Hd. destruct d; try discriminate Hd; eexists; (split; [reflexivity|]).
  - left. eexists. split; [reflexivity | apply wrap64_fits].
  - right. left. eexists. reflexivity.
  - left. eexists. split; [reflexivity | apply wrap64_fits].
Qed.

End Sums.

Section FileSummary.
Import Pandas Py DataProcessor.
Variable W : World.

Lemma normalized_numeric (df : DataFrame) (c : string) (d : dtype) :
  Spec.normalized df = true -> In c numeric_columns ->
  lookup_dtype (columns df) c = Some d -> is_numeric_dtype d = true.
Proof.
  unfold Spec.normalized. intros H Hin Hl.
  apply andb_prop in H as [_ H]. rewrite forallb_forall in H.
  specialize (H c Hin). unfold Spec.column_is in H. now rewrite Hl in H.
Qed.

Lemma normalized_well_typed (df : DataFrame) :
  Spec.normalized df = true -> Spec.well_typed df = true.
Proof.
  unfold Spec.normalized. intros H.
  apply andb_prop in H as [H _]. now apply andb_prop in H as [H _].
Qed.

Lemma column_cells_typed (df : DataFrame) (c : string) (d : dtype) :
  Spec.well_typed df = true -> lookup_dtype (columns df) c = Some d ->
  Forall (fun x => Spec.cell_has_dtype d x = true)
         (map (fun r => row_get r c) (rows df)).
Proof.
  intros Hwt Hl. apply Forall_forall. intros x Hx.
  apply in_map_iff in Hx as (r & <- & Hr).
  now apply (well_typed_cell df c d r).
Qed.

Lemma exactly_summed_column (df : DataFrame) (c : string) (d : dtype) :
  lookup_dtype (columns df) c = Some d -> is_numeric_dtype d = true ->
  Spec.exactly_summed df c = true ->
  match d with
  | float64 => summable (numbers (map (fun r => row_get r c) (rows df))) = true
  | _ => Spec.Zabs_sum (map cell_Z (map (fun r => row_get r c) (rows df)))
         <= 2 ^ 53
  end.
Proof.
  intros Hl Hd. unfold Spec.exactly_summed. rewrite Hl.
  destruct d; try discriminate Hd; try (intros H; exact H);
    rewrite map_map; intros H; now apply Z.leb_le.
Qed.

(** a total of a column that adds up exactly holds the sum of the column *)
Lemma sum_or_zero_value (df : DataFrame) (c : string) :
  Spec.normalized df = true -> In c numeric_columns ->
  Spec.exactly_summed df c = true ->
  exists v n,
    sum_or_zero W df c = Ok v /\ as_number v = Some n
    /\ Spec.holds n (Spec.column_total df c)
    /\ (is_np n = true \/ has_column df c = false).
Proof.
  intros Hn Hin He. unfold sum_or_zero, Spec.column_total.
  destruct (has_column df c) eqn:Hc.
  - apply has_column_lookup in Hc as [d Hl].
    unfold get_column. rewrite Hl. cbn [bind].
    pose proof (normalized_numeric df c d Hn Hin Hl) as Hd.
    destruct (sum_of_exact W "Series.sum" d
                (map (fun r => row_get r c) (rows df)) Hd)
      as (v & n & Hs & Ha & Hnp & Hh).
    + apply column_cells_typed; [now apply normalized_well_typed | exact Hl].
    + now apply (exactly_summed_column df c d).
    + exists v, n. split; [exact Hs|]. split; [exact Ha|].
      split; [|now left].
      unfold Spec.column_sum. now rewrite map_map in Hh.
  - exists (PyInt 0), (NInt false 0). split; [reflexivity|].
    split; [reflexivity|]. split; [|now right].
    cbn [Spec.holds]. split; [lia | reflexivity].
Qed.

(** whatever the values, the total of a numeric column is computed *)
Lemma sum_or_zero_total (df : DataFrame) (c : string) :
  Spec.normalized df = true -> In c numeric_columns ->
  exists v, sum_or_zero W df c = Ok v /\ Spec.is_total v.
Proof.
  intros Hn Hin. unfold sum_or_zero.
  destruct (has_column df c) eqn:Hc.
  - apply has_column_lookup in Hc as [d Hl].
    unfold get_column. rewrite Hl. cbn [bind].
    apply sum_of_numeric. now apply (normalized_numeric df c).
  - exists (PyInt 0). split; [reflexivity|]. right. now right.
Qed.

Lemma mean_or_zero_total (df : DataFrame) (c : string) :
  Spec.normalized df = true -> In c numeric_columns ->
  exists v, mean_or_zero W df c = Ok v /\ Spec.is_total v.
Proof.
  intros Hn Hin. unfold mean_or_zero.
  destruct (has_column df c) eqn:Hc.
  - apply has_column_lookup in Hc as [d Hl].
    unfold get_column. rewrite Hl. cbn [bind].
    pose proof (normalized_numeric df c d Hn Hin Hl) as Hd.
    destruct d; try discriminate Hd; eexists; (split; [reflexivity|]);
      right; left; eexists; reflexivity.
  - exists (PyInt 0). split; [reflexivity|]. right. now right.
Qed.

Lemma as_number_of_number (n : number) : as_number (of_number n) = Some n.
Proof. destruct n as [[] z | [] f]; reflexivity. Qed.

Lemma total_number (v : pyval) :
  Spec.is_total v ->
  exists n, as_number v = Some n
            /\ (exists f, as_float n = Ok f)
            /\ match n with NInt _ z => fits64 z = true | _ => True end.
Proof.
  intros [(z & -> & Hz) | [(f & ->) | ->]]; eexists; (split; [reflexivity|]).
  - split; [eexists; reflexivity | exact Hz].
  - split; [eexists; reflexivity | exact I].
  - split; [eexists; reflexivity | reflexivity].
Qed.

Lemma as_float_holds (n : number) (a : Q) :
  Spec.holds n a -> as_float n = Ok (fin (Qred a)).
Proof.
  destruct n as [np z | np f]; cbn [Spec.holds].
  - intros [Hz Ha]. destruct np; cbn [as_float to_float];
      rewrite (rnd_int z Hz), (fin_int z a Ha); reflexivity.
  - destruct f; try contradiction. intros ->. now destruct np.
Qed.

Lemma exact_holds (n : number) (a : Q) :
  Spec.holds n a -> exists q, exact n = fin q /\ (q == a)%Q.
Proof.
  destruct n as [np z | np f]; cbn [Spec.holds exact].
  - intros [_ Ha]. now exists (inject_Z z).
  - destruct f; try contradiction. intros ->. eexists. split; [reflexivity|].
    apply Qred_correct.
Qed.

Lemma number_value_holds (v : pyval) (n : number) (a : Q) :
  as_number v = Some n -> Spec.holds n a ->
  exists q, Spec.number_value v = Some q /\ (q == a)%Q.
Proof.
  intros Hv Hh. destruct (exact_holds n a Hh) as (q & E & Hq).
  exists q. split; [|exact Hq]. unfold Spec.number_value. now rewrite Hv, E.
Qed.

(** the test [produced > 0] on a total that holds [a] *)
Lemma gt_zero (v : pyval) (n : number) (a : Q) :
  as_number v = Some n -> Spec.holds n a ->
  gt v (PyInt 0) = Ok (Qltb 0 a).
Proof.
  intros Hv Hh. unfold gt, compare. rewrite Hv. cbn [as_number]. f_equal.
  destruct n as [np z | np f]; cbn [Spec.holds] in Hh.
  - destruct Hh as [_ Ha]. cbn [sides exact fst snd].
    unfold flt. cbn. unfold Qltb. f_equal.
    apply Qle_bool_compat; [exact Ha | reflexivity].
  - destruct f as [| | |q]; try contradiction. subst q.
    assert (E : sides (NFloat np (fin (Qred a))) (NInt false 0)
                = (fin (Qred a), fin 0)) by (destruct np; reflexivity).
    rewrite E. cbn [fst snd]. unfold flt. cbn. unfold Qltb. f_equal.
    apply Qle_bool_compat; [apply Qred_correct | reflexivity].
Qed.

Lemma hundred : as_float (NInt false 100) = Ok (fin 100).
Proof. reflexivity. Qed.

(** the quality formula on two totals, one of them a [numpy] scalar: the
    three operations of binary64, and no error *)
Lemma quality_formula_value (p r : pyval) (np nr : number) (a b : Q) :
  as_number p = Some np -> Spec.holds np a ->
  as_number r = Some nr -> Spec.holds nr b ->
  is_np np = true ->
  quality_formula p r = Ok (NpFloat64 (Spec.quality_rate a b)).
Proof.
  intros Hp Ha Hr Hb Hnp.
  pose proof (as_float_holds np a Ha) as Fa.
  pose proof (as_float_holds nr b Hb) as Fb.
  unfold quality_formula, Spec.quality_rate.
  assert (Hsub : exists d nd,
            sub p r = Ok d /\ as_number d = Some nd
            /\ as_float nd = Ok (rnd (a - b))).
  { unfold sub, arith. rewrite Hp, Hr.
    destruct np as [pn pz | pn pf], nr as [rn rz | rn rf].
    - cbn [is_np] in Hnp. subst pn. cbn [orb].
      destruct Ha as [Hza Ea], Hb as [Hzb Eb].
      rewrite (fits64_small pz Hza), (fits64_small rz Hzb). cbn [andb].
      rewrite wrap64_small by lia.
      eexists. eexists. split; [reflexivity|]. split; [reflexivity|].
      cbn [as_float to_float]. f_equal. apply rnd_compat.
      unfold Z.sub. rewrite inject_Z_plus, inject_Z_opp, Ea, Eb. reflexivity.
    - rewrite Fa, Fb. cbn [bind].
      eexists. eexists. split; [reflexivity|].
      rewrite as_number_of_number. split; [reflexivity|].
      cbn [Spec.holds] in Hb. destruct rf; try contradiction.
      cbn [is_np orb as_float to_float fsub].
      destruct (pn || rn); cbn [as_float to_float]; f_equal; apply rnd_compat;
        now rewrite !Qred_correct.
    - rewrite Fa, Fb. cbn [bind].
      eexists. eexists. split; [reflexivity|].
      rewrite as_number_of_number. split; [reflexivity|].
      cbn [Spec.holds] in Ha. destruct pf; try contradiction.
      cbn [is_np orb as_float to_float fsub].
      destruct (pn || rn); cbn [as_float to_float]; f_equal; apply rnd_compat;
        now rewrite !Qred_correct.
    - rewrite Fa, Fb. cbn [bind].
      eexists. eexists. split; [reflexivity|].
      rewrite as_number_of_number. split; [reflexivity|].
      cbn [Spec.holds] in Ha, Hb.
      destruct pf; try contradiction. destruct rf; try contradiction.
      cbn [is_np orb as_float to_float fsub].
      destruct (pn || rn); cbn [as_float to_float]; f_equal; apply rnd_compat;
        now rewrite !Qred_correct. }
  destruct Hsub as (d & nd & -> & Hd & Fd). cbn [bind].
  unfold truediv. rewrite Hd, Hp, Hnp, orb_true_r, Fd, Fa. cbn [bind].
  unfold mul, arith. cbn [as_number]. rewrite hundred. cbn [as_float to_float bind].
  reflexivity.
Qed.

(** whatever the totals, the quality formula raises nothing when the parts
    produced are a [numpy] scalar *)
Lemma quality_formula_total (p r : pyval) :
  Spec.is_total p -> Spec.is_total r -> p <> PyInt 0 ->
  exists x, quality_formula p r = Ok (NpFloat64 x).
Proof.
  intros Tp Tr Hp.
  assert (Hnp : exists n, as_number p = Some n /\ is_np n = true
                          /\ (exists f, as_float n = Ok f)
                          /\ match n with
                             | NInt _ z => fits64 z = true
                             | _ => True
                             end).
  { destruct Tp as [(z & -> & Hz) | [(f & ->) | ->]]; [| |congruence];
      eexists; (split; [reflexivity|]); (split; [reflexivity|]);
      (split; [eexists; reflexivity|]); [exact Hz | exact I]. }
  destruct Hnp as (np & Hp' & Hnp & (fp & Fp) & Bp).
  destruct (total_number r Tr) as (nr & Hr & (fr & Fr) & Br).
  unfold quality_formula.
  assert (Hsub : exists d nd f,
            sub p r = Ok d /\ as_number d = Some nd /\ as_float nd = Ok f).
  { unfold sub, arith. rewrite Hp', Hr.
    destruct np as [pn pz | pn pf], nr as [rn rz | rn rf];
      cbn [is_np] in Hnp; try subst pn; cbn [orb].
    - rewrite Bp, Br. cbn [andb].
      eexists. eexists. eexists. split; [reflexivity|].
      split; reflexivity.
    - rewrite Fp, Fr. cbn [bind]. eexists. eexists. eexists.
      split; [reflexivity|]. rewrite as_number_of_number.
      split; [reflexivity|]. cbn [is_np orb]. reflexivity.
    - rewrite Fp, Fr. cbn [bind]. eexists. eexists. eexists.
      split; [reflexivity|]. rewrite as_number_of_number.
      split; [reflexivity|]. cbn [is_np orb]. reflexivity.
    - rewrite Fp, Fr. cbn [bind]. eexists. eexists. eexists.
      split; [reflexivity|]. rewrite as_number_of_number.
      split; [reflexivity|]. cbn [is_np orb]. reflexivity. }
  destruct Hsub as (d & nd & f & -> & Hd & Fd). cbn [bind].
  unfold truediv. rewrite Hd, Hp', Hnp, orb_true_r, Fd, Fp. cbn [bind].
  unfold mul, arith. cbn [as_number]. rewrite hundred.
  cbn [as_float to_float bind]. eexists. reflexivity.
Qed.

Lemma gt_total (v : pyval) :
  Spec.is_total v ->
  exists b, gt v (PyInt 0) = Ok b /\ (b = true -> v <> PyInt 0).
Proof.
  intros [(z & -> & Hz) | [(f & ->) | ->]]; eexists; (split; [reflexivity|]);
    try discriminate.
Qed.

Lemma int_of_holds (v : pyval) (n : number) (a : Q) :
  as_number v = Some n -> Spec.holds n a -> exists z, int_of v = Ok z.
Proof.
  intros Hv Hh. unfold int_of. rewrite Hv.
  destruct n as [np z | np f]; [eexists; reflexivity|].
  cbn [Spec.holds] in Hh. destruct f; try contradiction. eexists. reflexivity.
Qed.

Lemma float_of_total (v : pyval) :
  Spec.is_total v -> exists f, float_of v = Ok f.
Proof.
  intros T. destruct (total_number v T) as (n & Hv & Hf & _).
  unfold float_of. now rewrite Hv.
Qed.

Lemma summary_columns :
  In "Ai_partcount" numeric_columns /\ In "total_part_reject" numeric_columns
  /\ In "avg_oee" numeric_columns /\ In "avg_total_energy" numeric_columns.
Proof. unfold numeric_columns. simpl. tauto. Qed.

(** C1, amended. On a normalized table [get_file_summary] raises nothing
    and divides by nothing.  When the parts produced and the parts
    rejected add up exactly, to [P] and [R], it reports them, and as the
    quality rate the binary64 value of (P - R) / P * 100, each operation
    rounded, when [P] is positive, and the integer 0 otherwise;
    [sam_get_file_summary] reports that value rounded to two decimals,
    and the float 0 otherwise. *)
Theorem quality_rate_binary64 (df : DataFrame) :
  Spec.normalized df = true ->
  let P := Spec.column_total df "Ai_partcount" in
  let R := Spec.column_total df "total_part_reject" in
  let exactly :=
    Spec.exactly_summed df "Ai_partcount" = true
    /\ Spec.exactly_summed df "total_part_reject" = true in
  (exists s,
     get_file_summary_body W df = Ok s
     /\ (exactly ->
         (exists p, Spec.field s "total_parts_produced" = Some p /\ p == P)%Q
         /\ (exists r, Spec.field s "total_parts_rejected" = Some r /\ r == R)%Q
         /\ ((0 < P)%Q ->
             dict_get s "quality_rate"
             = Some (NpFloat64 (Spec.quality_rate P R)))
         /\ (~ (0 < P)%Q -> dict_get s "quality_rate" = Some (PyInt 0))))
  /\ (exactly ->
      exists s,
        sam_get_file_summary_body W df = Ok s
        /\ ((0 < P)%Q ->
            dict_get s "quality_rate"
            = Some (PyFloat (round2 (Spec.quality_rate P R))))
        /\ (~ (0 < P)%Q ->
            dict_get s "quality_rate" = Some (PyFloat (fin 0)))).
Proof.
  intros Hn P R exactly.
  destruct summary_columns as (I1 & I2 & I3 & I4).
  destruct (sum_or_zero_total df _ Hn I1) as (vp & Ep & Tp).
  destruct (sum_or_zero_total df _ Hn I2) as (vr & Er & Tr).
  destruct (mean_or_zero_total df _ Hn I3) as (vo & Eo & To).
  destruct (sum_or_zero_total df _ Hn I4) as (ve & Ee & Te).
  assert (Hexact : exactly ->
            exists np nr,
              as_number vp = Some np /\ Spec.holds np P
              /\ as_number vr = Some nr /\ Spec.holds nr R
              /\ (is_np np = true \/ ~ (0 < P)%Q)).
  { intros [E1 E2].
    destruct (sum_or_zero_value df _ Hn I1 E1) as (vp' & np & Ep' & Hp & Hh & Hc).
    destruct (sum_or_zero_value df _ Hn I2 E2) as (vr' & nr & Er' & Hr & Hh' & _).
    rewrite Ep in Ep'. injection Ep' as <-.
    rewrite Er in Er'. injection Er' as <-.
    exists np, nr. repeat split; try assumption.
    destruct Hc as [Hc | Hc]; [now left | right].
    unfold P, Spec.column_total. rewrite Hc. apply Qlt_irrefl. }
  split.
  - unfold get_file_summary_body. rewrite Ep, Er, Eo, Ee. cbn [bind].
    destruct (gt_total vp Tp) as (b & Hgt & Hb). rewrite Hgt. cbn [bind].
    destruct b.
    + destruct (quality_formula_total vp vr Tp Tr (Hb eq_refl)) as (x & Hx).
      rewrite Hx. cbn [bind]. eexists. split; [reflexivity|].
      intros Hex. destruct (Hexact Hex) as (np & nr & Hp & Hhp & Hr & Hhr & Hc).
      rewrite (gt_zero vp np P Hp Hhp) in Hgt. injection Hgt as Hgt.
      apply Qltb_lt in Hgt.
      destruct Hc as [Hc | Hc]; [|contradiction].
      rewrite (quality_formula_value vp vr np nr P R Hp Hhp Hr Hhr Hc) in Hx.
      injection Hx as <-.
      unfold Spec.field.
      cbn [dict_of fold_left fst snd dict_set dict_get String.eqb Ascii.eqb Bool.eqb].
      split; [exact (number_value_holds vp np P Hp Hhp)|].
      split; [exact (number_value_holds vr nr R Hr Hhr)|].
      split; [reflexivity | intros Hneg; contradiction].
    + eexists. split; [reflexivity|].
      intros Hex. destruct (Hexact Hex) as (np & nr & Hp & Hhp & Hr & Hhr & Hc).
      rewrite (gt_zero vp np P Hp Hhp) in Hgt. injection Hgt as Hgt.
      unfold Spec.field.
      cbn [dict_of fold_left fst snd dict_set dict_get String.eqb Ascii.eqb Bool.eqb].
      split; [exact (number_value_holds vp np P Hp Hhp)|].
      split; [exact (number_value_holds vr nr R Hr Hhr)|].
      split; [|reflexivity].
      intros Hpos. apply Qltb_lt in Hpos. congruence.
  - intros Hex. destruct (Hexact Hex) as (np & nr & Hp & Hhp & Hr & Hhr & Hc).
    unfold sam_get_file_summary_body. rewrite Ep, Er, Eo, Ee. cbn [bind].
    rewrite (gt_zero vp np P Hp Hhp). cbn [bind].
    destruct (int_of_holds vp np P Hp Hhp) as (zp & Ezp).
    destruct (int_of_holds vr nr R Hr Hhr) as (zr & Ezr).
    destruct (float_of_total vo To) as (fo & Efo).
    destruct (float_of_total ve Te) as (fe & Efe).
    destruct (Qltb 0 P) eqn:Hpos.
    + apply Qltb_lt in Hpos.
      destruct Hc as [Hc | Hc]; [|contradiction].
      rewrite (quality_formula_value vp vr np nr P R Hp Hhp Hr Hhr Hc).
      cbn [bind]. rewrite Ezp, Ezr, Efo, Efe. cbn [bind float_of as_number as_float to_float].
      eexists. split; [reflexivity|].
      split; [intros _; reflexivity | intros Hneg; contradiction].
    + cbn [bind]. rewrite Ezp, Ezr, Efo, Efe. cbn [bind].
      eexists. split; [reflexivity|]. split.
      * intros Hlt. apply Qltb_lt in Hlt. congruence.
      * intros _. reflexivity.
Qed.

End FileSummary.

Section FileSummaryWitness.
Import Pandas Py DataProcessor.

Lemma quality_rate_binary64_witness :
  Spec.normalized Examples.three_parts = true
  /\ Spec.exactly_summed Examples.three_parts "Ai_partcount" = true
  /\ Spec.exactly_summed Examples.three_parts "total_part_reject" = true
  /\ Spec.quality_rate 3 1 = fin (2345624805922133 # 35184372088832)
  /\ round2 (Spec.quality_rate 3 1) = fin (4691484174324859 # 70368744177664)
  /\ (exists s,
        get_file_summary_body (Examples.offline []) Examples.three_parts = Ok s
        /\ dict_get s "quality_rate"
           = Some (NpFloat64 (Spec.quality_rate 3 1)))
  /\ exists s,
       sam_get_file_summary_body (Examples.offline []) Examples.three_parts = Ok s
       /\ dict_get s "quality_rate"
          = Some (PyFloat (round2 (Spec.quality_rate 3 1))).
Proof.
  split; [reflexivity|]. split; [reflexivity|]. split; [reflexivity|].
  split; [vm_compute; reflexivity|]. split; [vm_compute; reflexivity|].
  destruct (quality_rate_binary64 (Examples.offline []) Examples.three_parts
              eq_refl) as [(s & Hs & Hget) Hsam].
  split.
  - exists s. split; [exact Hs|].
    destruct (Hget (conj eq_refl eq_refl)) as (_ & _ & Hpos & _).
    rewrite (Hpos eq_refl). vm_compute. reflexivity.
  - destruct (Hsam (conj eq_refl eq_refl)) as (s' & Hs' & Hpos & _).
    exists s'. split; [exact Hs'|].
    rewrite (Hpos eq_refl). vm_compute. reflexivity.
Defined.

(** C1 as stated fails.  With three parts produced and one rejected the
    quality rate of [get_file_summary] is the float 66.66666666666666 and
    the one of [sam_get_file_summary] the float 66.67, neither of them
    200/3; with 160 produced and 73 rejected the exact rate is 54.375 and
    the summaries report the floats under it, 54.37499999999999 and
    54.37.  With half a part produced [sam_get_file_summary] reports no
    part produced and a quality rate of 100. *)
Lemma quality_rate_is_rounded :
  let W := Examples.offline [] in
  dict_get (get_file_summary W Examples.three_parts) "quality_rate"
  = Some (NpFloat64 (fin (2345624805922133 # 35184372088832)))
  /\ dict_get (sam_get_file_summary W Examples.three_parts) "quality_rate"
     = Some (PyFloat (fin (4691484174324859 # 70368744177664)))
  /\ ~ (2345624805922133 # 35184372088832 == (3 - 1) / 3 * 100)%Q
  /\ ~ (4691484174324859 # 70368744177664 == (3 - 1) / 3 * 100)%Q
  /\ dict_get (get_file_summary W Cases.rejects) "quality_rate"
     = Some (NpFloat64 (fin (7652600929320959 # 140737488355328)))
  /\ dict_get (sam_get_file_summary W Cases.rejects) "quality_rate"
     = Some (PyFloat (fin (7651897241879183 # 140737488355328)))
  /\ ((160 - 73) / 160 * 100 == 54375 # 1000)%Q
  /\ (7652600929320959 # 140737488355328 < 54375 # 1000)%Q
  /\ (7651897241879183 # 140737488355328 < 5438 # 100)%Q
  /\ dict_get (sam_get_file_summary W Cases.half_part) "total_parts_produced"
     = Some (PyInt 0)
  /\ dict_get (sam_get_file_summary W Cases.half_part) "quality_rate"
     = Some (PyFloat (fin 100)).
Proof.
  cbv zeta.
  split; [vm_compute; reflexivity|]. split; [vm_compute; reflexivity|].
  split; [discriminate|]. split; [discriminate|].
  split; [vm_compute; reflexivity|]. split; [vm_compute; reflexivity|].
  split; [reflexivity|]. split; [reflexivity|]. split; [reflexivity|].
  split; vm_compute; reflexivity.
Qed.

End FileSummaryWitness.

Section GroupKeys.
Import Calendar Pandas DataProcessor.

Lemma insert_period_in (p x : period) (l : list period) :
  In x (insert_period p l) -> x = p \/ In x l.
Proof.
  induction l as [|q l IH]; simpl.
  - intros [<- | []]. now left.
  - destruct (period_ordinal p <? period_ordinal q).
    + intros [<- | H]; [now left | now right].
    + destruct (period_ordinal p =? period_ordinal q).
      * intros H. now right.
      * intros [<- | H]; [right; now left|].
        destruct (IH H) as [-> | H']; [now left | right; now right].
Qed.

Lemma insert_period_keeps (p x : period) (l : list period) :
  In x l -> In x (insert_period p l).
Proof.
  induction l as [|q l IH]; simpl; [easy|].
  destruct (period_ordinal p <? period_ordinal q); [intros H; now right|].
  destruct (period_ordinal p =? period_ordinal q); [easy|].
  intros [<- | H]; [now left | right; now apply IH].
Qed.

Lemma insert_period_has (p : period) (l : list period) :
  exists k, In k (insert_period p l) /\ period_ordinal k = period_ordinal p.
Proof.
  induction l as [|q l IH]; simpl.
  - exists p. split; [now left | reflexivity].
  - destruct (period_ordinal p <? period_ordinal q).
    + exists p. split; [now left | reflexivity].
    + destruct (Z.eqb_spec (period_ordinal p) (period_ordinal q)) as [E | _].
      * exists q. split; [now left | now symmetry].
      * destruct IH as (k & Hk & E). exists k. split; [now right | exact E].
Qed.

Lemma insert_period_sorted (p : period) (l : list period) :
  StronglySorted Spec.earlier l -> StronglySorted Spec.earlier (insert_period p l).
Proof.
  induction 1 as [|q l Hs IH Hq]; simpl.
  - repeat constructor.
  - destruct (Z.ltb_spec (period_ordinal p) (period_ordinal q)) as [Hlt | Hge].
    + constructor; [now constructor|]. constructor; [exact Hlt|].
      rewrite Forall_forall in *. intros x Hx. specialize (Hq x Hx).
      unfold Spec.earlier in *. lia.
    + destruct (Z.eqb_spec (period_ordinal p) (period_ordinal q)) as [E | Hne].
      * now constructor.
      * constructor; [exact IH|]. rewrite Forall_forall in *. intros x Hx.
        destruct (insert_period_in _ _ _ Hx) as [-> | Hx'];
          [unfold Spec.earlier; lia | now apply Hq].
Qed.

Lemma group_keys_sorted (rs : list row) : StronglySorted Spec.earlier (group_keys rs).
Proof.
  induction rs as [|r rs IH]; simpl; [constructor|].
  destruct (month_of r); [now apply insert_period_sorted | exact IH].
Qed.

Lemma sorted_ordinals_nodup (l : list period) :
  StronglySorted Spec.earlier l -> NoDup (map period_ordinal l).
Proof.
  induction 1 as [|q l Hs IH Hq]; simpl; constructor; [|exact IH].
  intros Hin. apply in_map_iff in Hin as (x & E & Hx).
  rewrite Forall_forall in Hq. specialize (Hq x Hx). unfold Spec.earlier in Hq. lia.
Qed.

(** a key of [groupby] is the month of one of the rows *)
Lemma group_keys_from_rows (rs : list row) (k : period) :
  In k (group_keys rs) -> exists r, In r rs /\ month_of r = Some k.
Proof.
  induction rs as [|r rs IH]; simpl; [easy|].
  destruct (month_of r) as [p|] eqn:E.
  - intros H. destruct (insert_period_in _ _ _ H) as [-> | H'].
    + exists r. split; [now left | exact E].
    + destruct (IH H') as (r' & Hr & Hm). exists r'. split; [now right | exact Hm].
  - intros H. destruct (IH H) as (r' & Hr & Hm). exists r'. split; [now right | exact Hm].
Qed.

(** the month of each row is among the keys *)
Lemma group_keys_cover (rs : list row) (r : row) (p : period) :
  In r rs -> month_of r = Some p ->
  exists k, In k (group_keys rs) /\ period_ordinal k = period_ordinal p.
Proof.
  induction rs as [|r' rs IH]; simpl; [easy|].
  intros [-> | Hr] Hm.
  - rewrite Hm. apply insert_period_has.
  - destruct (IH Hr Hm) as (k & Hk & E). exists k. split; [|exact E].
    destruct (month_of r'); [now apply insert_period_keeps | exact Hk].
Qed.

End GroupKeys.

Section PeriodNames.
Import Calendar.

Lemma str_period_inj (p q : period) :
  0 <= fst p <= 9999 -> 1 <= snd p <= 12 ->
  0 <= fst q <= 9999 -> 1 <= snd q <= 12 ->
  str_period p = str_period q -> p = q.
Proof.
  destruct p as [y m], q as [y' m']. cbn [fst snd]. intros Hy Hm Hy' Hm'.
  unfold str_period, pad4, pad2, digit. cbn [fst snd append].
  intros H. injection H as H1 H2 H3 H4 H5 H6.
  assert (D : forall a b, 0 <= a < 10 -> 0 <= b < 10 ->
            ascii_of_nat (48 + Z.to_nat a) = ascii_of_nat (48 + Z.to_nat b) -> a = b).
  { intros a b Ha Hb E. apply (f_equal nat_of_ascii) in E.
    rewrite !nat_ascii_embedding in E by lia. lia. }
  apply D in H1, H2, H3, H4, H5, H6;
    try (apply Z.mod_pos_bound; lia).
  f_equal; Z.div_mod_to_equations; lia.
Qed.

End PeriodNames.

Section Dicts.
Import Py.

Lemma dict_set_fresh (d : dict) (k : string) (v : pyval) :
  ~ In k (keys d) -> dict_set d k v = (d ++ [(k, v)])%list.
Proof.
  induction d as [|[k' x] d IH]; simpl; [reflexivity|].
  intros H. destruct (String.eqb_spec k' k) as [-> | _].
  - exfalso. apply H. now left.
  - rewrite IH; [reflexivity|]. intros Hin. apply H. now right.
Qed.

Lemma dict_of_nodup (l : list (string * pyval)) :
  NoDup (map fst l) -> dict_of l = l.
Proof.
  unfold dict_of.
  enough (G : forall acc, NoDup (map fst (acc ++ l)%list) ->
               fold_left (fun d kv => dict_set d (fst kv) (snd kv)) l acc
               = (acc ++ l)%list) by (intros H; exact (G [] H)).
  induction l as [|[k v] l IH]; intros acc H; simpl.
  - now rewrite app_nil_r.
  - rewrite dict_set_fresh.
    + rewrite IH; rewrite <- app_assoc; [reflexivity | exact H].
    + rewrite map_app in H. apply NoDup_remove_2 in H.
      intros Hin. apply H. apply in_or_app. now left.
Qed.

Lemma dict_get_set_eq (d : dict) (k : string) (v : pyval) :
  dict_get (dict_set d k v) k = Some v.
Proof.
  induction d as [|[k' x] d IH]; simpl.
  - now rewrite String.eqb_refl.
  - destruct (String.eqb_spec k' k) as [-> | Hne]; simpl.
    + now rewrite String.eqb_refl.
    + destruct (String.eqb_spec k' k); [contradiction | exact IH].
Qed.

Lemma dict_get_set_ne (d : dict) (k k' : string) (v : pyval) :
  k <> k' -> dict_get (dict_set d k' v) k = dict_get d k.
Proof.
  intros Hne. induction d as [|[k0 x] d IH]; simpl.
  - destruct (String.eqb_spec k' k); [congruence | reflexivity].
  - destruct (String.eqb_spec k0 k') as [-> | H0]; simpl.
    + destruct (String.eqb_spec k' k); [congruence | reflexivity].
    + destruct (String.eqb_spec k0 k); [reflexivity | exact IH].
Qed.

End Dicts.

Section Partition.
Import Calendar Pandas DataProcessor.
Variable f : row -> Q.

Lemma no_share (ks : list period) (r : row) :
  (forall k, In k ks -> in_month k r = false) ->
  (fold_right Qplus 0 (map (Spec.share f r) ks) == 0)%Q.
Proof.
  induction ks as [|k ks IH]; intros H; simpl; [reflexivity|].
  unfold Spec.share at 1. rewrite (H k (or_introl eq_refl)).
  rewrite IH; [ring|]. intros k' Hk'. apply H. now right.
Qed.

Lemma one_share (ks : list period) (r : row) :
  NoDup (map period_ordinal ks) ->
  (exists k, In k ks /\ in_month k r = true) ->
  (fold_right Qplus 0 (map (Spec.share f r) ks) == f r)%Q.
Proof.
  induction ks as [|k ks IH]; intros Hnd (k0 & Hin & Hk0); [destruct Hin|].
  simpl in Hnd. apply NoDup_cons_iff in Hnd as [Hfresh Hnd].
  simpl. unfold Spec.share at 1. destruct (in_month k r) eqn:Hk.
  - rewrite no_share; [ring|]. intros k' Hk'.
    destruct (in_month k' r) eqn:E; [|reflexivity].
    exfalso. apply Hfresh. unfold in_month in Hk, E.
    destruct (month_of r) as [q|]; [|discriminate].
    apply Z.eqb_eq in Hk, E. rewrite <- Hk, E. now apply in_map.
  - rewrite IH; [ring | exact Hnd |].
    destruct Hin as [-> | Hin]; [congruence|]. now exists k0.
Qed.

Lemma sum_rows_filter (k : period) (r : row) (rs : list row) :
  (Spec.sum_rows f (filter (in_month k) (r :: rs))
   == Spec.share f r k + Spec.sum_rows f (filter (in_month k) rs))%Q.
Proof.
  unfold Spec.share. simpl. destruct (in_month k r); simpl; [reflexivity | ring].
Qed.

(** the groups of [groupby] partition the rows: summing group by group is
    summing over all rows *)
Lemma sum_by_month (ks : list period) (rs : list row) :
  NoDup (map period_ordinal ks) ->
  (forall r, In r rs -> exists k, In k ks /\ in_month k r = true) ->
  (fold_right Qplus 0 (map (fun k => Spec.sum_rows f (filter (in_month k) rs)) ks)
   == Spec.sum_rows f rs)%Q.
Proof.
  intros Hnd. induction rs as [|r rs IH]; intros Hcov.
  - simpl. clear. induction ks; simpl; [reflexivity|]. rewrite IHks.
    unfold Spec.sum_rows. simpl. ring.
  - assert (E : (fold_right Qplus 0
                   (map (fun k => Spec.sum_rows f (filter (in_month k) (r :: rs))) ks)
                 == fold_right Qplus 0 (map (Spec.share f r) ks)
                    + fold_right Qplus 0
                        (map (fun k => Spec.sum_rows f (filter (in_month k) rs)) ks))%Q).
    { clear. induction ks as [|k ks IHk]; cbn [map fold_right]; [ring|].
      rewrite IHk, sum_rows_filter. ring. }
    rewrite E, IH, one_share.
    + unfold Spec.sum_rows. simpl. reflexivity.
    + exact Hnd.
    + apply Hcov. now left.
    + intros r' Hr'. apply Hcov. now right.
Qed.

End Partition.

Section Aggregation.
Import Calendar Pandas Py DataProcessor.
Variable W : World.

Lemma mapM_ok {A B : Type} (f : A -> result B) (g : A -> B) (l : list A) :
  (forall a, In a l -> f a = Ok (g a)) -> mapM f l = Ok (map g l).
Proof.
  induction l as [|a l IH]; intros H; simpl; [reflexivity|].
  rewrite (H a (or_introl eq_refl)). cbn [bind].
  rewrite IH by (intros x Hx; apply H; now right). reflexivity.
Qed.

Lemma reduce_numeric (h : how) (d : dtype) (cs : list cell) :
  is_numeric_dtype d = true ->
  reduce W h (d, cs) = Ok (Spec.numeric_reduce W h d cs).
Proof.
  intros Hd. destruct h, d; try discriminate Hd; reflexivity.
Qed.

Lemma number_value_item (v : pyval) :
  Spec.number_value (item v) = Spec.number_value v.
Proof. destruct v; reflexivity. Qed.

(** the cells of some of the rows add up exactly when the cells of all the
    rows do *)
Lemma Qabs_sum_filter (c : string) (f : row -> bool) (rs : list row) :
  (Qabs_sum (numbers (map (fun r => row_get r c) (filter f rs)))
   <= Qabs_sum (numbers (map (fun r => row_get r c) rs)))%Q.
Proof.
  induction rs as [|r rs IH]; [apply Qle_refl|].
  cbn [filter map numbers].
  destruct (f r); cbn [map numbers]; destruct (cell_Q (row_get r c)) as [q|];
    cbn [Qabs_sum fold_right]; fold (Qabs_sum (numbers (map (fun r => row_get r c) rs)));
    fold (Qabs_sum (numbers (map (fun r => row_get r c) (filter f rs))));
    try exact IH.
  - apply Qplus_le_compat; [apply Qle_refl | exact IH].
  - apply Qle_trans with (1 := IH).
    rewrite <- (Qplus_0_l (Qabs_sum _)) at 1.
    apply Qplus_le_compat; [apply Qabs_nonneg | apply Qle_refl].
Qed.

Lemma forallb_numbers_filter (P : Q -> bool) (c : string) (f : row -> bool)
    (rs : list row) :
  forallb P (numbers (map (fun r => row_get r c) rs)) = true ->
  forallb P (numbers (map (fun r => row_get r c) (filter f rs))) = true.
Proof.
  induction rs as [|r rs IH]; [easy|].
  cbn [filter map numbers].
  destruct (f r); cbn [map numbers]; destruct (cell_Q (row_get r c)) as [q|];
    cbn [forallb]; try exact IH.
  - intros H. apply andb_prop in H as [-> H]. now apply IH.
  - intros H. apply andb_prop in H as [_ H]. now apply IH.
Qed.

Lemma summable_filter (c : string) (f : row -> bool) (rs : list row) :
  summable (numbers (map (fun r => row_get r c) rs)) = true ->
  summable (numbers (map (fun r => row_get r c) (filter f rs))) = true.
Proof.
  unfold summable. apply exact_below_sub. intros g. unfold exact_at.
  intros H. apply andb_prop in H as [Hall Hb].
  apply andb_true_intro. split; [now apply forallb_numbers_filter|].
  apply Qle_bool_iff. apply Qle_bool_iff in Hb.
  exact (Qle_trans _ _ _ (Qabs_sum_filter c f rs) Hb).
Qed.

Lemma Zabs_sum_filter (c : string) (f : row -> bool) (rs : list row) :
  Spec.Zabs_sum (map cell_Z (map (fun r => row_get r c) (filter f rs)))
  <= Spec.Zabs_sum (map cell_Z (map (fun r => row_get r c) rs)).
Proof.
  induction rs as [|r rs IH]; [apply Z.le_refl|].
  cbn [filter map]. destruct (f r); cbn [map Spec.Zabs_sum fold_right];
    fold (Spec.Zabs_sum (map cell_Z (map (fun r => row_get r c) rs)));
    fold (Spec.Zabs_sum (map cell_Z (map (fun r => row_get r c) (filter f rs))));
    lia.
Qed.

Lemma exact_cells_filter (c : string) (d : dtype) (f : row -> bool)
    (rs : list row) :
  match d with
  | float64 => summable (numbers (map (fun r => row_get r c) rs)) = true
  | _ => Spec.Zabs_sum (map cell_Z (map (fun r => row_get r c) rs)) <= 2 ^ 53
  end ->
  match d with
  | float64 =>
      summable (numbers (map (fun r => row_get r c) (filter f rs))) = true
  | _ => Spec.Zabs_sum (map cell_Z (map (fun r => row_get r c) (filter f rs)))
         <= 2 ^ 53
  end.
Proof.
  pose proof (Zabs_sum_filter c f rs) as Hz.
  destruct d; try (intros H; lia). apply summable_filter.
Qed.

(** the sum of a group whose cells add up exactly *)
Lemma numeric_sum_value (d : dtype) (cs : list cell) :
  is_numeric_dtype d = true ->
  Forall (fun c => Spec.cell_has_dtype d c = true) cs ->
  match d with
  | float64 => summable (numbers cs) = true
  | _ => Spec.Zabs_sum (map cell_Z cs) <= 2 ^ 53
  end ->
  exists q,
    Spec.number_value (item (Spec.numeric_reduce W Sum d cs)) = Some q
    /\ (q == fold_right Qplus 0 (map Spec.cell_number cs))%Q.
Proof.
  intros Hd Hcs He.
  destruct (sum_of_exact W "groupby.sum" d cs Hd Hcs He)
    as (v & n & Hs & Ha & _ & Hh).
  pose proof (reduce_numeric Sum d cs Hd) as R. cbn [reduce] in R.
  rewrite R in Hs. injection Hs as <-.
  rewrite number_value_item.
  exact (number_value_holds _ n _ Ha Hh).
Qed.

Lemma group_column (df : DataFrame) (p : period) (c : string) (d : dtype) :
  lookup_dtype (columns df) c = Some d ->
  get_column (group df p) c
  = Ok (d, map (fun r => row_get r c) (filter (in_month p) (rows df))).
Proof. intros H. unfold get_column, group. cbn [columns rows]. now rewrite H. Qed.

(** [groupby(...).agg(spec)] succeeds on numeric columns, with one row of
    aggregates per month *)
Lemma groupby_numeric (df : DataFrame) (spec : list (string * how)) :
  lookup_dtype (columns df) "date" = Some datetime64 ->
  (forall c h, In (c, h) spec ->
     exists d, lookup_dtype (columns df) c = Some d /\ is_numeric_dtype d = true) ->
  groupby_month_agg W df spec
  = Ok (map (fun p => (p, map (fun ch => (fst ch, Spec.numeric_agg W df p (fst ch) (snd ch)))
                              spec))
            (group_keys (rows df))).
Proof.
  intros Hdate Hspec. unfold groupby_month_agg, get_column at 1.
  rewrite Hdate. cbn [bind].
  assert (Hm : filter (fun c => negb (has_column df c)) (map fst spec) = []).
  { clear -Hspec. induction spec as [|[c h] spec IH]; [reflexivity|].
    cbn [map filter fst].
    destruct (Hspec c h (or_introl eq_refl)) as (d & Hl & _).
    assert (has_column df c = true) as -> by (apply has_column_lookup; eauto).
    cbn [negb]. apply IH. intros c' h' Hin. apply (Hspec c' h'). now right. }
  rewrite Hm. apply mapM_ok. intros p _.
  unfold aggregate.
  rewrite (mapM_ok _ (fun ch => (fst ch, Spec.numeric_agg W df p (fst ch) (snd ch)))).
  - reflexivity.
  - intros [c h] Hin. destruct (Hspec c h Hin) as (d & Hl & Hd).
    rewrite (group_column df p c d Hl). cbn [bind].
    rewrite (reduce_numeric h d _ Hd). cbn [bind fst snd].
    unfold Spec.numeric_agg. now rewrite Hl.
Qed.

End Aggregation.

Section MonthlyBreakdown.
Import Calendar Pandas Py DataProcessor.
Variable W : World.

(** the file summary of a normalized table: its six fields, and the totals
    of the columns that add up exactly *)
Lemma file_summary_totals (df : DataFrame) :
  Spec.normalized df = true ->
  exists s,
    get_file_summary_body W df = Ok s
    /\ (Spec.exactly_summed df "Ai_partcount" = true ->
        exists p, Spec.field s "total_parts_produced" = Some p
                  /\ p == Spec.column_total df "Ai_partcount")%Q
    /\ (Spec.exactly_summed df "avg_total_energy" = true ->
        exists e, Spec.field s "total_energy" = Some e
                  /\ e == Spec.column_total df "avg_total_energy")%Q
    /\ forall k, dict_get s k <> None ->
                 In k ["total_records"; "total_parts_produced";
                       "total_parts_rejected"; "average_oee"; "total_energy";
                       "quality_rate"].
Proof.
  intros Hn. destruct summary_columns as (I1 & I2 & I3 & I4).
  destruct (sum_or_zero_total W df _ Hn I1) as (vp & Ep & Tp).
  destruct (sum_or_zero_total W df _ Hn I2) as (vr & Er & Tr).
  destruct (mean_or_zero_total W df _ Hn I3) as (vo & Eo & To).
  destruct (sum_or_zero_total W df _ Hn I4) as (ve & Ee & Te).
  assert (Hkeys : forall rate k,
            dict_get (dict_set
                        (dict_of [("total_records", PyInt (len df));
                                  ("total_parts_produced", vp);
                                  ("total_parts_rejected", vr);
                                  ("average_oee", vo);
                                  ("total_energy", ve)]) "quality_rate" rate) k
            <> None ->
            In k ["total_records"; "total_parts_produced";
                  "total_parts_rejected"; "average_oee"; "total_energy";
                  "quality_rate"]).
  { intros rate k.
    change (dict_set _ "quality_rate" rate)
      with [("total_records", PyInt (len df)); ("total_parts_produced", vp);
            ("total_parts_rejected", vr); ("average_oee", vo);
            ("total_energy", ve); ("quality_rate", rate)].
    cbn [dict_get].
    repeat (match goal with
            | |- context [String.eqb ?x k] =>
                destruct (String.eqb_spec x k) as [<- | _]; [intros _; simpl; tauto|]
            end).
    cbv iota. intros H. now contradiction H. }
  assert (Hp : Spec.exactly_summed df "Ai_partcount" = true ->
               exists p, Spec.number_value vp = Some p
                         /\ (p == Spec.column_total df "Ai_partcount")%Q).
  { intros E. destruct (sum_or_zero_value W df _ Hn I1 E)
      as (v & n & Ev & Hv & Hh & _).
    rewrite Ep in Ev. injection Ev as <-.
    exact (number_value_holds vp n _ Hv Hh). }
  assert (He : Spec.exactly_summed df "avg_total_energy" = true ->
               exists e, Spec.number_value ve = Some e
                         /\ (e == Spec.column_total df "avg_total_energy")%Q).
  { intros E. destruct (sum_or_zero_value W df _ Hn I4 E)
      as (v & n & Ev & Hv & Hh & _).
    rewrite Ee in Ev. injection Ev as <-.
    exact (number_value_holds ve n _ Hv Hh). }
  unfold get_file_summary_body. rewrite Ep, Er, Eo, Ee. cbn [bind].
  destruct (gt_total vp Tp) as (b & Hgt & Hb). rewrite Hgt. cbn [bind].
  destruct b.
  - destruct (quality_formula_total vp vr Tp Tr (Hb eq_refl)) as (x & ->).
    cbn [bind]. eexists. split; [reflexivity|].
    unfold Spec.field.
    cbn [dict_of fold_left fst snd dict_set dict_get String.eqb Ascii.eqb Bool.eqb].
    split; [exact Hp|]. split; [exact He|]. apply Hkeys.
  - eexists. split; [reflexivity|].
    unfold Spec.field.
    cbn [dict_of fold_left fst snd dict_set dict_get String.eqb Ascii.eqb Bool.eqb].
    split; [exact Hp|]. split; [exact He|]. apply Hkeys.
Qed.

Lemma normalized_date (df : DataFrame) :
  Spec.normalized df = true -> has_column df "date" = true ->
  lookup_dtype (columns df) "date" = Some datetime64.
Proof.
  unfold Spec.normalized. intros H Hc.
  apply andb_prop in H as [H _]. apply andb_prop in H as [_ H].
  unfold Spec.column_is in H. apply has_column_lookup in Hc as [d Hd].
  rewrite Hd in H |- *. now destruct d.
Qed.

(** a dated row of a normalized table holds a timestamp of the calendar *)
Lemma dated_row_time (df : DataFrame) (r : row) :
  Spec.normalized df = true -> has_column df "date" = true ->
  In r (Spec.dated (rows df)) ->
  exists t, row_get r "date" = CTime t
            /\ 0 <= year t <= 9999 /\ 1 <= month t <= 12.
Proof.
  intros Hn Hc Hr. unfold Spec.dated in Hr. apply filter_In in Hr as [Hr Hna].
  pose proof (well_typed_cell df "date" datetime64 r
                (normalized_well_typed df Hn) (normalized_date df Hn Hc) Hr) as Ht.
  destruct (row_get r "date") as [| | | | | |t]; try discriminate.
  exists t. split; [reflexivity|]. cbn in Ht.
  repeat (apply andb_prop in Ht as [Ht ?]).
  repeat match goal with H : (_ <=? _) = true |- _ => apply Z.leb_le in H end.
  lia.
Qed.

Lemma status_step (df : DataFrame) (s0 : dict) :
  exists s1,
    (if has_column df "Machine Status" then
       counts <- status_counts W df "Machine Status" ;;
       Ok (dict_set s0 "machine_status_breakdown" (PyDict counts))
     else Ok s0) = Ok s1
    /\ forall k, k <> "machine_status_breakdown" -> dict_get s1 k = dict_get s0 k.
Proof.
  destruct (has_column df "Machine Status") eqn:Hc.
  - apply has_column_lookup in Hc as [d Hd].
    unfold status_counts, get_column. rewrite Hd. cbn [bind].
    eexists. split; [reflexivity|]. intros k Hk. now apply dict_get_set_ne.
  - exists s0. split; reflexivity.
Qed.

Lemma maintenance_step (df : DataFrame) (s1 : dict) :
  exists s2,
    (if has_column df "Maintenance Flag" then
       '(d, cs) <- get_column df "Maintenance Flag" ;;
       maintenance_count <-
         (if dtype_in d ["int64"; "float64"] then series_sum W (d, cs)
          else Ok (PyInt 0)) ;;
       Ok (dict_set s1 "maintenance_events" maintenance_count)
     else Ok s1) = Ok s2
    /\ forall k, k <> "maintenance_events" -> dict_get s2 k = dict_get s1 k.
Proof.
  destruct (has_column df "Maintenance Flag") eqn:Hc.
  - apply has_column_lookup in Hc as [d Hd].
    unfold get_column. rewrite Hd. cbn [bind].
    destruct d; cbn; eexists; (split; [reflexivity|]);
      intros k Hk; now apply dict_get_set_ne.
  - exists s1. split; reflexivity.
Qed.

End MonthlyBreakdown.

Section MonthlyTheorem.
Import Calendar Pandas Py DataProcessor.
Variable W : World.

(** the keys of the monthly breakdown: one name per month, all different *)
Lemma month_names_nodup (df : DataFrame) :
  Spec.normalized df = true -> has_column df "date" = true ->
  NoDup (map str_period (group_keys (Spec.dated (rows df)))).
Proof.
  intros Hn Hc.
  assert (Hvalid : forall k, In k (group_keys (Spec.dated (rows df))) ->
                             0 <= fst k <= 9999 /\ 1 <= snd k <= 12).
  { intros k Hk. apply group_keys_from_rows in Hk as (r & Hr & Hm).
    destruct (dated_row_time df r Hn Hc Hr) as (t & Ht & Hy & Hmo).
    unfold month_of in Hm. rewrite Ht in Hm. injection Hm as <-.
    now cbn. }
  pose proof (sorted_ordinals_nodup _ (group_keys_sorted (Spec.dated (rows df))))
    as Hnd.
  revert Hvalid Hnd. generalize (group_keys (Spec.dated (rows df))).
  induction l as [|k l IH]; intros Hv Hnd; simpl; constructor.
  - intros Hin. apply in_map_iff in Hin as (k' & E & Hk').
    simpl in Hnd. apply NoDup_cons_iff in Hnd as [Hfresh _].
    apply Hfresh. apply in_map_iff. exists k'. split; [|exact Hk'].
    f_equal. destruct (Hv k (or_introl eq_refl)), (Hv k' (or_intror Hk')).
    now apply str_period_inj.
  - apply IH.
    + intros k' Hk'. apply Hv. now right.
    + simpl in Hnd. now apply NoDup_cons_iff in Hnd as [_ Hnd].
Qed.

Lemma period_ordinal_inj (p q : period) :
  1 <= snd p <= 12 -> 1 <= snd q <= 12 ->
  period_ordinal p = period_ordinal q -> p = q.
Proof.
  destruct p as [y m], q as [y' m']. unfold period_ordinal. cbn [fst snd].
  intros Hm Hm' H. f_equal; lia.
Qed.

Lemma month_entry_total (df : DataFrame) (c : string) (d : dtype)
    (ks : list period) :
  In c ["Ai_partcount"; "avg_total_energy"] ->
  lookup_dtype (columns df) c = Some d -> is_numeric_dtype d = true ->
  (forall r, In r (rows df) -> Spec.cell_has_dtype d (row_get r c) = true) ->
  match d with
  | float64 => summable (numbers (map (fun r => row_get r c) (rows df))) = true
  | _ => Spec.Zabs_sum (map cell_Z (map (fun r => row_get r c) (rows df)))
         <= 2 ^ 53
  end ->
  exists m,
    Spec.monthly_total (map (Spec.month_entry W df) ks) c = Some m
    /\ (m == fold_right Qplus 0
               (map (fun k => Spec.sum_rows
                                (fun r => Spec.cell_number (row_get r c))
                                (filter (in_month k) (rows df))) ks))%Q.
Proof.
  intros Hc Hl Hd Ht He. induction ks as [|k ks (m & Hm & Hq)].
  - exists 0%Q. split; reflexivity.
  - destruct (numeric_sum_value W d
                (map (fun r => row_get r c) (filter (in_month k) (rows df))) Hd)
      as (q & Hv & Hqv).
    { apply Forall_forall. intros x Hx. apply in_map_iff in Hx as (r & <- & Hr).
      apply Ht. now apply filter_In in Hr as [Hr _]. }
    { now apply exact_cells_filter. }
    exists (q + m)%Q. split.
    + cbn [map Spec.monthly_total fold_right Spec.month_entry snd].
      fold (Spec.monthly_total (map (Spec.month_entry W df) ks) c). rewrite Hm.
      assert (E : Spec.field
                    [("Ai_partcount", item (Spec.numeric_agg W df k "Ai_partcount" Sum));
                     ("avg_oee", item (Spec.numeric_agg W df k "avg_oee" Mean));
                     ("avg_total_energy",
                      item (Spec.numeric_agg W df k "avg_total_energy" Sum));
                     ("energyCost", item (Spec.numeric_agg W df k "energyCost" Sum))] c
                  = Some q).
      { unfold Spec.field.
        destruct Hc as [<- | [<- | []]]; cbn [dict_get String.eqb Ascii.eqb Bool.eqb];
          unfold Spec.numeric_agg; rewrite Hl; exact Hv. }
      now rewrite E.
    + cbn [map fold_right]. rewrite Hq, Hqv. unfold Spec.sum_rows.
      now rewrite map_map.
Qed.

(** C2, amended. On a normalized table that has the aggregated columns and
    a dated row, the months of the breakdown partition the dated rows;
    for a summed field whose values add up exactly, the per-month values
    add up to the sum over the dated rows, which is the table-wide total
    of the summary when every row is dated. *)
Theorem monthly_breakdown_partition (df : DataFrame) :
  Spec.normalized df = true ->
  (forall c, In c ["date"; "Ai_partcount"; "avg_oee"; "avg_total_energy";
                   "energyCost"] -> has_column df c = true) ->
  Spec.column_is df "energyCost" is_numeric_dtype = true ->
  Spec.dated (rows df) <> [] ->
  exists s mb,
    get_machine_summary_body W df = Ok s
    /\ dict_get s "monthly_breakdown" = Some (PyDict mb)
    /\ keys mb = map str_period (group_keys (Spec.dated (rows df)))
    /\ NoDup (keys mb)
    /\ (forall r, In r (Spec.dated (rows df)) ->
          exists t, row_get r "date" = CTime t
                    /\ In (str_period (to_period_M t)) (keys mb))
    /\ (forall c total,
          In (c, total) [("Ai_partcount", "total_parts_produced");
                         ("avg_total_energy", "total_energy")] ->
          Spec.exactly_summed df c = true ->
          exists m, Spec.monthly_total mb c = Some m
                    /\ (m == Spec.column_sum (Spec.dated (rows df)) c)%Q
                    /\ (Spec.dated (rows df) = rows df ->
                        exists t, Spec.field s total = Some t /\ (m == t)%Q)).
Proof.
  intros Hn Hcols Hcost Hdated.
  assert (Hdate : has_column df "date" = true) by (apply Hcols; simpl; tauto).
  destruct (file_summary_totals W df Hn) as (s0 & E0 & Hp & He & _).
  unfold get_machine_summary_body, get_file_summary. rewrite E0.
  cbn [try_except].
  destruct (status_step W df s0) as (s1 & -> & H1).
  cbn [bind].
  destruct (maintenance_step W df s1) as (s2 & -> & H2).
  cbn [bind]. rewrite Hdate.
  set (df' := dropna_subset df "date").
  assert (Hne : empty df' = false).
  { unfold empty, df', dropna_subset. cbn [rows columns].
    fold (Spec.dated (rows df)). destruct (Spec.dated (rows df)); [congruence|].
    apply has_column_lookup in Hdate as [d Hd].
    destruct (columns df); [discriminate Hd | reflexivity]. }
  rewrite Hne. cbn [negb].
  rewrite (groupby_numeric W df'
             [("Ai_partcount", Sum); ("avg_oee", Mean);
              ("avg_total_energy", Sum); ("energyCost", Sum)]).
  2:{ exact (normalized_date df Hn Hdate). }
  2:{ intros c h Hin.
      assert (Hc : has_column df c = true).
      { apply Hcols. simpl in Hin. simpl.
        destruct Hin as [[= <- _] | [[= <- _] | [[= <- _] | [[= <- _] | []]]]]; tauto. }
      apply has_column_lookup in Hc as [d Hd]. exists d. split; [exact Hd|].
      simpl in Hin.
      destruct Hin as [[= <- _] | [[= <- _] | [[= <- _] | [[= <- _] | []]]]];
        try (refine (normalized_numeric df _ d Hn _ Hd); simpl; tauto).
      unfold Spec.column_is in Hcost. now rewrite Hd in Hcost. }
  cbn [bind].
  change (rows df') with (Spec.dated (rows df)).
  set (ks := group_keys (Spec.dated (rows df))).
  assert (Hentries :
    map (fun '(k, vs) =>
           (str_period k, PyDict (dict_of (map (fun '(c, v) => (c, item v)) vs))))
        (map (fun p : period =>
                (p, map (fun ch : string * how =>
                           (fst ch, Spec.numeric_agg W df' p (fst ch) (snd ch)))
                        [("Ai_partcount", Sum); ("avg_oee", Mean);
                         ("avg_total_energy", Sum); ("energyCost", Sum)])) ks)
    = map (Spec.month_entry W df') ks).
  { rewrite map_map. reflexivity. }
  rewrite Hentries.
  assert (Hnames : map fst (map (Spec.month_entry W df') ks) = map str_period ks).
  { rewrite map_map. reflexivity. }
  pose proof (month_names_nodup df Hn Hdate) as Hnd. fold ks in Hnd.
  rewrite dict_of_nodup by (rewrite Hnames; exact Hnd).
  eexists. exists (map (Spec.month_entry W df') ks).
  split; [reflexivity|]. split; [apply dict_get_set_eq|].
  split; [exact Hnames|]. split; [unfold keys; rewrite Hnames; exact Hnd|].
  assert (Hcover : forall r, In r (Spec.dated (rows df)) ->
            exists t, row_get r "date" = CTime t
                      /\ In (to_period_M t) ks).
  { intros r Hr. destruct (dated_row_time df r Hn Hdate Hr) as (t & Ht & Hy & Hm).
    exists t. split; [exact Ht|].
    destruct (group_keys_cover (Spec.dated (rows df)) r (to_period_M t) Hr)
      as (k & Hk & E).
    { unfold month_of. now rewrite Ht. }
    fold ks in Hk.
    destruct (group_keys_from_rows _ _ Hk) as (r' & Hr' & Hm').
    destruct (dated_row_time df r' Hn Hdate Hr') as (t' & Ht' & _ & Hmo').
    unfold month_of in Hm'. rewrite Ht' in Hm'. injection Hm' as <-.
    rewrite (period_ordinal_inj (to_period_M t') (to_period_M t)) in Hk;
      [exact Hk | exact Hmo' | exact Hm | exact E]. }
  split.
  { intros r Hr. destruct (Hcover r Hr) as (t & Ht & Hin). exists t.
    split; [exact Ht|]. unfold keys. rewrite Hnames. now apply in_map. }
  assert (Htotal : forall c total d,
            In c ["Ai_partcount"; "avg_total_energy"] ->
            In c numeric_columns ->
            lookup_dtype (columns df) c = Some d ->
            Spec.exactly_summed df c = true ->
            total <> "machine_status_breakdown" -> total <> "maintenance_events" ->
            total <> "date_range" -> total <> "monthly_breakdown" ->
            (exists p, Spec.field s0 total = Some p
                       /\ p == Spec.column_total df c)%Q ->
            exists m,
              Spec.monthly_total (map (Spec.month_entry W df') ks) c = Some m
              /\ (m == Spec.column_sum (Spec.dated (rows df)) c)%Q
              /\ (Spec.dated (rows df) = rows df ->
                  exists t,
                    Spec.field
                      (dict_set (dict_set s2 "date_range" (get_date_range df'))
                         "monthly_breakdown"
                         (PyDict (map (Spec.month_entry W df') ks))) total
                    = Some t /\ (m == t)%Q)).
  { intros c total d Hc Hnum Hl Hex N1 N2 N3 N4 (p & Hfp & Hpq).
    pose proof (normalized_numeric df c d Hn Hnum Hl) as Hd.
    destruct (month_entry_total df' c d ks Hc Hl Hd) as (m & Hm & Hq).
    { intros r Hr. apply (well_typed_cell df c d r (normalized_well_typed df Hn) Hl).
      now apply filter_In in Hr as [Hr _]. }
    { apply exact_cells_filter.
      exact (exactly_summed_column df c d Hl Hd Hex). }
    assert (Hsum : (m == Spec.column_sum (Spec.dated (rows df)) c)%Q).
    { rewrite Hq. change (rows df') with (Spec.dated (rows df)).
      apply (sum_by_month (fun r => Spec.cell_number (row_get r c))).
      - apply sorted_ordinals_nodup, group_keys_sorted.
      - intros r Hr. destruct (Hcover r Hr) as (t & Ht & Hin).
        exists (to_period_M t). split; [exact Hin|].
        unfold in_month, month_of. rewrite Ht. apply Z.eqb_refl. }
    exists m. split; [exact Hm|]. split; [exact Hsum|].
    intros Hall. exists p. split.
    - unfold Spec.field in *.
      rewrite !dict_get_set_ne by congruence.
      rewrite H2, H1 by congruence. exact Hfp.
    - rewrite Hsum, Hpq, Hall. unfold Spec.column_total.
      assert (has_column df c = true) as -> by (apply has_column_lookup; eauto).
      reflexivity. }
  intros c total Hin Hex.
  destruct Hin as [[= <- <-] | [[= <- <-] | []]].
  - assert (Hc : has_column df "Ai_partcount" = true) by (apply Hcols; simpl; tauto).
    apply has_column_lookup in Hc as [d Hd].
    apply (Htotal _ _ d); try (simpl; tauto); try discriminate; try assumption.
  - assert (Hc : has_column df "avg_total_energy" = true) by (apply Hcols; simpl; tauto).
    apply has_column_lookup in Hc as [d Hd].
    apply (Htotal _ _ d); try (simpl; tauto); try discriminate; try assumption.
Qed.

End MonthlyTheorem.

Section Pruning.
Import Calendar Pandas Py DataProcessor.
Variable W : World.

Lemma set_dtype_names (cols : list (string * dtype)) (c : string) (d d' : dtype) :
  lookup_dtype cols c = Some d' -> map fst (set_dtype cols c d) = map fst cols.
Proof.
  induction cols as [|[k x] cols IH]; simpl; [discriminate|].
  destruct (String.eqb k c); simpl; [reflexivity|].
  intros H. now rewrite IH.
Qed.

Lemma convert_numeric_names (df : DataFrame) (col : string) :
  column_names (convert_numeric W df col) = column_names df.
Proof.
  unfold convert_numeric.
  destruct (lookup_dtype (columns df) col) as [d|] eqn:E; [|reflexivity].
  destruct d; try reflexivity;
    destruct (forallb _ _); unfold column_names, map_column; cbn [columns];
    eapply set_dtype_names; exact E.
Qed.

Lemma convert_numeric_columns_names (df : DataFrame) :
  column_names (convert_numeric_columns W df) = column_names df.
Proof.
  unfold convert_numeric_columns. generalize numeric_columns.
  intros l. revert df. induction l as [|c l IH]; intros df; simpl; [reflexivity|].
  rewrite IH. destruct (has_column df c); [apply convert_numeric_names | reflexivity].
Qed.

Lemma convert_date_names (df df1 : DataFrame) :
  has_column df "date" = true -> convert_date W df = Ok df1 ->
  column_names df1 = column_names df.
Proof.
  intros Hc. apply has_column_lookup in Hc as [d Hd]. unfold convert_date.
  destruct (mapM _ _) as [ts|e]; [|discriminate]. cbn [bind].
  intros [= <-]. unfold column_names. cbn [columns].
  now apply set_dtype_names with (d' := d).
Qed.

Lemma has_column_names (df df' : DataFrame) (c : string) :
  column_names df' = column_names df -> has_column df' c = has_column df c.
Proof. unfold has_column. now intros ->. Qed.

Lemma select_dtypes_ok (cols : list (string * dtype)) (keep : list string) :
  (forall c, In c keep -> exists d, lookup_dtype cols c = Some d) ->
  exists r, select_dtypes cols keep = Ok r /\ map fst r = keep.
Proof.
  induction keep as [|c keep IH]; intros H; simpl.
  - exists []. split; reflexivity.
  - destruct (H c (or_introl eq_refl)) as [d ->].
    destruct IH as (r & -> & Hr); [intros x Hx; apply H; now right|].
    cbn [bind]. exists ((c, d) :: r). split; [reflexivity|]. simpl. now rewrite Hr.
Qed.

(** the columns [sam_clean_dataframe] keeps when the rows have a date and
    its conversion succeeds *)
Lemma sam_clean_columns (df df1 : DataFrame) :
  has_column df "date" = true -> convert_date W df = Ok df1 ->
  column_names (sam_clean_dataframe W df)
  = "date" :: filter (has_column df) numeric_columns.
Proof.
  intros Hc H1. unfold sam_clean_dataframe. rewrite Hc, H1.
  set (df2 := convert_numeric_columns W df1).
  assert (Hnames : column_names df2 = column_names df).
  { unfold df2. rewrite convert_numeric_columns_names.
    now apply convert_date_names. }
  assert (Hkeep : filter (has_column df2) numeric_columns
                  = filter (has_column df) numeric_columns).
  { apply filter_ext. intros c. now apply has_column_names. }
  cbv zeta. rewrite Hkeep. unfold select_columns.
  destruct (select_dtypes_ok (columns df2)
              (["date"] ++ filter (has_column df) numeric_columns)%list)
    as (r & -> & Hr).
  { intros c [<- | Hin].
    - apply has_column_lookup. now rewrite (has_column_names df df2).
    - apply filter_In in Hin as [_ Hin]. apply has_column_lookup.
      now rewrite (has_column_names df df2). }
  cbn [bind]. unfold column_names, dropna_all. cbn [columns]. exact Hr.
Qed.


Lemma summary_dict_keys (n vp vr vo ve rate : pyval) (k : string) :
  dict_get (dict_set
              (dict_of [("total_records", n); ("total_parts_produced", vp);
                        ("total_parts_rejected", vr); ("average_oee", vo);
                        ("total_energy", ve)]) "quality_rate" rate) k
  <> None ->
  In k ["total_records"; "total_parts_produced"; "total_parts_rejected";
        "average_oee"; "total_energy"; "quality_rate"].
Proof.
  change (dict_set _ "quality_rate" rate)
    with [("total_records", n); ("total_parts_produced", vp);
          ("total_parts_rejected", vr); ("average_oee", vo);
          ("total_energy", ve); ("quality_rate", rate)].
  cbn [dict_get].
  repeat (match goal with
          | |- context [String.eqb ?x k] =>
              destruct (String.eqb_spec x k) as [<- | _]; [intros _; simpl; tauto|]
          end).
  cbv iota. intros H. now contradiction H.
Qed.

(** the fields of a file summary, whatever the table *)
Lemma file_summary_keys (df : DataFrame) (k : string) :
  dict_get (get_file_summary W df) k <> None ->
  In k ["total_records"; "total_parts_produced"; "total_parts_rejected";
        "average_oee"; "total_energy"; "quality_rate"].
Proof.
  unfold get_file_summary, get_file_summary_body.
  destruct (sum_or_zero W df "Ai_partcount") as [vp|]; [|intros H; now contradiction H].
  destruct (sum_or_zero W df "total_part_reject") as [vr|]; [|intros H; now contradiction H].
  destruct (mean_or_zero W df "avg_oee") as [vo|]; [|intros H; now contradiction H].
  destruct (sum_or_zero W df "avg_total_energy") as [ve|]; [|intros H; now contradiction H].
  cbn [bind].
  destruct (gt vp (PyInt 0)) as [[]|]; cbn [bind]; [| |intros H; now contradiction H].
  - destruct (quality_formula vp vr) as [rate|]; [|intros H; now contradiction H].
    cbn [bind try_except]. apply summary_dict_keys.
  - cbn [try_except]. apply summary_dict_keys.
Qed.

Lemma dict_get_map_item (d : dict) (k : string) :
  dict_get (map (fun '(k, v) => (k, item v)) d) k = option_map item (dict_get d k).
Proof.
  induction d as [|[k' v] d IH]; simpl; [reflexivity|].
  destruct (String.eqb k' k); [reflexivity | exact IH].
Qed.



End Pruning.

Section PruningWitness.
Import Calendar Pandas Py DataProcessor.


(** C10. The claim fails on rows without a date.  The list of the columns
    to keep always starts with ['date']: the selection raises [KeyError],
    and the handler returns the table with all its columns, the machine
    status and the maintenance flag among them, against the comment "keep
    only desired columns if present".  The summary of that table has a
    status breakdown and a maintenance event.  With a date in the rows the
    same columns are dropped. *)
Theorem dateless_rows_keep_status :
  let W := Examples.offline [] in
  let df := sam_clean_dataframe W (from_rows Examples.dateless_rows) in
  (exists label,
     select_columns
       (convert_numeric_columns W (from_rows Examples.dateless_rows))
       (["date"] ++ filter (has_column (from_rows Examples.dateless_rows))
                           numeric_columns)
     = Raise (KeyError label))
  /\ column_names df = ["Machine Status"; "Maintenance Flag"; "Ai_partcount"]
  /\ has_column df "Machine Status" = true
  /\ has_column df "Maintenance Flag" = true
  /\ dict_get (sam_get_machine_summary W df) "machine_status_breakdown"
     = Some (PyDict [("Running", PyInt 1)])
  /\ dict_get (sam_get_machine_summary W df) "maintenance_events"
     = Some (PyInt 1)
  /\ column_names (sam_clean_dataframe W (from_rows Examples.dated_rows))
     = ["date"; "Ai_partcount"].
Proof.
  cbv zeta. split; [eexists; reflexivity|]. repeat split.
Qed.

End PruningWitness.

Section NativeValues.
Import Calendar Pandas Py DataProcessor.
Variable W : World.

Lemma forallb_dict_set (P : string * pyval -> bool) (d : dict) (k : string)
    (v : pyval) :
  forallb P d = true -> P (k, v) = true -> forallb P (dict_set d k v) = true.
Proof.
  intros Hd Hv. induction d as [|[k' x] d IH]; simpl.
  - now rewrite Hv.
  - simpl in Hd. apply andb_prop in Hd as [Hx Hd].
    destruct (String.eqb_spec k' k) as [-> | _]; simpl.
    + now rewrite Hv, Hd.
    + now rewrite Hx, IH.
Qed.

Lemma forallb_dict_of (P : string * pyval -> bool) (l : list (string * pyval)) :
  (forall kv, In kv l -> P kv = true) -> forallb P (dict_of l) = true.
Proof.
  unfold dict_of. intros H.
  enough (G : forall acc, forallb P acc = true ->
               forallb P (fold_left (fun d kv => dict_set d (fst kv) (snd kv)) l acc)
               = true) by now apply G.
  induction l as [|[k v] l IH]; intros acc Hacc; simpl; [exact Hacc|].
  apply IH; [intros kv Hkv; apply H; now right|].
  apply forallb_dict_set; [exact Hacc | apply H; now left].
Qed.

Lemma item_native (v : pyval) : Spec.native (item v) = true.
Proof. now destruct v. Qed.

Lemma all_native_set (s : dict) (k : string) (v : pyval) :
  Spec.all_native s = true -> Spec.all_native [(k, v)] = true ->
  Spec.all_native (dict_set s k v) = true.
Proof.
  unfold Spec.all_native. intros Hs Hv. apply forallb_dict_set; [exact Hs|].
  cbn [forallb] in Hv. now rewrite andb_true_r in Hv.
Qed.

Lemma date_range_native (df : DataFrame) (k : string) :
  Spec.all_native [(k, get_date_range df)] = true.
Proof.
  unfold get_date_range.
  destruct (has_column df "date"); [|reflexivity].
  destruct (get_column df "date") as [[d cs]|]; [|reflexivity].
  cbn [bind]. destruct (negb (forallb isna cs)); [|reflexivity].
  destruct d; try reflexivity. destruct (times cs); reflexivity.
Qed.

Lemma all_native_cons (kv : string * pyval) (s : dict) :
  Spec.all_native (kv :: s) = Spec.all_native [kv] && Spec.all_native s.
Proof. unfold Spec.all_native. cbn [forallb]. now rewrite andb_true_r. Qed.

Lemma number_native (k : string) (v : pyval) (n : number) :
  as_number v = Some n -> Spec.all_native [(k, item v)] = true.
Proof. destruct v; try discriminate; reflexivity. Qed.

(** the file summary of a normalized table holds numbers only *)
Lemma file_summary_numbers (df : DataFrame) :
  Spec.normalized df = true ->
  Spec.all_native (map (fun '(k, v) => (k, item v)) (get_file_summary W df)) = true.
Proof.
  intros Hn. destruct summary_columns as (I1 & I2 & I3 & I4).
  destruct (sum_or_zero_total W df _ Hn I1) as (vp & Ep & Tp).
  destruct (sum_or_zero_total W df _ Hn I2) as (vr & Er & Tr).
  destruct (mean_or_zero_total W df _ Hn I3) as (vo & Eo & To).
  destruct (sum_or_zero_total W df _ Hn I4) as (ve & Ee & Te).
  destruct (total_number vp Tp) as (np & Hp & _).
  destruct (total_number vr Tr) as (nr & Hr & _).
  destruct (total_number vo To) as (no & Ho & _).
  destruct (total_number ve Te) as (ne & He & _).
  unfold get_file_summary, get_file_summary_body.
  rewrite Ep, Er, Eo, Ee. cbn [bind].
  destruct (gt_total vp Tp) as (positive & -> & Hpositive). cbn [bind].
  assert (Hfinal : forall rate n,
            as_number rate = Some n ->
            Spec.all_native
              (map (fun '(k, v) => (k, item v))
                   (dict_set
                      (dict_of [("total_records", PyInt (len df));
                                ("total_parts_produced", vp);
                                ("total_parts_rejected", vr);
                                ("average_oee", vo);
                                ("total_energy", ve)]) "quality_rate" rate))
            = true).
  { intros rate n Hrate.
    change (dict_set _ "quality_rate" rate)
      with [("total_records", PyInt (len df)); ("total_parts_produced", vp);
            ("total_parts_rejected", vr); ("average_oee", vo);
            ("total_energy", ve); ("quality_rate", rate)].
    cbn [map]. rewrite !(all_native_cons (_, _) (_ :: _)).
    rewrite (number_native "total_parts_produced" _ _ Hp),
      (number_native "total_parts_rejected" _ _ Hr),
      (number_native "average_oee" _ _ Ho),
      (number_native "total_energy" _ _ He),
      (number_native "quality_rate" _ _ Hrate).
    reflexivity. }
  destruct positive.
  - destruct (quality_formula_total vp vr Tp Tr (Hpositive eq_refl)) as (x & ->).
    cbn [bind try_except]. now apply (Hfinal _ (NFloat true x)).
  - cbn [try_except]. now apply (Hfinal (PyInt 0) (NInt false 0)).
Qed.

(** every aggregate of [sam_get_machine_summary] is a native number *)
Lemma sam_summary_native (df : DataFrame) :
  Spec.normalized df = true ->
  Spec.all_native (sam_get_machine_summary W df) = true.
Proof.
  intros Hn. unfold sam_get_machine_summary, sam_get_machine_summary_body.
  pose proof (file_summary_numbers df Hn) as H0.
  set (s0 := map (fun '(k, v) => (k, item v)) (get_file_summary W df)) in *.
  assert (H1 : exists s1,
            (if has_column df "Machine Status" then
               counts <- status_counts W df "Machine Status" ;;
               Ok (dict_set s0 "machine_status_breakdown"
                     (PyDict (map (fun '(k, v) => (k, item v)) counts)))
             else Ok s0) = Ok s1 /\ Spec.all_native s1 = true
            \/ exists e,
            (if has_column df "Machine Status" then
               counts <- status_counts W df "Machine Status" ;;
               Ok (dict_set s0 "machine_status_breakdown"
                     (PyDict (map (fun '(k, v) => (k, item v)) counts)))
             else Ok s0) = Raise e).
  { destruct (has_column df "Machine Status"); [|exists s0; left; now split].
    unfold status_counts.
    destruct (get_column df "Machine Status") as [[d cs]|e];
      [|exists s0; right; now exists e].
    cbn [bind]. eexists. left. split; [reflexivity|].
    apply all_native_set; [exact H0|].
    unfold Spec.all_native. cbn [forallb]. rewrite andb_true_r.
    rewrite forallb_forall. intros [k x] Hin.
    apply in_map_iff in Hin as ([k' x'] & [= <- <-] & Hin).
    assert (Hints : forallb (fun kv => match snd kv with
                                       | PyInt _ => true
                                       | _ => false
                                       end)
                      (dict_of (map (fun '(v, n) => (label W v, PyInt (Z.of_nat n)))
                                    (value_counts cs))) = true).
    { apply forallb_dict_of. intros kv Hkv.
      apply in_map_iff in Hkv as ([v n] & <- & _). reflexivity. }
    rewrite forallb_forall in Hints. specialize (Hints _ Hin). cbn [snd] in Hints.
    destruct x'; try discriminate Hints. reflexivity. }
  destruct H1 as (s1 & [(-> & H1) | (e & ->)]); [|reflexivity].
  cbn [bind].
  assert (H2 : forall r,
            (if has_column df "Maintenance Flag" then
               '(d, cs) <- get_column df "Maintenance Flag" ;;
               if dtype_in d ["int64"; "float64"; "bool"] then
                 total <- series_sum W (d, cs) ;;
                 n <- int_of total ;;
                 Ok (dict_set s1 "maintenance_events" (PyInt n))
               else Ok (dict_set s1 "maintenance_events" (PyInt 0))
             else Ok s1) = Ok r -> Spec.all_native r = true).
  { intros r. destruct (has_column df "Maintenance Flag"); [|now intros [= <-]].
    destruct (get_column df "Maintenance Flag") as [[d cs]|]; [|discriminate].
    cbn [bind]. destruct (dtype_in d _).
    - destruct (series_sum W (d, cs)) as [total|]; [|discriminate]. cbn [bind].
      destruct (int_of total) as [n|]; [|discriminate]. cbn [bind].
      intros [= <-]. now apply all_native_set.
    - intros [= <-]. now apply all_native_set. }
  destruct (if has_column df "Maintenance Flag" then _ else _) as [s2|];
    [|reflexivity].
  specialize (H2 s2 eq_refl). cbn [bind].
  destruct (has_column df "date"); [|exact H2].
  destruct (negb (empty (dropna_subset df "date"))); [|exact H2].
  destruct (groupby_month_agg _ _ _) as [monthly|]; [|reflexivity].
  cbn [bind try_except].
  apply all_native_set; [apply all_native_set; [exact H2 | apply date_range_native]|].
  unfold Spec.all_native. cbn [forallb]. rewrite andb_true_r.
  apply forallb_dict_of. intros [k x] Hin.
  apply in_map_iff in Hin as ([p row] & [= <- <-] & _).
  apply forallb_dict_of. intros [c y] Hin.
  apply in_map_iff in Hin as ([c' y'] & [= <- <-] & _).
  apply item_native.
Qed.

End NativeValues.

Section SiblingSummary.
Import Calendar Pandas Py DataProcessor.
Variable W : World.

Lemma sam_status_step (df : DataFrame) (s0 : dict) :
  exists s1,
    (if has_column df "Machine Status" then
       counts <- status_counts W df "Machine Status" ;;
       Ok (dict_set s0 "machine_status_breakdown"
             (PyDict (map (fun '(k, v) => (k, item v)) counts)))
     else Ok s0) = Ok s1.
Proof.
  destruct (has_column df "Machine Status") eqn:Hc; [|now exists s0].
  apply has_column_lookup in Hc as [d Hd].
  unfold status_counts, get_column. rewrite Hd. cbn [bind]. eexists. reflexivity.
Qed.

Lemma sam_maintenance_step (df : DataFrame) (s1 : dict) :
  Spec.exactly_summed df "Maintenance Flag" = true ->
  exists s2,
    (if has_column df "Maintenance Flag" then
       '(d, cs) <- get_column df "Maintenance Flag" ;;
       if dtype_in d ["int64"; "float64"; "bool"] then
         total <- series_sum W (d, cs) ;;
         n <- int_of total ;;
         Ok (dict_set s1 "maintenance_events" (PyInt n))
       else Ok (dict_set s1 "maintenance_events" (PyInt 0))
     else Ok s1) = Ok s2.
Proof.
  intros He.
  destruct (has_column df "Maintenance Flag") eqn:Hc; [|now exists s1].
  apply has_column_lookup in Hc as [d Hd].
  unfold get_column. rewrite Hd. cbn [bind].
  unfold Spec.exactly_summed in He. rewrite Hd in He.
  destruct d; cbn; try (eexists; reflexivity).
  unfold float_sum. rewrite He. eexists. reflexivity.
Qed.

(** the date range of the dated rows of a normalized table is a triple *)
Lemma dated_range_triple (df : DataFrame) :
  Spec.normalized df = true -> has_column df "date" = true ->
  Spec.dated (rows df) <> [] ->
  exists start stop days,
    get_date_range (dropna_subset df "date")
    = PyDict [("start", PyStr start); ("end", PyStr stop); ("days", PyInt days)].
Proof.
  intros Hn Hc Hne. unfold get_date_range.
  assert (E : has_column (dropna_subset df "date") "date" = true) by exact Hc.
  rewrite E. unfold get_column. cbn [dropna_subset columns rows].
  rewrite (normalized_date df Hn Hc). cbn [bind].
  fold (Spec.dated (rows df)).
  destruct (Spec.dated (rows df)) as [|r rs] eqn:Hd; [congruence|].
  destruct (dated_row_time df r Hn Hc) as (t & Ht & _).
  { rewrite Hd. now left. }
  cbn [map forallb times]. rewrite Ht. cbn [isna andb negb times].
  do 3 eexists. reflexivity.
Qed.

Lemma keys_dict_of (l : list (string * pyval)) :
  NoDup (map fst l) -> keys (dict_of l) = map fst l.
Proof. intros H. now rewrite dict_of_nodup. Qed.

(** on a normalized table that has the three aggregated columns and a dated
    row, and whose maintenance flags add up exactly,
    [sam_get_machine_summary] returns the date range and one entry per
    month *)
Lemma sam_breakdown_present (df : DataFrame) :
  Spec.normalized df = true ->
  Spec.exactly_summed df "Maintenance Flag" = true ->
  (forall c, In c ["date"; "Ai_partcount"; "avg_oee"; "avg_total_energy"] ->
             has_column df c = true) ->
  Spec.column_is df "energyCost" is_numeric_dtype = true ->
  Spec.dated (rows df) <> [] ->
  exists s start stop days mb,
    sam_get_machine_summary_body W df = Ok s
    /\ dict_get s "date_range"
       = Some (PyDict [("start", PyStr start); ("end", PyStr stop);
                       ("days", PyInt days)])
    /\ dict_get s "monthly_breakdown" = Some (PyDict mb)
    /\ keys mb = map str_period (group_keys (Spec.dated (rows df)))
    /\ NoDup (keys mb).
Proof.
  intros Hn Hflag Hcols Hcost Hdated.
  assert (Hdate : has_column df "date" = true) by (apply Hcols; simpl; tauto).
  unfold sam_get_machine_summary_body. cbv zeta.
  change (@Ok (list (string * pyval))) with (@Ok dict).
  destruct (sam_status_step df (map (fun '(k, v) => (k, item v))
                                    (get_file_summary W df))) as (s1 & ->).
  cbn [bind].
  destruct (sam_maintenance_step df s1 Hflag) as (s2 & ->).
  cbn [bind]. rewrite Hdate.
  set (df' := dropna_subset df "date").
  assert (Hne : empty df' = false).
  { unfold empty, df', dropna_subset. cbn [rows columns].
    fold (Spec.dated (rows df)). destruct (Spec.dated (rows df)); [congruence|].
    apply has_column_lookup in Hdate as [d Hd].
    destruct (columns df); [discriminate Hd | reflexivity]. }
  rewrite Hne. cbn [negb].
  destruct (dated_range_triple df Hn Hdate Hdated) as (start & stop & days & Hrange).
  fold df' in Hrange. rewrite Hrange.
  set (spec := ([("Ai_partcount", Sum); ("avg_oee", Mean); ("avg_total_energy", Sum)]
                ++ (if has_column df "energyCost" then [("energyCost", Sum)] else []))%list).
  rewrite (groupby_numeric W df' spec).
  2:{ exact (normalized_date df Hn Hdate). }
  2:{ intros c h Hin. unfold spec in Hin. apply in_app_or in Hin as [Hin | Hin].
      - assert (Hc : has_column df c = true).
        { apply Hcols. simpl in Hin. simpl.
          destruct Hin as [[= <- _] | [[= <- _] | [[= <- _] | []]]]; tauto. }
        apply has_column_lookup in Hc as [d Hd]. exists d. split; [exact Hd|].
        refine (normalized_numeric df c d Hn _ Hd). simpl in Hin.
        destruct Hin as [[= <- _] | [[= <- _] | [[= <- _] | []]]]; simpl; tauto.
      - destruct (has_column df "energyCost") eqn:Hc; [|destruct Hin].
        destruct Hin as [[= <- _] | []].
        apply has_column_lookup in Hc as [d Hd]. exists d. split; [exact Hd|].
        unfold Spec.column_is in Hcost. now rewrite Hd in Hcost. }
  cbn [bind]. change (rows df') with (Spec.dated (rows df)).
  rewrite map_map.
  pose proof (month_names_nodup df Hn Hdate) as Hnd.
  match goal with |- context [dict_of (map ?f (group_keys ?rs))] =>
    set (entries := map f (group_keys rs))
  end.
  assert (Hnames : map fst entries
                   = map str_period (group_keys (Spec.dated (rows df)))).
  { unfold entries. rewrite map_map. reflexivity. }
  do 4 eexists. exists (dict_of entries).
  split; [reflexivity|].
  split; [rewrite dict_get_set_ne by discriminate; apply dict_get_set_eq|].
  split; [apply dict_get_set_eq|].
  rewrite keys_dict_of by (rewrite Hnames; exact Hnd).
  rewrite Hnames. split; [reflexivity | exact Hnd].
Qed.

End SiblingSummary.

Section MonthlyWitness.
Import Calendar Pandas Py DataProcessor.

Lemma monthly_breakdown_partition_witness :
  exists s mb,
    get_machine_summary_body (Examples.offline []) Examples.two_months = Ok s
    /\ dict_get s "monthly_breakdown" = Some (PyDict mb)
    /\ keys mb = ["2024-01"; "2024-02"]
    /\ exists m t, Spec.monthly_total mb "Ai_partcount" = Some m
                   /\ Spec.field s "total_parts_produced" = Some t
                   /\ (m == t)%Q.
Proof.
  destruct (monthly_breakdown_partition (Examples.offline []) Examples.two_months)
    as (s & mb & Hs & Hmb & Hkeys & _ & _ & Hsum).
  - reflexivity.
  - intros c Hc. simpl in Hc.
    destruct Hc as [<- | [<- | [<- | [<- | [<- | []]]]]]; reflexivity.
  - reflexivity.
  - discriminate.
  - exists s, mb. split; [exact Hs|]. split; [exact Hmb|]. split; [exact Hkeys|].
    destruct (Hsum "Ai_partcount" "total_parts_produced" (or_introl eq_refl)
                eq_refl)
      as (m & Hm & _ & Hall).
    destruct (Hall eq_refl) as (t & Ht & Hmt).
    exists m, t. repeat split; assumption.
Defined.

(** C2 as stated fails: a row without a date counts in the table-wide
    total and in no month. *)
Lemma undated_row_breaks_totals :
  let s := get_machine_summary (Examples.offline []) Examples.undated_row in
  exists mb m t,
    dict_get s "monthly_breakdown" = Some (PyDict mb)
    /\ Spec.monthly_total mb "Ai_partcount" = Some m
    /\ Spec.field s "total_parts_produced" = Some t
    /\ (m == 5)%Q /\ (t == 12)%Q /\ ~ (m == t)%Q.
Proof.
  cbv zeta. do 3 eexists.
  split; [reflexivity|]. split; [reflexivity|]. split; [reflexivity|].
  split; [reflexivity|]. split; [reflexivity|]. discriminate.
Qed.

End MonthlyWitness.

Section MachineSummary.
Import Calendar Pandas Py DataProcessor.
Variable W : World.

(** C3. The totals of [get_machine_summary] are [numpy] scalars, not native
    numbers; [sam_get_machine_summary] hands out native numbers for the
    same table. *)
Theorem machine_summary_boxed_totals :
  dict_get (get_machine_summary W Examples.part_counts) "total_parts_produced"
  = Some (NpInt64 5)
  /\ Spec.all_native (get_machine_summary W Examples.part_counts) = false
  /\ dict_get (sam_get_machine_summary W Examples.part_counts)
       "total_parts_produced" = Some (PyInt 5)
  /\ Spec.all_native (sam_get_machine_summary W Examples.part_counts) = true.
Proof. repeat split. Qed.

(** C4. On a table of canonical columns with a dated row,
    [get_machine_summary] asks [agg] for the column [energyCost], which the
    table lacks, and returns the empty summary: no date range, no monthly
    breakdown.  [sam_get_machine_summary] returns both. *)
Theorem canonical_table_loses_breakdown :
  Spec.normalized Examples.canonical = true
  /\ get_machine_summary W Examples.canonical = []
  /\ dict_get (sam_get_machine_summary W Examples.canonical) "date_range"
     = Some (PyDict [("start", PyStr "2024-01-15T00:00:00");
                     ("end", PyStr "2024-01-15T00:00:00");
                     ("days", PyInt 1)])
  /\ exists mb,
       dict_get (sam_get_machine_summary W Examples.canonical) "monthly_breakdown"
       = Some (PyDict mb)
       /\ keys mb = ["2024-01"].
Proof.
  split; [reflexivity|]. split; [reflexivity|]. split; [reflexivity|].
  eexists. split; reflexivity.
Qed.

End MachineSummary.

(** ** The rest of the program *)

Section Rows.
Import Pandas.

Lemma row_get_set_eq (r : row) (k : string) (v : cell) :
  row_get (row_set r k v) k = v.
Proof.
  induction r as [|[k0 x] r IH]; simpl.
  - now rewrite String.eqb_refl.
  - destruct (String.eqb_spec k0 k) as [-> | Hne]; simpl.
    + now rewrite String.eqb_refl.
    + destruct (String.eqb_spec k0 k); [contradiction | exact IH].
Qed.

Lemma row_get_set_ne (r : row) (c k : string) (v : cell) :
  c <> k -> row_get (row_set r c v) k = row_get r k.
Proof.
  intros Hne. induction r as [|[k0 x] r IH]; simpl.
  - destruct (String.eqb_spec c k); [contradiction | reflexivity].
  - destruct (String.eqb_spec k0 c) as [-> | H0]; simpl.
    + destruct (String.eqb_spec c k); [contradiction | reflexivity].
    + destruct (String.eqb_spec k0 k); [reflexivity | exact IH].
Qed.

Lemma row_set_keeps_key (r : row) (c k : string) (v : cell) :
  In k (map fst r) -> In k (map fst (row_set r c v)).
Proof.
  induction r as [|[k0 x] r IH]; simpl; [tauto|].
  destruct (String.eqb k0 c); simpl; tauto.
Qed.

Lemma row_set_has_key (r : row) (k : string) (v : cell) :
  In k (map fst (row_set r k v)).
Proof.
  induction r as [|[k0 x] r IH]; simpl; [now left|].
  destruct (String.eqb_spec k0 k) as [-> | _]; simpl; [now left | now right].
Qed.

Lemma row_set_same (r : row) (k : string) :
  In k (map fst r) -> row_set r k (row_get r k) = r.
Proof.
  induction r as [|[k0 x] r IH]; simpl; [tauto|].
  destruct (String.eqb_spec k0 k) as [-> | Hne]; [reflexivity|].
  intros [H | H]; [contradiction|]. now rewrite IH.
Qed.

Lemma lookup_set_dtype_eq (cols : list (string * dtype)) (c : string) (d : dtype) :
  lookup_dtype (set_dtype cols c d) c = Some d.
Proof.
  induction cols as [|[k x] cols IH]; simpl.
  - now rewrite String.eqb_refl.
  - destruct (String.eqb_spec k c) as [-> | Hne]; simpl.
    + now rewrite String.eqb_refl.
    + destruct (String.eqb_spec k c); [contradiction | exact IH].
Qed.

Lemma lookup_set_dtype_ne (cols : list (string * dtype)) (c k : string) (d : dtype) :
  c <> k -> lookup_dtype (set_dtype cols c d) k = lookup_dtype cols k.
Proof.
  intros Hne. induction cols as [|[k0 x] cols IH]; simpl.
  - destruct (String.eqb_spec c k); [contradiction | reflexivity].
  - destruct (String.eqb_spec k0 c) as [-> | H0]; simpl.
    + destruct (String.eqb_spec c k); [contradiction | reflexivity].
    + destruct (String.eqb_spec k0 k); [reflexivity | exact IH].
Qed.

Lemma set_dtype_same (cols : list (string * dtype)) (c : string) (d : dtype) :
  lookup_dtype cols c = Some d -> set_dtype cols c d = cols.
Proof.
  induction cols as [|[k x] cols IH]; simpl; [discriminate|].
  destruct (String.eqb_spec k c) as [-> | _].
  - now intros [= ->].
  - intros H. now rewrite IH.
Qed.

Lemma rows_set_same (rs : list row) (k : string) :
  (forall r, In r rs -> In k (map fst r)) ->
  map (fun '(r, t) => row_set r k t) (combine rs (map (fun r => row_get r k) rs))
  = rs.
Proof.
  induction rs as [|r rs IH]; intros H; simpl; [reflexivity|].
  rewrite row_set_same by (apply H; now left).
  rewrite IH; [reflexivity|]. intros x Hx. apply H. now right.
Qed.

Lemma dropna_all_idem (df : DataFrame) : dropna_all (dropna_all df) = dropna_all df.
Proof.
  unfold dropna_all, column_names. cbn [columns rows]. f_equal.
  induction (rows df) as [|r rs IH]; simpl; [reflexivity|].
  destruct (existsb _ (map fst (columns df))) eqn:E; simpl; [|exact IH].
  now rewrite E, IH.
Qed.

Lemma mapM_Forall2 {A B : Type} (f : A -> result B) (l : list A) (bs : list B) :
  mapM f l = Ok bs -> Forall2 (fun a b => f a = Ok b) l bs.
Proof.
  revert bs. induction l as [|a l IH]; simpl; intros bs.
  - intros [= <-]. constructor.
  - destruct (f a) as [b|e] eqn:E; [|discriminate]. cbn [bind].
    destruct (mapM f l) as [bs'|e]; [|discriminate]. cbn [bind].
    intros [= <-]. constructor; [exact E | now apply IH].
Qed.

End Rows.

Section Cleaning.
Import Calendar Pandas Py DataProcessor.
Variable W : World.

Lemma to_datetime_cell_fixed (c c' : cell) :
  to_datetime_cell W c = Ok c' -> to_datetime_cell W c' = Ok c'.
Proof.
  unfold to_datetime_cell.
  destruct c; try (intros [= <-]; reflexivity);
    (destruct (parse_datetime W _) as [[t|]|e]; cbn [bind];
     [intros [= <-]; reflexivity | intros [= <-]; reflexivity | discriminate]).
Qed.

(** a table whose dates are converted: the column holds timestamps, every
    row has the key and converting its value again changes nothing *)
Lemma convert_date_fixed (df : DataFrame) :
  lookup_dtype (columns df) "date" = Some datetime64 ->
  (forall r, In r (rows df) ->
     In "date" (map fst r)
     /\ to_datetime_cell W (row_get r "date") = Ok (row_get r "date")) ->
  convert_date W df = Ok df.
Proof.
  intros Hd Hr. unfold convert_date.
  rewrite (mapM_ok _ (fun r => row_get r "date")) by (intros r Hin; now apply Hr).
  cbn [bind]. rewrite (set_dtype_same _ _ _ Hd).
  destruct df as [cols rs]. cbn [columns rows] in *.
  rewrite rows_set_same; [reflexivity|]. intros r Hin. now apply Hr.
Qed.

Lemma convert_date_result (df df1 : DataFrame) :
  convert_date W df = Ok df1 ->
  lookup_dtype (columns df1) "date" = Some datetime64
  /\ List.length (rows df1) = List.length (rows df)
  /\ forall r, In r (rows df1) ->
       In "date" (map fst r)
       /\ to_datetime_cell W (row_get r "date") = Ok (row_get r "date").
Proof.
  unfold convert_date.
  destruct (mapM _ (rows df)) as [ts|e] eqn:E; [|discriminate]. cbn [bind].
  intros [= <-]. cbn [columns rows]. apply mapM_Forall2 in E.
  split; [apply lookup_set_dtype_eq|].
  induction E as [|r t rs ts Ht _ IH]; simpl.
  - split; [reflexivity | tauto].
  - destruct IH as [Hl IH]. split; [now rewrite Hl|].
    intros x [<- | Hx]; [|now apply IH].
    split; [apply row_set_has_key|].
    rewrite row_get_set_eq. exact (to_datetime_cell_fixed _ _ Ht).
Qed.

(** *** The conversion of the numeric columns *)

Lemma convert_numeric_dtype (df : DataFrame) (c : string) :
  match lookup_dtype (columns (convert_numeric W df c)) c with
  | Some d => is_numeric_dtype d = true
  | None => True
  end.
Proof.
  unfold convert_numeric.
  destruct (lookup_dtype (columns df) c) as [d|] eqn:E.
  - destruct d; try (rewrite E; reflexivity);
      destruct (forallb _ _); unfold map_column; cbn [columns];
      rewrite lookup_set_dtype_eq; reflexivity.
  - now rewrite E.
Qed.

Lemma convert_numeric_other (df : DataFrame) (c k : string) :
  c <> k ->
  lookup_dtype (columns (convert_numeric W df c)) k = lookup_dtype (columns df) k.
Proof.
  intros Hne. unfold convert_numeric.
  destruct (lookup_dtype (columns df) c) as [d|]; [|reflexivity].
  destruct d; try reflexivity;
    destruct (forallb _ _); unfold map_column; cbn [columns];
    now apply lookup_set_dtype_ne.
Qed.

Lemma convert_numeric_rows (df : DataFrame) (c : string) :
  c <> "date" ->
  List.length (rows (convert_numeric W df c)) = List.length (rows df)
  /\ forall r', In r' (rows (convert_numeric W df c)) ->
       exists r, In r (rows df)
                 /\ row_get r' "date" = row_get r "date"
                 /\ (In "date" (map fst r) -> In "date" (map fst r')).
Proof.
  intros Hne. unfold convert_numeric.
  assert (Hid : List.length (rows df) = List.length (rows df)
                /\ forall r', In r' (rows df) ->
                     exists r, In r (rows df)
                               /\ row_get r' "date" = row_get r "date"
                               /\ (In "date" (map fst r) -> In "date" (map fst r'))).
  { split; [reflexivity|]. intros r' H. exists r'. tauto. }
  destruct (lookup_dtype (columns df) c) as [d|]; [|exact Hid].
  destruct d; try exact Hid;
    destruct (forallb _ _); unfold map_column; cbn [rows];
    (split; [apply length_map|]);
    intros r' Hin; apply in_map_iff in Hin as (r & <- & Hin);
    exists r; (split; [exact Hin|]);
    (split; [now apply row_get_set_ne | apply row_set_keeps_key]).
Qed.

Lemma convert_columns_dates (l : list string) (df : DataFrame) :
  ~ In "date" l ->
  let df' :=
    fold_left
      (fun df col => if has_column df col then convert_numeric W df col else df)
      l df in
  lookup_dtype (columns df') "date" = lookup_dtype (columns df) "date"
  /\ List.length (rows df') = List.length (rows df)
  /\ forall r', In r' (rows df') ->
       exists r, In r (rows df)
                 /\ row_get r' "date" = row_get r "date"
                 /\ (In "date" (map fst r) -> In "date" (map fst r')).
Proof.
  revert df. induction l as [|c l IH]; intros df Hl; cbn [fold_left]; cbv zeta.
  - split; [reflexivity|]. split; [reflexivity|]. intros r' H. exists r'. tauto.
  - assert (Hc : c <> "date") by (intros ->; apply Hl; now left).
    assert (Hl' : ~ In "date" l) by (intros H; apply Hl; now right).
    destruct (IH (if has_column df c then convert_numeric W df c else df) Hl')
      as (Hd & Hn & Hr).
    destruct (has_column df c); [|now repeat split].
    rewrite convert_numeric_other in Hd by exact Hc.
    destruct (convert_numeric_rows df c Hc) as (Hn1 & Hr1).
    split; [exact Hd|]. split; [now rewrite Hn|].
    intros r' Hin. destruct (Hr r' Hin) as (r1 & Hin1 & Hg1 & Hk1).
    destruct (Hr1 r1 Hin1) as (r & Hin0 & Hg & Hk).
    exists r. split; [exact Hin0|]. split; [now rewrite Hg1 | tauto].
Qed.

Lemma convert_columns_numeric (l : list string) (df : DataFrame) (c : string) :
  In c l
  \/ match lookup_dtype (columns df) c with
     | Some d => is_numeric_dtype d = true
     | None => True
     end ->
  match lookup_dtype
          (columns
             (fold_left
                (fun df col =>
                   if has_column df col then convert_numeric W df col else df)
                l df)) c with
  | Some d => is_numeric_dtype d = true
  | None => True
  end.
Proof.
  revert df. induction l as [|c0 l IH]; intros df H; cbn [fold_left].
  - destruct H as [[] | H]. exact H.
  - apply IH.
    destruct (in_dec string_dec c l) as [Hin | Hnin]; [now left | right].
    assert (Hstep : forall k,
               k = c0
               \/ match lookup_dtype (columns df) k with
                  | Some d => is_numeric_dtype d = true
                  | None => True
                  end ->
               match lookup_dtype
                       (columns (if has_column df c0
                                 then convert_numeric W df c0 else df)) k with
               | Some d => is_numeric_dtype d = true
               | None => True
               end).
    { intros k Hk. destruct (has_column df c0) eqn:Ec.
      - destruct (string_dec c0 k) as [<- | Hne].
        + apply convert_numeric_dtype.
        + rewrite convert_numeric_other by exact Hne.
          destruct Hk as [-> | Hk]; [contradiction | exact Hk].
      - destruct Hk as [-> | Hk]; [|exact Hk].
        destruct (lookup_dtype (columns df) c0) as [d|] eqn:E; [|exact I].
        assert (has_column df c0 = true) by (apply has_column_lookup; eauto).
        congruence. }
    apply Hstep. destruct H as [[<- | Hin] | H]; [now left | contradiction | now right].
Qed.

Lemma convert_columns_fixed (l : list string) (df : DataFrame) :
  (forall c, In c l ->
     match lookup_dtype (columns df) c with
     | Some d => is_numeric_dtype d = true
     | None => True
     end) ->
  fold_left
    (fun df col => if has_column df col then convert_numeric W df col else df)
    l df = df.
Proof.
  induction l as [|c l IH]; intros H; cbn [fold_left]; [reflexivity|].
  assert (E : (if has_column df c then convert_numeric W df c else df) = df).
  { destruct (has_column df c); [|reflexivity].
    specialize (H c (or_introl eq_refl)). unfold convert_numeric.
    destruct (lookup_dtype (columns df) c) as [[]|]; try reflexivity;
      discriminate H. }
  rewrite E. apply IH. intros x Hx. apply H. now right.
Qed.

Lemma date_not_numeric : ~ In "date" numeric_columns.
Proof. unfold numeric_columns. simpl. intuition discriminate. Qed.

(** the table after the conversions and the removal of the empty rows *)
Lemma cleaned_fixed (df2 : DataFrame) :
  (has_column df2 "date" = true ->
   lookup_dtype (columns df2) "date" = Some datetime64
   /\ forall r, In r (rows df2) ->
        In "date" (map fst r)
        /\ to_datetime_cell W (row_get r "date") = Ok (row_get r "date")) ->
  (forall c, In c numeric_columns ->
     match lookup_dtype (columns df2) c with
     | Some d => is_numeric_dtype d = true
     | None => True
     end) ->
  clean_dataframe W (dropna_all df2) = dropna_all df2.
Proof.
  intros Hdate Hnum. unfold clean_dataframe.
  assert (E : (if has_column (dropna_all df2) "date"
               then convert_date W (dropna_all df2) else Ok (dropna_all df2))
              = Ok (dropna_all df2)).
  { change (has_column (dropna_all df2) "date") with (has_column df2 "date").
    destruct (has_column df2 "date"); [|reflexivity].
    destruct (Hdate eq_refl) as [Hd Hr].
    apply convert_date_fixed; [exact Hd|].
    intros r Hin. apply Hr. unfold dropna_all in Hin. cbn [rows] in Hin.
    now apply filter_In in Hin. }
  rewrite E. cbv zeta. unfold convert_numeric_columns.
  rewrite convert_columns_fixed by exact Hnum.
  apply dropna_all_idem.
Qed.

(** X2. Cleaning is idempotent: [clean_dataframe] applied to a table it
    has cleaned gives that table back, whether the first pass succeeded
    or stopped on an error. *)
Theorem clean_dataframe_idempotent (df : DataFrame) :
  clean_dataframe W (clean_dataframe W df) = clean_dataframe W df.
Proof.
  destruct (has_column df "date") eqn:Hc.
  - destruct (convert_date W df) as [df1|e] eqn:E1.
    + assert (E : clean_dataframe W df
                  = dropna_all (convert_numeric_columns W df1))
        by (unfold clean_dataframe; now rewrite Hc, E1).
      rewrite E. apply cleaned_fixed.
      * intros _. unfold convert_numeric_columns.
        destruct (convert_columns_dates numeric_columns df1 date_not_numeric)
          as (Hd & _ & Hr).
        destruct (convert_date_result df df1 E1) as (Hd1 & _ & Hr1).
        split; [now rewrite Hd|].
        intros r' Hin. destruct (Hr r' Hin) as (r & Hin1 & Hg & Hk).
        destruct (Hr1 r Hin1) as [Hk1 Ht1].
        split; [apply Hk; exact Hk1 | rewrite Hg; exact Ht1].
      * intros c Hin. unfold convert_numeric_columns.
        apply convert_columns_numeric. now left.
    + assert (E : clean_dataframe W df = df)
        by (unfold clean_dataframe; now rewrite Hc, E1).
      now rewrite E.
  - assert (E : clean_dataframe W df
                = dropna_all (convert_numeric_columns W df))
      by (unfold clean_dataframe; now rewrite Hc).
    rewrite E. apply cleaned_fixed.
    + intros H.
      rewrite (has_column_names df) in H by apply (convert_numeric_columns_names W).
      congruence.
    + intros c Hin. unfold convert_numeric_columns.
      apply convert_columns_numeric. now left.
Qed.

Lemma dropna_all_names (df : DataFrame) :
  column_names (dropna_all df) = column_names df.
Proof. reflexivity. Qed.

Lemma dropna_all_fewer (df : DataFrame) :
  (List.length (rows (dropna_all df)) <= List.length (rows df))%nat.
Proof. unfold dropna_all. cbn [rows]. apply filter_length_le. Qed.

Lemma convert_numeric_columns_length (df : DataFrame) :
  List.length (rows (convert_numeric_columns W df)) = List.length (rows df).
Proof.
  unfold convert_numeric_columns.
  now destruct (convert_columns_dates numeric_columns df date_not_numeric)
    as (_ & Hn & _).
Qed.

(** X1. [clean_dataframe] keeps the columns of the table, in their
    order, and adds no row. *)
Theorem clean_dataframe_shape (df : DataFrame) :
  column_names (clean_dataframe W df) = column_names df
  /\ (List.length (rows (clean_dataframe W df)) <= List.length (rows df))%nat.
Proof.
  destruct (has_column df "date") eqn:Hc.
  - destruct (convert_date W df) as [df1|e] eqn:E1.
    + assert (E : clean_dataframe W df
                  = dropna_all (convert_numeric_columns W df1))
        by (unfold clean_dataframe; now rewrite Hc, E1).
      rewrite E. split.
      * rewrite dropna_all_names, convert_numeric_columns_names.
        exact (convert_date_names W df df1 Hc E1).
      * etransitivity; [apply dropna_all_fewer|].
        rewrite convert_numeric_columns_length.
        destruct (convert_date_result df df1 E1) as (_ & -> & _).
        apply Nat.le_refl.
    + assert (E : clean_dataframe W df = df)
        by (unfold clean_dataframe; now rewrite Hc, E1).
      rewrite E. split; [reflexivity | apply Nat.le_refl].
  - assert (E : clean_dataframe W df
                = dropna_all (convert_numeric_columns W df))
      by (unfold clean_dataframe; now rewrite Hc).
    rewrite E. split.
    + rewrite dropna_all_names. apply convert_numeric_columns_names.
    + etransitivity; [apply dropna_all_fewer|].
      rewrite convert_numeric_columns_length. apply Nat.le_refl.
Qed.

End Cleaning.

Section DateRange.
Import Calendar Pandas Py DataProcessor.

Lemma fold_earliest (ts : list datetime) (t : datetime) :
  In (fold_left earliest ts t) (t :: ts)
  /\ forall x, In x (t :: ts) -> ordinal (fold_left earliest ts t) <= ordinal x.
Proof.
  revert t. induction ts as [|a ts IH]; intros t; cbn [fold_left].
  - split; [now left|]. intros x [<- | []]. lia.
  - destruct (IH (earliest t a)) as [Hin Hle].
    assert (Hm : (earliest t a = t \/ earliest t a = a)
                 /\ ordinal (earliest t a) <= ordinal t
                 /\ ordinal (earliest t a) <= ordinal a).
    { unfold earliest. destruct (Z.ltb_spec (ordinal a) (ordinal t)); split;
        try lia; tauto. }
    destruct Hm as (Hor & Ht & Ha). split.
    + destruct Hin as [H | H]; [|right; now right].
      rewrite <- H. destruct Hor as [-> | ->]; [now left | right; now left].
    + intros x [<- | [<- | Hx]].
      * specialize (Hle _ (or_introl eq_refl)). lia.
      * specialize (Hle _ (or_introl eq_refl)). lia.
      * apply Hle. now right.
Qed.

Lemma fold_latest (ts : list datetime) (t : datetime) :
  In (fold_left latest ts t) (t :: ts)
  /\ forall x, In x (t :: ts) -> ordinal x <= ordinal (fold_left latest ts t).
Proof.
  revert t. induction ts as [|a ts IH]; intros t; cbn [fold_left].
  - split; [now left|]. intros x [<- | []]. lia.
  - destruct (IH (latest t a)) as [Hin Hle].
    assert (Hm : (latest t a = t \/ latest t a = a)
                 /\ ordinal t <= ordinal (latest t a)
                 /\ ordinal a <= ordinal (latest t a)).
    { unfold latest. destruct (Z.ltb_spec (ordinal t) (ordinal a)); split;
        try lia; tauto. }
    destruct Hm as (Hor & Ht & Ha). split.
    + destruct Hin as [H | H]; [|right; now right].
      rewrite <- H. destruct Hor as [-> | ->]; [now left | right; now left].
    + intros x [<- | [<- | Hx]].
      * specialize (Hle _ (or_introl eq_refl)). lia.
      * specialize (Hle _ (or_introl eq_refl)). lia.
      * apply Hle. now right.
Qed.

Lemma times_in (cs : list cell) (t : datetime) :
  In t (times cs) <-> In (CTime t) cs.
Proof.
  induction cs as [|c cs IH]; simpl; [tauto|].
  destruct c; simpl; rewrite IH; try (split; [now right | intros [H | H]; [discriminate H | exact H]]).
  split; [intros [-> | H]; [now left | now right]
         | intros [[= ->] | H]; [now left | now right]].
Qed.

Lemma unique_length (cs : list cell) :
  (List.length (unique cs) <= List.length cs)%nat
  /\ (cs <> [] -> 1 <= List.length (unique cs))%nat.
Proof.
  induction cs as [|c cs [IH _]]; simpl.
  - split; [lia | congruence].
  - split; [|lia].
    pose proof (filter_length_le (fun x => negb (cell_eqb c x)) (unique cs)). lia.
Qed.

(** X3. The date range of a table with a dated row: [start] and [end] are the
    earliest and the latest timestamp of the column, and [days] counts at
    least one and at most as many values as the table has rows. *)
Theorem date_range_bounds (df : DataFrame) (r0 : row) (t0 : datetime) :
  lookup_dtype (columns df) "date" = Some datetime64 ->
  In r0 (rows df) -> row_get r0 "date" = CTime t0 ->
  exists s e n,
    get_date_range df
    = PyDict [("start", PyStr (isoformat s)); ("end", PyStr (isoformat e));
              ("days", PyInt n)]
    /\ (exists r, In r (rows df) /\ row_get r "date" = CTime s)
    /\ (exists r, In r (rows df) /\ row_get r "date" = CTime e)
    /\ (forall r t, In r (rows df) -> row_get r "date" = CTime t ->
          ordinal s <= ordinal t <= ordinal e)
    /\ 1 <= n <= len df.
Proof.
  intros Hd Hin0 Ht0. unfold get_date_range.
  assert (Hc : has_column df "date" = true) by (apply has_column_lookup; eauto).
  rewrite Hc. unfold get_column. rewrite Hd. cbn [bind].
  set (cs := map (fun r => row_get r "date") (rows df)).
  assert (Hcs : In (CTime t0) cs).
  { unfold cs. apply in_map_iff. exists r0. split; assumption. }
  assert (Hna : forallb isna cs = false).
  { destruct (forallb isna cs) eqn:E; [|reflexivity].
    rewrite forallb_forall in E. specialize (E _ Hcs). discriminate E. }
  rewrite Hna. cbn [negb].
  destruct (times cs) as [|t ts] eqn:Et.
  { apply times_in in Hcs. rewrite Et in Hcs. destruct Hcs. }
  cbn [try_except].
  destruct (fold_earliest ts t) as [Hsin Hsle].
  destruct (fold_latest ts t) as [Hein Hele].
  rewrite <- Et in Hsin, Hein, Hsle, Hele.
  assert (Hrow : forall x, In x (times cs) ->
                   exists r, In r (rows df) /\ row_get r "date" = CTime x).
  { intros x Hx. apply times_in in Hx. unfold cs in Hx.
    apply in_map_iff in Hx as (r & Hr & Hin). eauto. }
  do 3 eexists. split; [reflexivity|].
  split; [now apply Hrow|]. split; [now apply Hrow|]. split.
  - intros r x Hin Hx.
    assert (Hx' : In x (times cs)).
    { apply times_in. unfold cs. apply in_map_iff. exists r. split; assumption. }
    split; [now apply Hsle | now apply Hele].
  - destruct (unique_length (map dt_date cs)) as [Hle Hge].
    rewrite length_map in Hle. unfold len.
    assert (Hne : map dt_date cs <> []).
    { destruct cs; [destruct Hcs | discriminate]. }
    specialize (Hge Hne). unfold cs in Hle at 2. rewrite length_map in Hle. lia.
Qed.

End DateRange.

Section DateRangeWitness.
Import Calendar Pandas Py DataProcessor.

Lemma date_range_bounds_witness :
  exists s e n,
    get_date_range Examples.two_months
    = PyDict [("start", PyStr (isoformat s)); ("end", PyStr (isoformat e));
              ("days", PyInt n)]
    /\ (exists r, In r (rows Examples.two_months) /\ row_get r "date" = CTime s)
    /\ (exists r, In r (rows Examples.two_months) /\ row_get r "date" = CTime e)
    /\ (forall r t, In r (rows Examples.two_months) ->
          row_get r "date" = CTime t -> ordinal s <= ordinal t <= ordinal e)
    /\ 1 <= n <= len Examples.two_months.
Proof.
  apply (date_range_bounds Examples.two_months
           (hd [] (rows Examples.two_months)) (mkDatetime 2024 1 15 0 0 0)).
  - reflexivity.
  - simpl. now left.
  - reflexivity.
Defined.

End DateRangeWitness.

Section NamedMonth.
Import Calendar Pandas Py DataProcessor.

Lemma first_month_least (table : list (string * Z)) (q : string) :
  StronglySorted (fun a b => snd a <= snd b) table ->
  match first_month table q with
  | Some m =>
      (exists key, In (key, m) table /\ Str.search_word key q = true)
      /\ forall key v, In (key, v) table -> Str.search_word key q = true -> m <= v
  | None => forall key v, In (key, v) table -> Str.search_word key q = false
  end.
Proof.
  induction 1 as [|[k v] table Hs IH Hall]; cbn [first_month].
  - intros key v [].
  - destruct (Str.search_word k q) eqn:E.
    + split; [exists k; split; [now left | exact E]|].
      intros key x [[= <- <-] | Hin] _; [lia|].
      rewrite Forall_forall in Hall. exact (Hall _ Hin).
    + destruct (first_month table q) as [m|].
      * destruct IH as [(key & Hin & Hk) Hle]. split; [exists key; split; [now right | exact Hk]|].
        intros key' x [[= <- <-] | Hin'] Hs'; [congruence | now apply (Hle key')].
      * intros key x [[= <- <-] | Hin]; [exact E | now apply (IH key x)].
Qed.

Lemma months_sorted : StronglySorted (fun a b => snd a <= snd b) months.
Proof.
  unfold months.
  repeat (apply SSorted_cons; [|repeat constructor; simpl; lia]).
  apply SSorted_nil.
Qed.

(** X4. When a query of the ASCII range has none of the relative phrases,
    the month it resolves to is the least month of the calendar named in
    it as a whole word, and January when it names none. *)
Theorem named_month_is_least (W : World) (query : string) :
  Str.isascii query = true ->
  Str.contains "this month" (Str.lower query) = false ->
  Str.contains "last month" (Str.lower query) = false ->
  Str.contains "this year" (Str.lower query) = false ->
  Str.contains "last year" (Str.lower query) = false ->
  let m := fst (_extract_date_from_query W query) in
  (forall key v, In (key, v) months ->
     Str.search_word key (Str.lower query) = true -> m <= v)
  /\ ((exists key, In (key, m) months
                   /\ Str.search_word key (Str.lower query) = true)
      \/ (m = 1 /\ forall key v, In (key, v) months ->
                     Str.search_word key (Str.lower query) = false)).
Proof.
  intros _ H1 H2 H3 H4. unfold _extract_date_from_query.
  rewrite H1, H2, H3, H4. cbn [try_except fst].
  pose proof (first_month_least months (Str.lower query) months_sorted) as H.
  destruct (first_month months (Str.lower query)) as [m|] eqn:E.
  - apply first_month_range in E; [|apply months_range].
    destruct (Z.eqb_spec m 0); [lia|]. destruct H as [Hex Hle].
    split; [exact Hle | now left].
  - split.
    + intros key v Hin Hs. rewrite (H key v Hin) in Hs. discriminate Hs.
    + right. split; [reflexivity | exact H].
Qed.

End NamedMonth.

Section NamedMonthWitness.
Import Calendar Pandas Py DataProcessor.

Lemma named_month_is_least_witness :
  (forall key v, In (key, v) months ->
     Str.search_word key (Str.lower "Compare March and January 2023") = true ->
     fst (_extract_date_from_query (Examples.offline [])
            "Compare March and January 2023") <= v)
  /\ ((exists key,
         In (key, fst (_extract_date_from_query (Examples.offline [])
                         "Compare March and January 2023")) months
         /\ Str.search_word key (Str.lower "Compare March and January 2023")
            = true)
      \/ (fst (_extract_date_from_query (Examples.offline [])
                 "Compare March and January 2023") = 1
          /\ forall key v, In (key, v) months ->
               Str.search_word key (Str.lower "Compare March and January 2023")
               = false)).
Proof.
  apply (named_month_is_least (Examples.offline [])
           "Compare March and January 2023"); reflexivity.
Defined.

End NamedMonthWitness.

Section DigitRuns.

Lemma digits_prefix_fixed (s : string) :
  Text.digits_prefix (Text.digits_prefix s) = Text.digits_prefix s.
Proof.
  induction s as [|c s IH]; simpl; [reflexivity|].
  destruct (Str.is_digit c) eqn:E; simpl; [|reflexivity].
  now rewrite E, IH.
Qed.

Lemma digits_prefix_length (s : string) :
  (String.length (Text.digits_prefix s) <= String.length s)%nat.
Proof.
  induction s as [|c s IH]; simpl; [lia|].
  destruct (Str.is_digit c); simpl; lia.
Qed.

Lemma first_digits_run (s run : string) :
  Text.first_digits s = Some run ->
  run <> EmptyString /\ Text.digits_prefix run = run
  /\ (String.length run <= String.length s)%nat.
Proof.
  induction s as [|c s IH]; cbn [Text.first_digits]; [discriminate|].
  destruct (Str.is_digit c) eqn:E.
  - intros [= <-]. simpl. rewrite E. split; [discriminate|].
    simpl. rewrite E, digits_prefix_fixed. split; [reflexivity|].
    pose proof (digits_prefix_length s). simpl. lia.
  - intros H. destruct (IH H) as (Hne & Hd & Hl).
    split; [exact Hne|]. split; [exact Hd | simpl; lia].
Qed.

Lemma uint_of_digits (s : string) :
  Text.digits_prefix s = s -> exists d, NilEmpty.uint_of_string s = Some d.
Proof.
  induction s as [|c s IH]; simpl; [now exists Decimal.Nil|].
  destruct (Str.is_digit c) eqn:E; [|discriminate].
  intros [= H]. destruct (IH H) as [d ->].
  apply is_digit_cases in E. simpl in E.
  repeat (destruct E as [<- | E]; [simpl; eauto|]). destruct E.
Qed.

Lemma int_of_str_digits (run : string) :
  run <> EmptyString -> Text.digits_prefix run = run ->
  exists z, int_of_str run = Ok z.
Proof.
  intros Hne Hd. unfold int_of_str, NilZero.int_of_string.
  destruct run as [|c s]; [congruence|].
  assert (Hc : Str.is_digit c = true).
  { simpl in Hd. destruct (Str.is_digit c); [reflexivity | discriminate]. }
  assert (Hm : Ascii.eqb c "-" = false).
  { apply is_digit_cases in Hc. simpl in Hc.
    repeat (destruct Hc as [<- | Hc]; [reflexivity|]). destruct Hc. }
  rewrite Hm. unfold NilZero.uint_of_string.
  destruct (uint_of_digits _ Hd) as [d ->]. simpl. eauto.
Qed.

End DigitRuns.

Section Machines.
Import Loader.

Lemma machine_key_total (x : string) :
  (String.length x <= 4300)%nat -> exists k, machine_key x = Ok k.
Proof.
  intros Hl. unfold machine_key.
  destruct (Text.first_digits x) as [run|] eqn:E; [|now exists 0].
  destruct (first_digits_run _ _ E) as (Hne & Hd & Hlen).
  unfold int_of_digits, max_str_digits.
  replace (4300 <? String.length run)%nat with false
    by (symmetry; apply Nat.ltb_ge; lia).
  now apply int_of_str_digits.
Qed.

Lemma insert_by_key_perm (a : Z * string) (l : list (Z * string)) :
  Permutation (insert_by_key a l) (a :: l).
Proof.
  induction l as [|b l IH]; simpl; [reflexivity|].
  destruct (fst a <=? fst b); [reflexivity|].
  rewrite IH. apply perm_swap.
Qed.

Lemma sort_by_key_perm (l : list (Z * string)) :
  Permutation (sort_by_key l) l.
Proof.
  induction l as [|a l IH]; simpl; [reflexivity|].
  rewrite insert_by_key_perm. now constructor.
Qed.

Lemma insert_by_key_sorted (a : Z * string) (l : list (Z * string)) :
  StronglySorted (fun x y => fst x <= fst y) l ->
  StronglySorted (fun x y => fst x <= fst y) (insert_by_key a l).
Proof.
  induction 1 as [|b l Hs IH Hall]; simpl.
  - constructor; constructor.
  - destruct (Z.leb_spec (fst a) (fst b)).
    + constructor; [now constructor|].
      constructor; [assumption|].
      rewrite Forall_forall in Hall |- *. intros y Hy.
      specialize (Hall y Hy). simpl in *. lia.
    + constructor; [exact IH|].
      rewrite Forall_forall in Hall |- *. intros y Hy.
      apply (Permutation_in _ (insert_by_key_perm a l)) in Hy.
      destruct Hy as [<- | Hy]; [lia | now apply Hall].
Qed.

Lemma sort_by_key_sorted (l : list (Z * string)) :
  StronglySorted (fun x y => fst x <= fst y) (sort_by_key l).
Proof.
  induction l as [|a l IH]; simpl; [constructor|].
  now apply insert_by_key_sorted.
Qed.

Lemma keyed_sorted (l : list (Z * string)) :
  Forall (fun p => machine_key (snd p) = Ok (fst p)) l ->
  StronglySorted (fun x y => fst x <= fst y) l ->
  StronglySorted
    (fun a b => exists ka kb,
                  machine_key a = Ok ka /\ machine_key b = Ok kb /\ ka <= kb)
    (map snd l).
Proof.
  intros Hk Hs. induction Hs as [|p l Hs IH Hall]; simpl; [constructor|].
  inversion Hk as [|? ? Hp Hl]; subst.
  constructor; [now apply IH|].
  rewrite Forall_forall in *. intros b Hb.
  apply in_map_iff in Hb as (q & <- & Hq).
  exists (fst p), (fst q). split; [exact Hp|]. split; [now apply Hl|].
  now apply Hall.
Qed.

(** X5. The machine folders are listed in the order of their numbers: when
    the names in the data folder are of the ASCII range, the result holds
    the directories whose name starts with [M], each once, sorted by the
    first number in the name. *)
Theorem machines_sorted_by_number (F : Files) (data_folder : string)
    (items : list string) :
  path_exists F data_folder = true ->
  listdir F data_folder = Ok items ->
  Forall (fun item => Str.isascii item = true) items ->
  Forall (fun item => (String.length item <= 4300)%nat) items ->
  Permutation (get_available_machines F data_folder)
    (filter (fun item => isdir F (join data_folder item)
                         && Str.startswith "M" item) items)
  /\ StronglySorted
       (fun a b => exists ka kb,
                     machine_key a = Ok ka /\ machine_key b = Ok kb /\ ka <= kb)
       (get_available_machines F data_folder).
Proof.
  intros He Hl _ Hlen. unfold get_available_machines. rewrite He, Hl.
  cbn [bind].
  set (machines := filter _ items).
  set (key := fun x => match machine_key x with Ok k => k | Raise _ => 0 end).
  assert (Hkey : forall x, In x machines -> machine_key x = Ok (key x)).
  { intros x Hx. unfold machines in Hx. apply filter_In in Hx as [Hx _].
    rewrite Forall_forall in Hlen.
    destruct (machine_key_total x (Hlen x Hx)) as [k Hk].
    unfold key. now rewrite Hk. }
  rewrite (mapM_ok machine_key key machines Hkey). cbn [bind try_except].
  assert (Hcomb : combine (map key machines) machines
                  = map (fun x => (key x, x)) machines).
  { clear. induction machines as [|x l IH]; simpl; [reflexivity | now rewrite IH]. }
  rewrite Hcomb.
  set (l := map (fun x => (key x, x)) machines).
  assert (Hsnd : map snd l = machines).
  { unfold l. rewrite map_map. simpl. apply map_id. }
  split.
  - etransitivity; [apply Permutation_map, sort_by_key_perm|].
    now rewrite Hsnd.
  - apply keyed_sorted; [|apply sort_by_key_sorted].
    rewrite Forall_forall. intros p Hp.
    apply (Permutation_in _ (sort_by_key_perm l)) in Hp.
    unfold l in Hp. apply in_map_iff in Hp as (x & <- & Hx).
    now apply Hkey.
Qed.

End Machines.

Section Operators.
Import Calendar Pandas Py DataProcessor Loader.

Lemma lower_char_fixed (c : ascii) :
  Str.lower_char (Str.lower_char c) = Str.lower_char c.
Proof. destruct c as [[] [] [] [] [] [] [] []]; reflexivity. Qed.

Lemma lower_fixed (s : string) : Str.lower (Str.lower s) = Str.lower s.
Proof.
  induction s as [|c s IH]; simpl; [reflexivity|].
  now rewrite lower_char_fixed, IH.
Qed.

Lemma filter_twice {A : Type} (f : A -> bool) (l : list A) :
  filter f (filter f l) = filter f l.
Proof.
  induction l as [|a l IH]; simpl; [reflexivity|].
  destruct (f a) eqn:E; simpl; [now rewrite E, IH | exact IH].
Qed.

Lemma strings_accepted (name : string) (rs : list row) :
  str_refused object
    (map (fun r => row_get r "Operator Name") (filter (operator_is name) rs))
  = false.
Proof.
  unfold str_refused.
  induction rs as [|r rs IH]; simpl; [reflexivity|].
  unfold operator_is at 1.
  destruct (row_get r "Operator Name") eqn:E; try exact IH.
  destruct (String.eqb (Str.lower s) name); [|exact IH].
  simpl. rewrite E. reflexivity.
Qed.

(** X6. On names of the ASCII range, filtering by operator keeps exactly
    the rows whose operator is the name up to letter case; the letter case
    of the name does not matter, and filtering the result again changes
    nothing. *)
Theorem filter_by_operator_rows (df df' : DataFrame) (name : string) :
  has_column df "Operator Name" = true ->
  Str.isascii name = true ->
  (forall r s, In r (rows df) -> row_get r "Operator Name" = CStr s ->
               Str.isascii s = true) ->
  filter_by_operator df name = Ok df' ->
  columns df' = columns df
  /\ (forall r, In r (rows df') <->
                In r (rows df)
                /\ exists s, row_get r "Operator Name" = CStr s
                             /\ Str.lower s = Str.lower name)
  /\ filter_by_operator df (Str.lower name) = Ok df'
  /\ forall name', Str.isascii name' = true ->
                   Str.lower name' = Str.lower name ->
                   filter_by_operator df' name' = Ok df'.
Proof.
  intros Hc _ _ H. unfold filter_by_operator in H. rewrite Hc in H.
  unfold get_column in H.
  destruct (lookup_dtype (columns df) "Operator Name") as [d|] eqn:Ed;
    [|discriminate]. cbn [bind] in H.
  destruct (str_refused d _) eqn:Er; [discriminate|].
  injection H as <-. cbn [columns rows].
  assert (Hd : d = object) by (destruct d; try discriminate Er; reflexivity).
  subst d.
  split; [reflexivity|]. split; [|split].
  - intros r. rewrite filter_In. unfold operator_is.
    split; intros [Hin Hr]; (split; [exact Hin|]).
    + destruct (row_get r "Operator Name"); try discriminate Hr.
      exists s. split; [reflexivity | now apply String.eqb_eq].
    + destruct Hr as (s & -> & Hs). now apply String.eqb_eq.
  - unfold filter_by_operator. rewrite Hc. unfold get_column. rewrite Ed.
    cbn [bind]. rewrite Er, lower_fixed. reflexivity.
  - intros name' _ Hn. unfold filter_by_operator.
    change (has_column {| columns := columns df; rows := _ |} "Operator Name")
      with (has_column df "Operator Name").
    rewrite Hc. unfold get_column. cbn [columns rows]. rewrite Ed.
    cbn [bind]. rewrite strings_accepted, Hn, filter_twice. reflexivity.
Qed.

End Operators.

Section OperatorsWitness.
Import Calendar Pandas Py DataProcessor Loader.

Lemma filter_by_operator_rows_witness :
  columns (mkDataFrame [("Operator Name", object)]
             [[("Operator Name", CStr "Asha")]])
  = columns (mkDataFrame [("Operator Name", object)]
               [[("Operator Name", CStr "Asha")];
                [("Operator Name", CStr "Ravi")]])
  /\ (forall r,
        In r (rows (mkDataFrame [("Operator Name", object)]
                      [[("Operator Name", CStr "Asha")]])) <->
        In r (rows (mkDataFrame [("Operator Name", object)]
                      [[("Operator Name", CStr "Asha")];
                       [("Operator Name", CStr "Ravi")]]))
        /\ exists s, row_get r "Operator Name" = CStr s
                     /\ Str.lower s = Str.lower "ASHA")
  /\ filter_by_operator
       (mkDataFrame [("Operator Name", object)]
          [[("Operator Name", CStr "Asha")]; [("Operator Name", CStr "Ravi")]])
       (Str.lower "ASHA")
     = Ok (mkDataFrame [("Operator Name", object)]
             [[("Operator Name", CStr "Asha")]])
  /\ forall name', Str.isascii name' = true ->
       Str.lower name' = Str.lower "ASHA" ->
       filter_by_operator
         (mkDataFrame [("Operator Name", object)]
            [[("Operator Name", CStr "Asha")]]) name'
       = Ok (mkDataFrame [("Operator Name", object)]
               [[("Operator Name", CStr "Asha")]]).
Proof.
  apply (filter_by_operator_rows
           (mkDataFrame [("Operator Name", object)]
              [[("Operator Name", CStr "Asha")];
               [("Operator Name", CStr "Ravi")]])
           (mkDataFrame [("Operator Name", object)]
              [[("Operator Name", CStr "Asha")]])
           "ASHA"); try reflexivity.
  intros r s [<- | [<- | []]] [= <-]; reflexivity.
Defined.

End OperatorsWitness.

Section QueryFilter.
Import Calendar Pandas Py DataProcessor Loader.

Lemma where_date_result (field : datetime -> Z) (v : Z) (df df' : DataFrame) :
  where_date field v df = Ok df' ->
  lookup_dtype (columns df) "Date" = Some datetime64
  /\ columns df' = columns df
  /\ forall r, In r (rows df') <->
               In r (rows df)
               /\ exists t, row_get r "Date" = CTime t /\ field t = v.
Proof.
  unfold where_date, get_column.
  destruct (lookup_dtype (columns df) "Date") as [d|]; [|discriminate].
  cbn [bind]. destruct d; try discriminate. intros [= <-]. cbn [columns rows].
  split; [reflexivity|]. split; [reflexivity|].
  intros r. rewrite filter_In.
  split; intros [Hin Hr]; (split; [exact Hin|]).
  - destruct (row_get r "Date"); try discriminate Hr.
    exists t. split; [reflexivity | now apply Z.eqb_eq].
  - destruct Hr as (t & -> & Ht). now apply Z.eqb_eq.
Qed.

Lemma where_date_ok (field : datetime -> Z) (v : Z) (df : DataFrame) :
  lookup_dtype (columns df) "Date" = Some datetime64 ->
  exists df', where_date field v df = Ok df'.
Proof.
  intros Hd. unfold where_date, get_column. rewrite Hd. cbn [bind]. eauto.
Qed.

(** the first stage of the filter: the month *)
Lemma month_stage (df f : DataFrame) (query : string) :
  (if Str.contains "may" (Str.lower query) && has_column df "Date"
   then where_date month 5 df
   else if Str.contains "june" (Str.lower query) && has_column df "Date"
   then where_date month 6 df
   else Ok df) = Ok f ->
  columns f = columns df /\ forall r, In r (rows f) -> In r (rows df).
Proof.
  destruct (_ && _).
  - intros E. apply where_date_result in E as (_ & Hcol & Hr).
    split; [exact Hcol | intros r Hin; now apply Hr].
  - destruct (_ && _).
    + intros E. apply where_date_result in E as (_ & Hcol & Hr).
      split; [exact Hcol | intros r Hin; now apply Hr].
    + intros [= <-]. split; [reflexivity | tauto].
Qed.

(** X7. For a query of the ASCII range the query filter never invents
    anything: the result has the columns of the table and rows of the
    table only; a table without a [Date] column comes back as it is; and
    when the query names a year, every row that is left is of that
    year. *)
Theorem filter_data_by_query_rows (df : DataFrame) (query : string) :
  Str.isascii query = true ->
  columns (filter_data_by_query df query) = columns df
  /\ (forall r, In r (rows (filter_data_by_query df query)) -> In r (rows df))
  /\ (has_column df "Date" = false -> filter_data_by_query df query = df)
  /\ (forall numeral y,
        Str.search_year query = Some numeral -> int_of_str numeral = Ok y ->
        lookup_dtype (columns df) "Date" = Some datetime64 ->
        forall r, In r (rows (filter_data_by_query df query)) ->
                  exists t, row_get r "Date" = CTime t /\ year t = y).
Proof.
  intros _. unfold filter_data_by_query. cbv zeta.
  set (first :=
         if Str.contains "may" (Str.lower query) && has_column df "Date"
         then where_date month 5 df
         else if Str.contains "june" (Str.lower query) && has_column df "Date"
         then where_date month 6 df
         else Ok df).
  assert (Hstage : forall f, first = Ok f ->
             columns f = columns df
             /\ forall r, In r (rows f) -> In r (rows df))
    by (intros f; apply month_stage).
  assert (Hsub : forall g,
             bind first
               (fun filtered_df =>
                  match Str.search_year query with
                  | Some year_match =>
                      if has_column df "Date"
                      then bind (int_of_str year_match)
                             (fun year => where_date Calendar.year year filtered_df)
                      else Ok filtered_df
                  | None => Ok filtered_df
                  end) = Ok g ->
             columns g = columns df
             /\ forall r, In r (rows g) -> In r (rows df)).
  { intros g. destruct first as [f|e]; [|discriminate]. cbn [bind].
    destruct (Hstage f eq_refl) as [Hcol Hr].
    destruct (Str.search_year query) as [ym|].
    - destruct (has_column df "Date").
      + destruct (int_of_str ym) as [y|]; [|discriminate]. cbn [bind].
        intros E. apply where_date_result in E as (_ & Hcol' & Hr').
        split; [congruence|]. intros r Hin. apply Hr. now apply Hr'.
      + intros [= <-]. now split.
    - intros [= <-]. now split. }
  split; [|split; [|split]].
  - destruct (bind first _) as [g|e]; cbn [try_except];
      [now apply Hsub | reflexivity].
  - destruct (bind first _) as [g|e]; cbn [try_except];
      [now apply Hsub | tauto].
  - intros Hc. unfold first. rewrite Hc, !andb_false_r. cbn [bind].
    destruct (Str.search_year query); reflexivity.
  - intros numeral y Hs Hi Hd.
    assert (Hc : has_column df "Date" = true) by (apply has_column_lookup; eauto).
    assert (Hf : exists f, first = Ok f).
    { unfold first. rewrite Hc, !andb_true_r.
      destruct (Str.contains "may" _); [now apply where_date_ok|].
      destruct (Str.contains "june" _); [now apply where_date_ok | eauto]. }
    destruct Hf as [f Hf]. rewrite Hf. cbn [bind]. rewrite Hs, Hc, Hi.
    cbn [bind]. destruct (Hstage f Hf) as [Hcol _].
    destruct (where_date_ok Calendar.year y f) as [g Hg]; [congruence|].
    rewrite Hg. cbn [try_except].
    apply where_date_result in Hg as (_ & _ & Hr).
    intros r Hin. now apply Hr.
Qed.

End QueryFilter.

Section QueryFilterWitness.
Import Calendar Pandas Py DataProcessor Loader.

Lemma filter_data_by_query_rows_witness :
  Str.isascii "parts made in May 2024" = true
  /\ rows (filter_data_by_query Cases.production_log "parts made in May 2024")
     = [[("Date", CTime (mkDatetime 2024 5 3 0 0 0)); ("Part Produced", CInt 40)]]
  /\ forall r,
       In r (rows (filter_data_by_query Cases.production_log
                     "parts made in May 2024")) ->
       exists t, row_get r "Date" = CTime t /\ year t = 2024.
Proof.
  split; [reflexivity|]. split; [reflexivity|].
  destruct (filter_data_by_query_rows Cases.production_log
              "parts made in May 2024" eq_refl) as (_ & _ & _ & H).
  exact (H "2024" 2024 eq_refl eq_refl eq_refl).
Defined.

End QueryFilterWitness.

Section MachinesWitness.
Import Calendar Pandas Py DataProcessor Loader.

Lemma machines_sorted_by_number_witness :
  Permutation (get_available_machines Cases.plant "data")
    (filter (fun item => isdir Cases.plant (join "data" item)
                         && Str.startswith "M" item)
            ["M10"; "M2"; "notes.txt"; "M1"])
  /\ StronglySorted
       (fun a b => exists ka kb,
                     machine_key a = Ok ka /\ machine_key b = Ok kb /\ ka <= kb)
       (get_available_machines Cases.plant "data").
Proof.
  apply (machines_sorted_by_number Cases.plant "data"
           ["M10"; "M2"; "notes.txt"; "M1"]).
  - reflexivity.
  - reflexivity.
  - apply Forall_forall.
    intros item [<- | [<- | [<- | [<- | []]]]]; reflexivity.
  - apply Forall_forall.
    intros item [<- | [<- | [<- | [<- | []]]]]; apply Nat.leb_le; reflexivity.
Defined.

End MachinesWitness.

Section Tiers.
Import Py Reports.

(** the two sides of the comparison of a number of value [q] with a
    small integer *)
Lemma sides_value (n : number) (q : Q) (k : Z) :
  match exact n with
  | fin x => Some x
  | negzero => Some 0%Q
  | _ => None
  end = Some q ->
  Z.abs k <= 2 ^ 53 ->
  exists f, sides n (NInt false k) = (f, fin (inject_Z k))
            /\ is_nan f = false /\ rank f = 0 /\ finite_value f = q.
Proof.
  intros Hq Hk. destruct n as [np z | np f]; cbn [exact] in Hq.
  - injection Hq as <-. eexists. split; [reflexivity|]. repeat split.
  - exists f. split.
    + cbn [sides is_np orb]. destruct np; cbn [to_float exact orb];
        [now rewrite (rnd_int k Hk) | reflexivity].
    + destruct f; try discriminate Hq; injection Hq as <-; repeat split.
Qed.

Lemma ge_value (v : pyval) (q : Q) (k : Z) :
  Spec.number_value v = Some q -> Z.abs k <= 2 ^ 53 ->
  Num.ge v (PyInt k) = Ok (Qle_bool (inject_Z k) q).
Proof.
  unfold Spec.number_value, Num.ge, compare.
  destruct (as_number v) as [n|]; [|discriminate]. intros Hq Hk.
  cbn [as_number].
  destruct (sides_value n q k Hq Hk) as (f & -> & Hnan & Hrank & <-).
  cbn [fst snd]. unfold fle. rewrite Hnan, Hrank. reflexivity.
Qed.

Lemma lt_value (v : pyval) (q : Q) (k : Z) :
  Spec.number_value v = Some q -> Z.abs k <= 2 ^ 53 ->
  Num.lt v (PyInt k) = Ok (negb (Qle_bool (inject_Z k) q)).
Proof.
  unfold Spec.number_value, Num.lt, compare.
  destruct (as_number v) as [n|]; [|discriminate]. intros Hq Hk.
  cbn [as_number].
  destruct (sides_value n q k Hq Hk) as (f & -> & Hnan & Hrank & <-).
  cbn [fst snd]. unfold flt. rewrite Hnan, Hrank. reflexivity.
Qed.

Lemma Qle_bool_false (a b : Q) : Qle_bool a b = false -> (b < a)%Q.
Proof.
  intros H. apply Qnot_le_lt. intros Hle.
  apply Qle_bool_iff in Hle. congruence.
Qed.

Ltac tier H :=
  repeat (first [rewrite (ge_value _ _ _ H) by (cbn; lia)
                | rewrite (lt_value _ _ _ H) by (cbn; lia)];
          cbn [bind negb];
          match goal with
          | |- context [Qle_bool ?a ?b] =>
              let E := fresh "E" in
              destruct (Qle_bool a b) eqn:E;
              [apply Qle_bool_iff in E | apply Qle_bool_false in E];
              cbn [negb]
          end).

Ltac decide_tier :=
  match goal with
  | |- ?b = true <-> _ =>
      let v := eval vm_compute in b in
      change b with v;
      split; [intros ?; try discriminate; unfold inject_Z in *; lra
             | intros ?; try reflexivity; exfalso; unfold inject_Z in *; lra]
  end.

(** X8. The assessment of a quality rate and the advice that goes with it
    name the same tier: the advice is to maintain the standards exactly
    when the assessment is exceptional or excellent (95 and more), and to
    implement enhanced control exactly when it is average or below
    standard (less than 90). *)
Theorem quality_tiers_agree (quality_rate rejected : pyval) (q : Q) :
  Spec.number_value quality_rate = Some q ->
  exists assessment advice,
    _get_quality_assessment quality_rate = Ok assessment
    /\ _get_quality_recommendations quality_rate rejected = Ok advice
    /\ (Str.startswith (bullet ++ " Maintain") advice = true <-> (95 <= q)%Q)
    /\ (Str.startswith "Exceptional" assessment
        || Str.startswith "Excellent" assessment = true <-> (95 <= q)%Q)
    /\ (Str.startswith (bullet ++ " Implement") advice = true <-> (q < 90)%Q)
    /\ (Str.startswith "Average" assessment
        || Str.startswith "Below" assessment = true <-> (q < 90)%Q).
Proof.
  intros H. unfold _get_quality_assessment, _get_quality_recommendations.
  tier H; do 2 eexists; (split; [reflexivity|]); (split; [reflexivity|]);
    (split; [decide_tier|]); (split; [decide_tier|]); split; decide_tier.
Qed.

(** X9. The analysis of an OEE value and the advice that goes with it name
    the same tier: the advice is to fine-tune exactly when the analysis
    is world-class or good (75 and more), and to reduce downtime exactly
    when it is below average (less than 65). *)
Theorem oee_tiers_agree (oee : pyval) (q : Q) :
  Spec.number_value oee = Some q ->
  exists analysis advice,
    _get_oee_analysis oee = Ok analysis
    /\ _get_oee_recommendations oee = Ok advice
    /\ (Str.startswith (bullet ++ " Fine-tune") advice = true <-> (75 <= q)%Q)
    /\ (Str.startswith "World-class" analysis
        || Str.startswith "Good" analysis = true <-> (75 <= q)%Q)
    /\ (Str.startswith (bullet ++ " Focus") advice = true <-> (q < 65)%Q)
    /\ (Str.startswith "Below" analysis = true <-> (q < 65)%Q).
Proof.
  intros H. unfold _get_oee_analysis, _get_oee_recommendations.
  tier H; do 2 eexists; (split; [reflexivity|]); (split; [reflexivity|]);
    (split; [decide_tier|]); (split; [decide_tier|]); split; decide_tier.
Qed.

End Tiers.

Section TiersWitness.
Import Py Reports.

Lemma quality_tiers_agree_witness :
  exists assessment advice,
    _get_quality_assessment (PyFloat (fin (193 # 2))) = Ok assessment
    /\ _get_quality_recommendations (PyFloat (fin (193 # 2))) (PyInt 7)
       = Ok advice
    /\ (Str.startswith (bullet ++ " Maintain") advice = true
        <-> (95 <= 193 # 2)%Q)
    /\ (Str.startswith "Exceptional" assessment
        || Str.startswith "Excellent" assessment = true <-> (95 <= 193 # 2)%Q)
    /\ (Str.startswith (bullet ++ " Implement") advice = true
        <-> (193 # 2 < 90)%Q)
    /\ (Str.startswith "Average" assessment
        || Str.startswith "Below" assessment = true <-> (193 # 2 < 90)%Q).
Proof.
  apply (quality_tiers_agree (PyFloat (fin (193 # 2))) (PyInt 7) (193 # 2)).
  reflexivity.
Defined.

Lemma oee_tiers_agree_witness :
  exists analysis advice,
    _get_oee_analysis (NpFloat64 (fin 70)) = Ok analysis
    /\ _get_oee_recommendations (NpFloat64 (fin 70)) = Ok advice
    /\ (Str.startswith (bullet ++ " Fine-tune") advice = true <-> (75 <= 70)%Q)
    /\ (Str.startswith "World-class" analysis
        || Str.startswith "Good" analysis = true <-> (75 <= 70)%Q)
    /\ (Str.startswith (bullet ++ " Focus") advice = true <-> (70 < 65)%Q)
    /\ (Str.startswith "Below" analysis = true <-> (70 < 65)%Q).
Proof.
  apply (oee_tiers_agree (NpFloat64 (fin 70)) 70). reflexivity.
Defined.

(** an average that is not a number falls into no tier: the analysis takes
    it for the lowest, the advice for the highest *)
Example nan_oee_tiers :
  _get_oee_analysis (NpFloat64 nan)
  = Ok "Below average OEE performance - significant improvement opportunities"
  /\ exists advice,
       _get_oee_recommendations (NpFloat64 nan) = Ok advice
       /\ Str.startswith (bullet ++ " Fine-tune") advice = true.
Proof. split; [reflexivity|]. eexists. split; reflexivity. Qed.

End TiersWitness.

Section Breakdown.
Import Calendar Pandas Py DataProcessor.
Variable W : World.

Lemma bind_ok {A B : Type} (m : result A) (k : A -> result B) (b : B) :
  bind m k = Ok b -> exists a, m = Ok a /\ k a = Ok b.
Proof. destruct m as [a|e]; [intros H; now exists a | discriminate]. Qed.

Lemma dict_get_absent (d : dict) (k : string) :
  forallb (fun kv => negb (String.eqb (fst kv) k)) d = true ->
  dict_get d k = None.
Proof.
  induction d as [|[k' v] d IH]; simpl; [reflexivity|].
  intros H. apply andb_prop in H as [H1 H2].
  destruct (String.eqb k' k); [discriminate | auto].
Qed.

Lemma dict_of_absent (l : list (string * pyval)) (k : string) :
  ~ In k (map fst l) -> dict_get (dict_of l) k = None.
Proof.
  intros H. apply dict_get_absent. apply forallb_dict_of. intros [k' v] Hin.
  simpl. destruct (String.eqb_spec k' k) as [-> | _]; [|reflexivity].
  exfalso. apply H. apply in_map_iff. exists (k, v). now split.
Qed.

Lemma aggregate_keys (df : DataFrame) (spec : list (string * how))
    (vs : list (string * pyval)) :
  aggregate W df spec = Ok vs -> map fst vs = map fst spec.
Proof.
  unfold aggregate. intros H. apply mapM_Forall2 in H.
  induction H as [|[c h] [c' v] spec vs Hx _ IH]; simpl; [reflexivity|].
  f_equal; [|exact IH].
  destruct (get_column df c) as [s|]; [|discriminate]. cbn [bind] in Hx.
  destruct (reduce W h s); [|discriminate]. cbn [bind] in Hx. congruence.
Qed.

Lemma groupby_keys (df : DataFrame) (spec : list (string * how))
    (data : list (period * list (string * pyval))) :
  groupby_month_agg W df spec = Ok data ->
  forall p vs, In (p, vs) data -> map fst vs = map fst spec.
Proof.
  unfold groupby_month_agg.
  destruct (get_column df "date") as [[d cs]|]; [|discriminate]. cbn [bind].
  destruct d; try discriminate. destruct (filter _ _); [|discriminate].
  intros H. apply mapM_Forall2 in H.
  induction H as [|k [p' vs'] keys data Hx _ IH]; intros p vs; [intros []|].
  intros [[= -> ->] | Hin]; [|exact (IH _ _ Hin)].
  destruct (aggregate W (group df k) spec) as [r|] eqn:E; [|discriminate].
  cbn [bind] in Hx. injection Hx as _ <-. exact (aggregate_keys _ _ _ E).
Qed.

(** the months of a breakdown hold the aggregated columns and nothing
    else: none of the fields the comparison report reads *)
Lemma months_unread (data : list (period * list (string * pyval)))
    (f : pyval -> pyval) (spec : list (string * how)) :
  (forall p vs, In (p, vs) data -> map fst vs = map fst spec) ->
  ~ In "Part Produced" (map fst spec) ->
  ~ In "OEE (%)" (map fst spec) ->
  ~ In "Total_energy (KwH)" (map fst spec) ->
  forallb Notions.unread
    (dict_of (map (fun '(k, vs) =>
                     (str_period k,
                      PyDict (dict_of (map (fun '(c, v) => (c, f v)) vs))))
                  data)) = true.
Proof.
  intros Hk H1 H2 H3. apply forallb_dict_of. intros kv Hin.
  apply in_map_iff in Hin as ([p vs] & <- & Hin).
  unfold Notions.unread. cbn [snd]. unfold dict_has.
  assert (Hkeys : map fst (map (fun '(c, v) => (c, f v)) vs) = map fst spec).
  { rewrite <- (Hk p vs Hin). rewrite map_map. apply map_ext. now intros [c v]. }
  rewrite !dict_of_absent by (rewrite Hkeys; assumption). reflexivity.
Qed.

Lemma base_summary_keys (k : string) :
  ~ In k ["total_records"; "total_parts_produced"; "total_parts_rejected";
          "average_oee"; "total_energy"; "quality_rate"] ->
  forall df, dict_get (get_file_summary W df) k = None.
Proof.
  intros Hk df. destruct (dict_get (get_file_summary W df) k) eqn:E; [|reflexivity].
  exfalso. apply Hk. apply (file_summary_keys W df). congruence.
Qed.

Lemma sam_breakdown_unread (df : DataFrame) (monthly : dict) :
  dict_get (sam_get_machine_summary W df) "monthly_breakdown"
  = Some (PyDict monthly) ->
  forallb Notions.unread monthly = true.
Proof.
  unfold sam_get_machine_summary.
  destruct (sam_get_machine_summary_body W df) as [s|e] eqn:Hb;
    cbn [try_except]; [|discriminate].
  unfold sam_get_machine_summary_body in Hb. cbv zeta in Hb.
  set (s0 := map (fun '(k, v) => (k, item v)) (get_file_summary W df)) in Hb.
  assert (H0 : dict_get s0 "monthly_breakdown" = None).
  { unfold s0. rewrite dict_get_map_item, base_summary_keys; [reflexivity|].
    simpl. intuition discriminate. }
  apply bind_ok in Hb as (s1 & E1 & Hb).
  assert (H1 : dict_get s1 "monthly_breakdown" = None).
  { destruct (has_column df "Machine Status"); [|congruence].
    apply bind_ok in E1 as (counts & _ & E1). injection E1 as <-.
    now rewrite dict_get_set_ne by discriminate. }
  apply bind_ok in Hb as (s2 & E2 & Hb).
  assert (H2 : dict_get s2 "monthly_breakdown" = None).
  { destruct (has_column df "Maintenance Flag"); [|congruence].
    apply bind_ok in E2 as ([d cs] & _ & E2). cbv beta iota zeta in E2.
    destruct (dtype_in d _).
    - apply bind_ok in E2 as (total & _ & E2).
      apply bind_ok in E2 as (n & _ & E2). injection E2 as <-.
      now rewrite dict_get_set_ne by discriminate.
    - injection E2 as <-. now rewrite dict_get_set_ne by discriminate. }
  destruct (has_column df "date"); [|injection Hb as <-; congruence].
  destruct (negb (empty (dropna_subset df "date")));
    [|injection Hb as <-; congruence].
  apply bind_ok in Hb as (data & E3 & Hb). injection Hb as <-.
  rewrite dict_get_set_eq. intros [= <-].
  eapply months_unread.
  - exact (groupby_keys _ _ _ E3).
  - destruct (has_column df "energyCost"); simpl; intuition discriminate.
  - destruct (has_column df "energyCost"); simpl; intuition discriminate.
  - destruct (has_column df "energyCost"); simpl; intuition discriminate.
Qed.

Lemma breakdown_unread (df : DataFrame) (monthly : dict) :
  dict_get (get_machine_summary W df) "monthly_breakdown"
  = Some (PyDict monthly) ->
  forallb Notions.unread monthly = true.
Proof.
  unfold get_machine_summary.
  destruct (get_machine_summary_body W df) as [s|e] eqn:Hb;
    cbn [try_except]; [|discriminate].
  unfold get_machine_summary_body in Hb. cbv zeta in Hb.
  assert (H0 : dict_get (get_file_summary W df) "monthly_breakdown" = None).
  { apply base_summary_keys. simpl. intuition discriminate. }
  apply bind_ok in Hb as (s1 & E1 & Hb).
  assert (H1 : dict_get s1 "monthly_breakdown" = None).
  { destruct (has_column df "Machine Status"); [|congruence].
    apply bind_ok in E1 as (counts & _ & E1). injection E1 as <-.
    now rewrite dict_get_set_ne by discriminate. }
  apply bind_ok in Hb as (s2 & E2 & Hb).
  assert (H2 : dict_get s2 "monthly_breakdown" = None).
  { destruct (has_column df "Maintenance Flag"); [|congruence].
    apply bind_ok in E2 as ([d cs] & _ & E2). cbv beta iota zeta in E2.
    apply bind_ok in E2 as (n & _ & E2). injection E2 as <-.
    now rewrite dict_get_set_ne by discriminate. }
  destruct (has_column df "date"); [|injection Hb as <-; congruence].
  destruct (negb (empty (dropna_subset df "date")));
    [|injection Hb as <-; congruence].
  apply bind_ok in Hb as (data & E3 & Hb). injection Hb as <-.
  rewrite dict_get_set_eq. intros [= <-].
  apply months_unread with (f := item)
    (spec := [("Ai_partcount", Sum); ("avg_oee", Mean);
              ("avg_total_energy", Sum); ("energyCost", Sum)]).
  - exact (groupby_keys _ _ _ E3).
  - simpl. intuition discriminate.
  - simpl. intuition discriminate.
  - simpl. intuition discriminate.
Qed.

End Breakdown.

Section Comparison.
Import Calendar Pandas Py DataProcessor Reports.

Lemma unread_figures (entry : string * pyval) :
  Notions.unread entry = true ->
  month_production (snd entry) = Ok (PyInt 0)
  /\ month_oee (snd entry) = Ok (PyInt 0).
Proof.
  unfold Notions.unread, month_production, month_oee, LlamaClient.get, dict_has.
  destruct (snd entry); try discriminate.
  destruct (dict_get d "Part Produced"); [discriminate|].
  destruct (dict_get d "OEE (%)"); [discriminate|]. now split.
Qed.

Lemma extreme_first (better : pyval -> pyval -> result bool)
    (best : string * pyval) (rest : list (string * pyval)) :
  better (PyInt 0) (PyInt 0) = Ok false ->
  Notions.unread best = true -> forallb Notions.unread rest = true ->
  extreme better best rest = Ok best.
Proof.
  intros Hb Hbest. induction rest as [|x rest IH]; cbn [extreme forallb];
    [reflexivity|].
  intros H. apply andb_prop in H as [Hx Hrest].
  destruct (unread_figures x Hx) as [_ ->].
  destruct (unread_figures best Hbest) as [_ ->].
  cbn [bind]. rewrite Hb. cbn [bind]. now apply IH.
Qed.

(** On the breakdown by month of a machine summary the comparison
    report finds no figure: every month counts 0 parts and 0 OEE, the best
    and the worst month are both the first one, and the verdict is always
    a consistent performance and stable operations. *)
Lemma comparison_never_varies (W : World) (df : DataFrame) (monthly : dict) :
  dict_get (sam_get_machine_summary W df) "monthly_breakdown"
  = Some (PyDict monthly)
  \/ dict_get (get_machine_summary W df) "monthly_breakdown"
     = Some (PyDict monthly) ->
  monthly <> [] ->
  verdict monthly = Ok ("consistent", "stable operations")
  /\ best_of monthly = Ok (hd (EmptyString, PyNone) monthly)
  /\ worst_of monthly = Ok (hd (EmptyString, PyNone) monthly)
  /\ forall month data, In (month, data) monthly ->
       month_production data = Ok (PyInt 0) /\ month_oee data = Ok (PyInt 0).
Proof.
  intros Hs Hne.
  assert (Hu : forallb Notions.unread monthly = true).
  { destruct Hs as [Hs | Hs];
      [exact (sam_breakdown_unread W df _ Hs) | exact (breakdown_unread W df _ Hs)]. }
  destruct monthly as [|x rest]; [congruence|]. cbn [hd].
  cbn [forallb] in Hu. apply andb_prop in Hu as [Hx Hrest].
  destruct (unread_figures x Hx) as [Hp Ho].
  assert (Hbest : best_of (x :: rest) = Ok x).
  { unfold best_of. rewrite Ho. cbn [bind].
    now apply extreme_first. }
  assert (Hworst : worst_of (x :: rest) = Ok x).
  { unfold worst_of. rewrite Ho. cbn [bind].
    now apply extreme_first. }
  split; [|split; [exact Hbest | split; [exact Hworst|]]].
  - unfold verdict. rewrite Hbest, Hworst. cbn [bind]. rewrite Ho. reflexivity.
  - intros month data [E | Hin]; [subst x; exact (conj Hp Ho)|].
    rewrite forallb_forall in Hrest.
    exact (unread_figures (month, data) (Hrest _ Hin)).
Qed.

End Comparison.

Section Stripping.

Lemma lstrip_length (s : string) :
  (String.length (Str.lstrip s) <= String.length s)%nat.
Proof.
  induction s as [|c s IH]; simpl; [lia|].
  destruct (Str.is_space c); simpl; lia.
Qed.

Lemma lstrip_fixed_head (a : ascii) (p : string) :
  Str.lstrip (String a p) = String a p -> Str.is_space a = false.
Proof.
  simpl. destruct (Str.is_space a); [|reflexivity].
  intros H. pose proof (lstrip_length p) as Hl. rewrite H in Hl. simpl in Hl. lia.
Qed.

Lemma contains_lstrip (sub s : string) :
  sub <> EmptyString -> Str.lstrip sub = sub ->
  Str.contains sub s = true -> Str.contains sub (Str.lstrip s) = true.
Proof.
  intros Hne Hl. destruct sub as [|a p]; [congruence|].
  pose proof (lstrip_fixed_head a p Hl) as Ha.
  induction s as [|c s IH]; [exact (fun H => H)|].
  cbn [Str.lstrip]. destruct (Str.is_space c) eqn:Hc; [|exact (fun H => H)].
  cbn [Str.contains Str.startswith].
  destruct (Ascii.eqb_spec a c) as [-> | _]; [congruence|].
  cbn [andb orb]. exact IH.
Qed.

Lemma rstrip_head (c : ascii) (s : string) :
  Str.is_space c = false -> exists r, Str.rstrip (String c s) = String c r.
Proof.
  intros H. cbn [Str.rstrip]. destruct (Str.rstrip s); [rewrite H|]; eauto.
Qed.

Lemma startswith_rstrip (sub s : string) :
  sub <> EmptyString -> Str.rstrip sub = sub ->
  Str.startswith sub s = true -> Str.startswith sub (Str.rstrip s) = true.
Proof.
  revert s. induction sub as [|a p IH]; intros s Hne Hr; [congruence|].
  destruct s as [|c s]; [discriminate|].
  cbn [Str.startswith]. intros H. apply andb_prop in H as [Hac Hp].
  apply Ascii.eqb_eq in Hac. subst c.
  cbn [Str.rstrip] in Hr.
  destruct (Str.rstrip p) as [|d r] eqn:Ep.
  - destruct (Str.is_space a) eqn:Ha; [discriminate|].
    injection Hr as <-.
    destruct (rstrip_head a s Ha) as [r' ->].
    cbn [Str.startswith]. now rewrite Ascii.eqb_refl.
  - injection Hr as Hr. subst p.
    assert (Hi : Str.startswith (String d r) (Str.rstrip s) = true).
    { apply IH; [discriminate | reflexivity | exact Hp]. }
    cbn [Str.rstrip]. destruct (Str.rstrip s) as [|e t]; [discriminate Hi|].
    cbn [Str.startswith] in *. now rewrite Ascii.eqb_refl, Hi.
Qed.

Lemma contains_rstrip (sub s : string) :
  sub <> EmptyString -> Str.rstrip sub = sub ->
  Str.contains sub s = true -> Str.contains sub (Str.rstrip s) = true.
Proof.
  intros Hne Hr. induction s as [|c s IH]; [exact (fun H => H)|].
  intros H. cbn [Str.contains] in H. apply orb_prop in H as [H | H].
  - apply (startswith_rstrip sub _ Hne Hr) in H.
    destruct (Str.rstrip (String c s)); cbn [Str.contains]; now rewrite H.
  - specialize (IH H). cbn [Str.rstrip].
    destruct (Str.rstrip s) as [|d r].
    + destruct sub; [congruence | discriminate IH].
    + cbn [Str.contains] in *. rewrite IH. apply orb_true_r.
Qed.

Lemma contains_strip (sub s : string) :
  sub <> EmptyString -> Str.lstrip sub = sub -> Str.rstrip sub = sub ->
  Str.contains sub s = true -> Str.contains sub (Str.strip s) = true.
Proof.
  intros Hne Hl Hr H. unfold Str.strip.
  apply contains_rstrip; [assumption..|]. now apply contains_lstrip.
Qed.

End Stripping.

Section ComparisonText.
Import Calendar Pandas Py DataProcessor Reports.
Variable W : World.
Variable format : string -> pyval -> result string.

(** X10. The comparison report of a machine summary always reaches the same
    verdict: whatever the months of the breakdown hold, the report says
    that the performance is consistent and the operations stable. *)
Theorem comparison_report_is_steady (df : DataFrame) (summary monthly : dict)
    (machine : string) (machine_data : dict) (text : string) :
  summary = sam_get_machine_summary W df
  \/ summary = get_machine_summary W df ->
  dict_get summary "monthly_breakdown" = Some (PyDict monthly) ->
  (2 <= List.length monthly)%nat ->
  _generate_comparison_report format machine (PyDict summary) machine_data
  = Ok text ->
  Str.contains
    "The data shows consistent performance across time periods, indicating stable operations."
    text = true.
Proof.
  intros Hs Hm Hlen.
  assert (Hne : monthly <> []) by (destruct monthly; [simpl in Hlen; lia | discriminate]).
  assert (Hv : best_of monthly = Ok (hd (EmptyString, PyNone) monthly)
               /\ worst_of monthly = Ok (hd (EmptyString, PyNone) monthly)
               /\ month_oee (snd (hd (EmptyString, PyNone) monthly))
                  = Ok (PyInt 0)).
  { destruct (comparison_never_varies W df monthly) as (_ & Hb & Hw & Hall);
      [destruct Hs as [-> | ->]; [now left | now right] | exact Hne|].
    split; [exact Hb|]. split; [exact Hw|].
    destruct monthly as [|[month data] rest]; [congruence|].
    exact (proj2 (Hall month data (or_introl eq_refl))). }
  destruct Hv as (Hb & Hw & Ho).
  unfold _generate_comparison_report.
  cbn [has_key Membership.str_in bind]. unfold dict_has. rewrite Hm.
  cbn [bind LlamaClient.getitem]. rewrite Hm. cbn [bind len].
  replace (Z.of_nat (List.length monthly) <? 2) with false
    by (symmetry; apply Z.ltb_ge; lia).
  cbn [bind LlamaClient.items].
  intros H.
  apply bind_ok in H as (months & _ & H).
  apply bind_ok in H as (lines & _ & H).
  rewrite Hb, Hw in H. cbn [bind] in H. rewrite Ho in H. cbn [bind] in H.
  apply bind_ok in H as (best & _ & H).
  apply bind_ok in H as (worst & _ & H).
  cbn [bind sub arith as_number of_number orb] in H.
  apply bind_ok in H as (variation & _ & H).
  injection H as <-.
  apply contains_strip; [discriminate | reflexivity | reflexivity|].
  repeat first [solve [vm_compute; reflexivity] | apply contains_app_r].
Qed.

End ComparisonText.

Section ComparisonTextWitness.
Import Calendar Pandas Py DataProcessor Reports.

Lemma comparison_report_is_steady_witness :
  exists monthly text,
    dict_get (sam_get_machine_summary (Examples.offline []) Examples.two_months)
      "monthly_breakdown" = Some (PyDict monthly)
    /\ _generate_comparison_report (fun _ v => Ok (LlamaClient.str (Examples.offline []) v))
         "MC_PRESS_133"
         (PyDict (sam_get_machine_summary (Examples.offline []) Examples.two_months))
         [] = Ok text
    /\ Str.contains
         "The data shows consistent performance across time periods, indicating stable operations."
         text = true.
Proof.
  do 2 eexists. split; [vm_compute; reflexivity|].
  split; [vm_compute; reflexivity|].
  eapply (comparison_report_is_steady (Examples.offline [])
           (fun _ v => Ok (LlamaClient.str (Examples.offline []) v))
           Examples.two_months
           (sam_get_machine_summary (Examples.offline []) Examples.two_months)
           _ "MC_PRESS_133" []).
  - now left.
  - vm_compute. reflexivity.
  - simpl. lia.
  - vm_compute. reflexivity.
Defined.

End ComparisonTextWitness.

Section DataContext.
Import Calendar Pandas Py DataProcessor.
Variable W : World.

(** X11. What the classifier is told about fetched data: one file, named
    [from_table], with the number of rows of the table. *)
Theorem context_of_fetched_data (machine query : string) :
  get_specific_file_data W machine query <> [] ->
  exists df,
    dict_get (get_specific_file_data W machine query) "combined_data"
    = Some (PyFrame df)
    /\ LlamaClient._prepare_data_context W
         (get_specific_file_data W machine query)
       = "Files: from_table: " ++ str_int (Pandas.len df) ++ " records".
Proof.
  unfold get_specific_file_data, get_specific_file_data_body.
  destruct (date_window _) as [[date_start date_end]|];
    [|cbn; congruence].
  destruct (get_table_client W); [|cbn; congruence]. cbn [snd].
  destruct (query_entities W _) as [[|r rs]|]; cbn [bind try_except];
    [congruence | | congruence].
  intros _.
  set (df := sam_clean_dataframe W (from_rows (r :: rs))).
  exists df.
  generalize (get_date_range df), (get_file_summary W df),
    (sam_get_machine_summary W df), (column_names df).
  intros range file_summary summary names.
  split; reflexivity.
Qed.

End DataContext.

Section DataContextWitness.
Import Calendar Pandas Py DataProcessor.

Lemma context_of_fetched_data_witness :
  exists df,
    dict_get (get_specific_file_data (Examples.offline Examples.dated_rows)
                "MC_PRESS_133" "OEE in January 2024") "combined_data"
    = Some (PyFrame df)
    /\ LlamaClient._prepare_data_context (Examples.offline Examples.dated_rows)
         (get_specific_file_data (Examples.offline Examples.dated_rows)
            "MC_PRESS_133" "OEE in January 2024")
       = "Files: from_table: " ++ str_int (Pandas.len df) ++ " records".
Proof.
  apply (context_of_fetched_data (Examples.offline Examples.dated_rows)
           "MC_PRESS_133" "OEE in January 2024").
  vm_compute. discriminate.
Defined.

End DataContextWitness.

Section Malformed.
Import Py LlamaClient.
Variable W : World.

(** X12. When the answer to the analysis prompt is no JSON (a text that
    [json.loads] refuses, or no text at all), the analysis of the query is
    the one of the keyword classifier, which is a well-formed intent. *)
Theorem malformed_answer_falls_back (query machine : string)
    (machine_data : dict) :
  Spec.answer_is_no_json W
    (analysis_prompt query machine (_prepare_data_context W machine_data)) ->
  analyze_query W query machine machine_data = _fallback_analysis query
  /\ Spec.well_formed_intent (analyze_query W query machine machine_data)
     = true.
Proof.
  intros (response & e & Hc & Hl).
  assert (E : analyze_query W query machine machine_data
              = _fallback_analysis query).
  { unfold analyze_query. rewrite Hc. cbn [bind try_except]. now rewrite Hl. }
  split; [exact E|]. rewrite E. apply fallback_analysis_well_formed.
Qed.

End Malformed.

Section MalformedWitness.
Import Py LlamaClient.

Lemma malformed_answer_falls_back_witness :
  Spec.answer_is_no_json (Cases.answering "I cannot answer in JSON")
    (analysis_prompt "show the OEE trend" "MC_PRESS_133"
       (_prepare_data_context (Cases.answering "I cannot answer in JSON") []))
  /\ analyze_query (Cases.answering "I cannot answer in JSON")
       "show the OEE trend" "MC_PRESS_133" []
     = _fallback_analysis "show the OEE trend"
  /\ Spec.well_formed_intent
       (analyze_query (Cases.answering "I cannot answer in JSON")
          "show the OEE trend" "MC_PRESS_133" [])
     = true.
Proof.
  assert (H : Spec.answer_is_no_json (Cases.answering "I cannot answer in JSON")
                (analysis_prompt "show the OEE trend" "MC_PRESS_133"
                   (_prepare_data_context
                      (Cases.answering "I cannot answer in JSON") []))).
  { eexists. eexists. split; reflexivity. }
  split; [exact H|].
  apply (malformed_answer_falls_back (Cases.answering "I cannot answer in JSON")
           "show the OEE trend" "MC_PRESS_133" [] H).
Defined.

End MalformedWitness.

Section Charts.
Import Calendar Pandas Py DataProcessor ChartGenerator.
Variable W : World.
Variable draw : chart -> DataFrame -> result (string * string).
Variable shift_groups : DataFrame -> result nat.

Lemma caught_some {A : Type} (body : result (option A)) (c : A) :
  try_except body (fun _ => None) = Some c -> body = Ok (Some c).
Proof. destruct body as [[a|]|e]; simpl; congruence. Qed.

Lemma caught_forall {A : Type} (P : A -> Prop) (body : result A)
    (handler : exn -> A) :
  (forall a, body = Ok a -> P a) -> (forall e, P (handler e)) ->
  P (try_except body handler).
Proof. intros Hok Hraise. destruct body as [a|e]; simpl; auto. Qed.

Lemma get_column_has (df : DataFrame) (c : string) (s : dtype * list cell) :
  get_column df c = Ok s -> has_column df c = true.
Proof.
  unfold get_column.
  destruct (lookup_dtype (columns df) c) as [d|] eqn:E; [|discriminate].
  intros _. apply has_column_lookup. now exists d.
Qed.

Lemma dropna_subsets_has (df df' : DataFrame) (cols : list string) :
  dropna_subsets df cols = Ok df' ->
  columns df' = columns df /\ forall c, In c cols -> has_column df c = true.
Proof.
  unfold dropna_subsets.
  destruct (filter _ cols) as [|m ms] eqn:E; [|discriminate].
  intros [= <-]. split; [reflexivity|].
  intros c Hin. destruct (has_column df c) eqn:Hc; [reflexivity|].
  assert (H : In c (filter (fun c => negb (has_column df c)) cols)).
  { apply filter_In. split; [assumption | now rewrite Hc]. }
  rewrite E in H. contradiction.
Qed.

Lemma oee_chart_form (machine_name : string) (df : DataFrame) (c : pyval) :
  _create_oee_chart draw machine_name df = Some c ->
  exists image description,
    c = chart_dict "histogram"
          ("OEE Performance Distribution - " ++ machine_name)
          image description.
Proof.
  intros H. apply caught_some in H.
  apply bind_ok in H as ([d cs] & _ & H).
  destruct (filter _ cs); [discriminate|].
  apply bind_ok in H as ([image description] & _ & H).
  injection H as <-. eauto.
Qed.

Lemma quality_chart_form (df : DataFrame) (c : pyval) :
  _create_production_quality_chart W draw df = Some c ->
  (exists image description,
     c = chart_dict "pie" "Production Quality Overview" image description)
  /\ has_column df "total_part_count" = true
  /\ has_column df "total_part_reject" = true.
Proof.
  intros H. apply caught_some in H.
  apply bind_ok in H as (produced & Hp & H).
  apply bind_ok in H as (sp & _ & H).
  apply bind_ok in H as (rejected & Hr & H).
  apply bind_ok in H as (sr & _ & H).
  apply bind_ok in H as ([image description] & _ & H).
  injection H as <-.
  split; [eauto|].
  split; eapply get_column_has; eassumption.
Qed.

Lemma month_groups_columns (df : DataFrame) (spec : list (string * how))
    (groups : list (period * list (string * pyval))) :
  groupby_month_agg W df spec = Ok groups ->
  lookup_dtype (columns df) "date" = Some datetime64
  /\ forall c, In c (map fst spec) -> has_column df c = true.
Proof.
  unfold groupby_month_agg. intros H.
  apply bind_ok in H as ([d cs] & Hd & H).
  assert (Hl : lookup_dtype (columns df) "date" = Some d).
  { unfold get_column in Hd.
    destruct (lookup_dtype (columns df) "date"); [|discriminate].
    now injection Hd as -> _. }
  destruct d; try discriminate.
  split; [exact Hl|].
  destruct (filter _ (map fst spec)) as [|m ms] eqn:E; [|discriminate].
  intros c Hin. destruct (has_column df c) eqn:Hc; [reflexivity|].
  assert (Hf : In c (filter (fun c => negb (has_column df c)) (map fst spec))).
  { apply filter_In. split; [assumption | now rewrite Hc]. }
  rewrite E in Hf. contradiction.
Qed.

Lemma has_column_columns (df df' : DataFrame) (c : string) :
  columns df' = columns df -> has_column df' c = has_column df c.
Proof. intros H. unfold has_column, column_names. now rewrite H. Qed.

Lemma monthly_chart_form (df : DataFrame) (c : pyval) :
  _create_monthly_comparison_chart W draw df = Some c ->
  (exists image description,
     c = chart_dict "combo" "Monthly Production and OEE Comparison"
           image description)
  /\ lookup_dtype (columns df) "date" = Some datetime64
  /\ has_column df "total_part_count" = true
  /\ has_column df "avg_oee" = true.
Proof.
  intros H. apply caught_some in H.
  apply bind_ok in H as (df_clean & Hd & H).
  apply dropna_subsets_has in Hd as [Hcols _].
  destruct (empty df_clean); [discriminate|].
  apply bind_ok in H as (monthly_data & Hm & H).
  apply month_groups_columns in Hm as [Hdate Hspec].
  destruct (_ <? _)%nat; [discriminate|].
  apply bind_ok in H as ([image description] & _ & H).
  injection H as <-.
  split; [eauto|]. rewrite Hcols in Hdate. split; [exact Hdate|].
  rewrite <- !(has_column_columns df df_clean) by exact Hcols.
  split; apply Hspec; simpl; tauto.
Qed.

Lemma shift_chart_none (df : DataFrame) :
  _create_shift_comparison_chart draw shift_groups df = None.
Proof.
  unfold _create_shift_comparison_chart.
  destruct (shift_groups df) as [[|n]|e]; reflexivity.
Qed.

Lemma trend_chart_form (kind : chart) (value_column type title : string)
    (df : DataFrame) (c : pyval) :
  trend_chart draw kind value_column type title df = Some c ->
  (exists image description, c = chart_dict type title image description)
  /\ has_column df "Date" = true /\ has_column df value_column = true.
Proof.
  intros H. apply caught_some in H.
  apply bind_ok in H as (df_clean & Hd & H).
  apply dropna_subsets_has in Hd as [_ Hcols].
  destruct (empty df_clean); [discriminate|].
  apply bind_ok in H as ([image description] & _ & H).
  injection H as <-.
  split; [eauto|]. split; apply Hcols; simpl; tauto.
Qed.

Lemma status_chart_form (df : DataFrame) (c : pyval) :
  _create_machine_status_chart draw df = Some c ->
  exists image description,
    c = chart_dict "bar" "Machine Status Distribution" image description.
Proof.
  intros H. apply caught_some in H.
  apply bind_ok in H as (s & _ & H).
  apply bind_ok in H as ([image description] & _ & H).
  injection H as <-. eauto.
Qed.

Lemma append_chart_forall (P : pyval -> Prop) (charts : list pyval)
    (chart_data : option pyval) :
  Forall P charts -> (forall c, chart_data = Some c -> P c) ->
  Forall P (append_chart charts chart_data).
Proof.
  intros Hl Hc. destruct chart_data as [c|]; simpl; [|exact Hl].
  apply Forall_app. split; [exact Hl|]. constructor; [now apply Hc | constructor].
Qed.

Lemma is_chart_dict (type title image description : string) :
  Notions.is_chart (chart_dict type title image description).
Proof. unfold Notions.is_chart. eauto 6. Qed.

Lemma summary_charts_form (machine_name : string) (df : DataFrame) :
  Forall Notions.is_chart (_generate_summary_charts W draw machine_name df).
Proof.
  unfold _generate_summary_charts.
  assert (H1 : Forall Notions.is_chart
                 (if has_column df "avg_oee"
                  then append_chart [] (_create_oee_chart draw machine_name df)
                  else [])).
  { destruct (has_column df "avg_oee"); [|constructor].
    apply append_chart_forall; [constructor|].
    intros c Hc. apply oee_chart_form in Hc as (i & d & ->).
    apply is_chart_dict. }
  cbv zeta. destruct (_ && _); [|exact H1].
  apply append_chart_forall; [exact H1|].
  intros c Hc. apply quality_chart_form in Hc as [(i & d & ->) _].
  apply is_chart_dict.
Qed.

Lemma comparison_charts_cases (df : DataFrame) :
  _generate_comparison_charts W draw shift_groups df = []
  \/ exists image description,
       _generate_comparison_charts W draw shift_groups df
       = [chart_dict "combo" "Monthly Production and OEE Comparison"
            image description]
       /\ lookup_dtype (columns df) "date" = Some datetime64
       /\ has_column df "total_part_count" = true
       /\ has_column df "avg_oee" = true.
Proof.
  unfold _generate_comparison_charts. cbv zeta.
  rewrite shift_chart_none. cbn [append_chart].
  replace (if has_column df "Shift"
           then if has_column df "date"
                then append_chart [] (_create_monthly_comparison_chart W draw df)
                else []
           else if has_column df "date"
                then append_chart [] (_create_monthly_comparison_chart W draw df)
                else [])
    with (if has_column df "date"
          then append_chart [] (_create_monthly_comparison_chart W draw df)
          else [])
    by (now destruct (has_column df "Shift")).
  destruct (has_column df "date"); [|now left].
  destruct (_create_monthly_comparison_chart W draw df) as [c|] eqn:E;
    [|now left].
  apply monthly_chart_form in E as ((i & d & ->) & H).
  right. exists i, d. split; [reflexivity | exact H].
Qed.

Lemma trend_charts_form (df : DataFrame) :
  Forall Notions.is_chart (_generate_trend_charts draw df)
  /\ (_generate_trend_charts draw df = []
      \/ has_column df "date" = true /\ has_column df "Date" = true).
Proof.
  unfold _generate_trend_charts. cbv zeta.
  destruct (has_column df "date"); [|split; [constructor | now left]].
  unfold _create_oee_trend_chart, _create_energy_trend_chart.
  destruct (trend_chart draw OeeTrend _ _ _ df) as [c1|] eqn:E1;
    destruct (trend_chart draw EnergyTrend _ _ _ df) as [c2|] eqn:E2;
    try (apply trend_chart_form in E1 as ((i1 & d1 & ->) & HD & _));
    try (apply trend_chart_form in E2 as ((i2 & d2 & ->) & HD' & _));
    destruct (has_column df "avg_oee"), (has_column df "avg_total_energy");
    cbn [append_chart app];
    (split; [repeat constructor; apply is_chart_dict | auto]).
Qed.

Lemma bar_charts_form (df : DataFrame) :
  Forall Notions.is_chart (_generate_bar_charts draw df)
  /\ (has_column df "Machine Status" = false ->
      _generate_bar_charts draw df = []).
Proof.
  unfold _generate_bar_charts.
  destruct (has_column df "Machine Status"); [|split; [constructor | reflexivity]].
  split; [|discriminate].
  apply append_chart_forall; [constructor|].
  intros c Hc. apply status_chart_form in Hc as (i & d & ->).
  apply is_chart_dict.
Qed.

Lemma line_charts_form (df : DataFrame) :
  Forall Notions.is_chart (_generate_line_charts draw df)
  /\ (_generate_line_charts draw df = []
      \/ has_column df "date" = true /\ has_column df "energyCost" = true
         /\ has_column df "Date" = true
         /\ has_column df "Production Cost" = true).
Proof.
  unfold _generate_line_charts, _create_cost_trend_chart.
  destruct (has_column df "date"), (has_column df "energyCost");
    cbn [andb]; try (split; [constructor | now left]).
  destruct (trend_chart draw CostTrend _ _ _ df) as [c|] eqn:E;
    [|split; [constructor | now left]].
  apply trend_chart_form in E as ((i & d & ->) & HD & HP).
  cbn [append_chart app].
  split; [repeat constructor; apply is_chart_dict | right; auto].
Qed.

Lemma firstn_Forall {A : Type} (P : A -> Prop) (n : nat) (l : list A) :
  Forall P l -> Forall P (firstn n l).
Proof.
  revert n. induction l as [|a l IH]; intros [|n] H; simpl; try constructor.
  - now inversion H.
  - apply IH. now inversion H.
Qed.

Lemma on_frame_forall (P : pyval -> Prop)
    (generate : DataFrame -> list pyval) (v : pyval) :
  (forall df, Forall P (generate df)) -> Forall P (on_frame generate v).
Proof. intros H. destruct v; simpl; auto. Qed.

(** What [generate_charts] gives once the table is read: the groups of
    charts that were asked for, in their order, cut after the fourth. *)
Lemma generate_charts_groups (analysis : pyval) (machine_data : dict) :
  generate_charts W draw shift_groups analysis machine_data = []
  \/ exists (df : pyval) (machine_name : string) (s c t b l : bool),
       dict_get machine_data "combined_data" = Some df
       /\ generate_charts W draw shift_groups analysis machine_data
          = firstn 4
              ((if s then on_frame (_generate_summary_charts W draw machine_name) df
                else [])
               ++ (if c then on_frame (_generate_comparison_charts W draw shift_groups) df
                   else [])
               ++ (if t then on_frame (_generate_trend_charts draw) df else [])
               ++ (if b then on_frame (_generate_bar_charts draw) df else [])
               ++ (if l then on_frame (_generate_line_charts draw) df else []))%list.
Proof.
  remember (generate_charts W draw shift_groups analysis machine_data)
    as r eqn:Hr.
  unfold generate_charts in Hr.
  destruct (LlamaClient.is_empty_dict machine_data
            || negb (dict_has machine_data "combined_data"));
    [left; exact Hr|].
  unfold LlamaClient.getitem at 1 in Hr.
  destruct (dict_get machine_data "combined_data") as [df|] eqn:Hd;
    [|left; exact Hr].
  cbn [bind] in Hr.
  match type of Hr with
  | r = try_except ?body _ =>
      destruct body as [charts|e] eqn:E; [|left; exact Hr]
  end.
  cbn [try_except] in Hr. subst r.
  destruct df; try (injection E as <-; now left);
    (apply bind_ok in E as (name & _ & E);
     apply bind_ok in E as (intent & _ & E);
     apply bind_ok in E as (chart_types & _ & E);
     apply bind_ok in E as (is_s & _ & E);
     apply bind_ok in E as (ws & _ & E);
     apply bind_ok in E as (wc & _ & E);
     apply bind_ok in E as (wt & _ & E);
     apply bind_ok in E as (wb & _ & E);
     apply bind_ok in E as (wl & _ & E);
     injection E as <-;
     right;
     eexists _, (LlamaClient.str W name), ws, wc, wt, wb, wl;
     split; [reflexivity|];
     destruct ws, wc, wt, wb, wl;
     cbn [app]; repeat rewrite app_assoc; repeat rewrite app_nil_r;
     reflexivity).
Qed.

(** X13. A request never gets more than four charts, and each of them is a
    chart as the creators build it: a type, a title, an image and a
    description. *)
Theorem charts_are_few (analysis : pyval) (machine_data : dict) :
  (List.length (generate_charts W draw shift_groups analysis machine_data)
   <= 4)%nat
  /\ Forall Notions.is_chart
       (generate_charts W draw shift_groups analysis machine_data).
Proof.
  destruct (generate_charts_groups analysis machine_data)
    as [-> | (df & name & s & c & t & b & l & _ & ->)].
  - split; [simpl; lia | constructor].
  - split; [apply firstn_le_length|].
    apply firstn_Forall.
    repeat (apply Forall_app; split);
      match goal with
      | |- Forall _ (if ?x then _ else _) => destruct x; [|constructor]
      end;
      apply on_frame_forall; intros d.
    + apply summary_charts_form.
    + destruct (comparison_charts_cases d) as [-> | (i & x & -> & _)];
        [constructor | repeat constructor; apply is_chart_dict].
    + apply trend_charts_form.
    + apply bar_charts_form.
    + apply line_charts_form.
Qed.

(** X14. The shift comparison chart is never drawn: the creator reads the
    columns 'Part Produced' and 'OEE (%)' of a grouping that has neither.
    So a comparison gets the monthly chart or nothing, and the monthly
    chart only from a table whose 'date' column holds timestamps and that
    has the columns 'total_part_count' and 'avg_oee'. *)
Theorem shift_chart_is_never_drawn (df : DataFrame) :
  _create_shift_comparison_chart draw shift_groups df = None
  /\ (_generate_comparison_charts W draw shift_groups df = []
      \/ exists image description,
           _generate_comparison_charts W draw shift_groups df
           = [chart_dict "combo" "Monthly Production and OEE Comparison"
                image description]
           /\ lookup_dtype (columns df) "date" = Some datetime64
           /\ has_column df "total_part_count" = true
           /\ has_column df "avg_oee" = true).
Proof.
  split; [apply shift_chart_none | apply comparison_charts_cases].
Qed.

(** X15. The groups of charts ask for a column under one name and the
    creators read it under another: a trend chart needs both a 'date' and
    a 'Date' column, the cost chart needs 'date', 'energyCost', 'Date' and
    'Production Cost', and the quality chart needs 'total_part_rejected'
    as well as 'total_part_reject'. *)
Theorem charts_need_both_spellings (machine_name : string) (df : DataFrame) :
  (_generate_trend_charts draw df = []
   \/ has_column df "date" = true /\ has_column df "Date" = true)
  /\ (_generate_line_charts draw df = []
      \/ has_column df "date" = true /\ has_column df "energyCost" = true
         /\ has_column df "Date" = true
         /\ has_column df "Production Cost" = true)
  /\ (Forall (fun c => Notions.title_of c
                       <> Some (PyStr "Production Quality Overview"))
             (_generate_summary_charts W draw machine_name df)
      \/ has_column df "total_part_rejected" = true
         /\ has_column df "total_part_reject" = true).
Proof.
  split; [apply trend_charts_form|]. split; [apply line_charts_form|].
  unfold _generate_summary_charts. cbv zeta.
  assert (H1 : Forall (fun c => Notions.title_of c
                                <> Some (PyStr "Production Quality Overview"))
                 (if has_column df "avg_oee"
                  then append_chart [] (_create_oee_chart draw machine_name df)
                  else [])).
  { destruct (has_column df "avg_oee"); [|constructor].
    apply append_chart_forall; [constructor|].
    intros c Hc. apply oee_chart_form in Hc as (i & d & ->).
    cbn. intros H. discriminate H. }
  destruct (has_column df "total_part_count"); cbn [andb]; [|now left].
  destruct (has_column df "total_part_rejected"); [|now left].
  destruct (_create_production_quality_chart W draw df) as [c|] eqn:E;
    [|now left].
  apply quality_chart_form in E as (_ & _ & Hr). right. auto.
Qed.

Lemma existsb_filter {A : Type} (p q : A -> bool) (l : list A) :
  existsb p l = false -> existsb p (filter q l) = false.
Proof.
  induction l as [|a l IH]; simpl; [reflexivity|].
  intros H. apply orb_false_elim in H as [Ha Hl].
  destruct (q a); simpl; [rewrite Ha|]; now apply IH.
Qed.

Lemma cleaned_lacks (df df1 : DataFrame) (c : string) :
  has_column df "date" = true -> convert_date W df = Ok df1 ->
  existsb (String.eqb c) ("date" :: numeric_columns) = false ->
  has_column (sam_clean_dataframe W df) c = false.
Proof.
  intros Hd Hc H. unfold has_column.
  rewrite (sam_clean_columns W df df1 Hd Hc).
  cbn [existsb] in *. apply orb_false_elim in H as [-> H]. cbn [orb].
  now apply existsb_filter.
Qed.

(** X16. Of the eight charts, a table that went through the cleaning of
    the fetch path can only get two: the OEE histogram and the monthly
    comparison. The other creators read columns the cleaning does not
    keep. *)
Theorem charts_of_cleaned_table (analysis : pyval) (machine_data : dict)
    (df df1 : DataFrame) :
  has_column df "date" = true -> convert_date W df = Ok df1 ->
  dict_get machine_data "combined_data"
  = Some (PyFrame (sam_clean_dataframe W df)) ->
  (List.length (generate_charts W draw shift_groups analysis machine_data)
   <= 2)%nat
  /\ Forall (fun c =>
               exists machine image description,
                 c = chart_dict "histogram"
                       ("OEE Performance Distribution - " ++ machine)
                       image description
                 \/ c = chart_dict "combo"
                          "Monthly Production and OEE Comparison"
                          image description)
       (generate_charts W draw shift_groups analysis machine_data).
Proof.
  intros Hd Hc Hm.
  set (t := sam_clean_dataframe W df).
  assert (Hlack : forall c,
             existsb (String.eqb c) ("date" :: numeric_columns) = false ->
             has_column t c = false)
    by (intros c; now apply (cleaned_lacks df df1)).
  assert (Htrend : _generate_trend_charts draw t = []).
  { destruct (proj2 (trend_charts_form t)) as [E | [_ E]]; [exact E|].
    rewrite Hlack in E by reflexivity. discriminate. }
  assert (Hbar : _generate_bar_charts draw t = [])
    by (apply bar_charts_form, Hlack; reflexivity).
  assert (Hline : _generate_line_charts draw t = []).
  { destruct (proj2 (line_charts_form t)) as [E | (_ & E & _)]; [exact E|].
    rewrite Hlack in E by reflexivity. discriminate. }
  assert (Hsum : forall name,
             _generate_summary_charts W draw name t = []
             \/ exists image description,
                  _generate_summary_charts W draw name t
                  = [chart_dict "histogram"
                       ("OEE Performance Distribution - " ++ name)
                       image description]).
  { intros name. unfold _generate_summary_charts. cbv zeta.
    rewrite (Hlack "total_part_rejected") by reflexivity.
    rewrite andb_false_r.
    destruct (has_column t "avg_oee"); [|now left].
    destruct (_create_oee_chart draw name t) as [c|] eqn:E; [|now left].
    apply oee_chart_form in E as (i & d & ->). right. now exists i, d. }
  destruct (generate_charts_groups analysis machine_data)
    as [-> | (v & name & s & c & tr & b & l & Hv & ->)].
  { split; [simpl; lia | constructor]. }
  rewrite Hm in Hv. injection Hv as <-. cbn [on_frame]. fold t.
  rewrite Htrend, Hbar, Hline.
  replace ((if tr then [] else []) ++ (if b then [] else [])
           ++ (if l then [] else []))%list with (@nil pyval)
    by (now destruct tr, b, l).
  rewrite app_nil_r.
  assert (Hs : exists ls, (if s then _generate_summary_charts W draw name t else [])
                          = ls /\ (List.length ls <= 1)%nat
                          /\ Forall (fun c =>
                               exists machine image description,
                                 c = chart_dict "histogram"
                                       ("OEE Performance Distribution - " ++ machine)
                                       image description
                                 \/ c = chart_dict "combo"
                                          "Monthly Production and OEE Comparison"
                                          image description) ls).
  { destruct s; [|exists []; repeat split; [simpl; lia | constructor]].
    destruct (Hsum name) as [-> | (i & d & ->)].
    - exists []. repeat split; [simpl; lia | constructor].
    - eexists. split; [reflexivity|]. split; [simpl; lia|].
      repeat constructor. exists name, i, d. now left. }
  assert (Hcmp : exists lc,
             (if c then _generate_comparison_charts W draw shift_groups t else [])
             = lc /\ (List.length lc <= 1)%nat
             /\ Forall (fun c =>
                          exists machine image description,
                            c = chart_dict "histogram"
                                  ("OEE Performance Distribution - " ++ machine)
                                  image description
                            \/ c = chart_dict "combo"
                                     "Monthly Production and OEE Comparison"
                                     image description) lc).
  { destruct c; [|exists []; repeat split; [simpl; lia | constructor]].
    destruct (comparison_charts_cases t) as [-> | (i & d & -> & _)].
    - exists []. repeat split; [simpl; lia | constructor].
    - eexists. split; [reflexivity|]. split; [simpl; lia|].
      repeat constructor. exists EmptyString, i, d. now right. }
  destruct Hs as (ls & -> & Hls & Fs). destruct Hcmp as (lc & -> & Hlc & Fc).
  split.
  - rewrite length_firstn, length_app. lia.
  - apply firstn_Forall, Forall_app. now split.
Qed.

End Charts.

Section ChartsWitness.
Import Calendar Pandas Py DataProcessor ChartGenerator.

Lemma charts_of_cleaned_table_witness :
  (List.length
     (generate_charts (Examples.offline []) Cases.plot (fun _ => Ok 2%nat)
        (LlamaClient._fallback_analysis "a summary with a chart")
        [("machine", PyStr "MC_PRESS_133");
         ("combined_data",
          PyFrame (sam_clean_dataframe (Examples.offline [])
                     Examples.two_months))])
   <= 2)%nat
  /\ Forall (fun c =>
               exists machine image description,
                 c = chart_dict "histogram"
                       ("OEE Performance Distribution - " ++ machine)
                       image description
                 \/ c = chart_dict "combo"
                          "Monthly Production and OEE Comparison"
                          image description)
       (generate_charts (Examples.offline []) Cases.plot (fun _ => Ok 2%nat)
          (LlamaClient._fallback_analysis "a summary with a chart")
          [("machine", PyStr "MC_PRESS_133");
           ("combined_data",
            PyFrame (sam_clean_dataframe (Examples.offline [])
                       Examples.two_months))]).
Proof.
  eapply (charts_of_cleaned_table (Examples.offline []) Cases.plot
            (fun _ => Ok 2%nat) _ _ Examples.two_months).
  - vm_compute. reflexivity.
  - vm_compute. reflexivity.
  - vm_compute. reflexivity.
Defined.

End ChartsWitness.

Section Chat.
Import Py.
Variable W : World.

Lemma strip_nonempty (s : string) :
  Str.is_empty (Str.strip s) = false <-> Str.strip s <> EmptyString.
Proof.
  destruct (Str.strip s); simpl; split; congruence.
Qed.

Lemma nonempty_dict (d : dict) (k : string) (v : pyval) :
  dict_get d k = Some v -> truthy (PyDict d) = Ok true.
Proof. destruct d; [discriminate | reflexivity]. Qed.

(** X17. Among the requests whose query and machine are of the ASCII
    range, the chat endpoint answers 200 only to an object whose query
    and machine are strings with something else than white space in
    them, and the answer is then the one of [process_chat_query] for the
    two stripped strings. *)
Theorem chat_answers_nonblank_requests (request_json : result pyval)
    (body : pyval) :
  Notions.ascii_request request_json ->
  Api.chat W request_json = (body, 200) ->
  exists data query machine,
    request_json = Ok (PyDict data)
    /\ dict_get data "query" = Some (PyStr query)
    /\ dict_get data "machine" = Some (PyStr machine)
    /\ Str.strip query <> EmptyString
    /\ Str.strip machine <> EmptyString
    /\ body = PyDict (Routes.process_chat_query W (Str.strip query)
                        (Str.strip machine)).
Proof.
  unfold Api.chat. intros _ H.
  match type of H with
  | try_except ?b _ = _ => destruct b as [[payload status]|e] eqn:E
  end; [|discriminate H].
  cbn [try_except] in H. injection H as -> ->.
  apply bind_ok in E as (data & -> & E).
  apply bind_ok in E as (given & Hgiven & E).
  destruct given; cbn [negb] in E; [|discriminate E].
  apply bind_ok in E as (q0 & Hq0 & E).
  apply bind_ok in E as (q & Hq & E).
  apply bind_ok in E as (m0 & Hm0 & E).
  apply bind_ok in E as (m & Hm & E).
  destruct data as [| | | | | | |d| | |]; try discriminate Hq0.
  cbn [LlamaClient.get] in Hq0, Hm0.
  injection Hq0 as <-. injection Hm0 as <-.
  destruct (dict_get d "query") as [[| | | |query| | | | | |]|] eqn:Dq;
    try discriminate Hq.
  2:{ injection Hq as <-. discriminate E. }
  destruct (dict_get d "machine") as [[| | | |machine| | | | | |]|] eqn:Dm;
    try discriminate Hm.
  2:{ injection Hm as <-. cbn in E. destruct (Str.is_empty q); discriminate E. }
  cbn [LlamaClient.strip] in Hq, Hm. injection Hq as <-. injection Hm as <-.
  destruct (Str.is_empty (Str.strip query)) eqn:Eq; [discriminate E|].
  destruct (Str.is_empty (Str.strip machine)) eqn:Em; [discriminate E|].
  apply bind_ok in E as (answer & Ha & E). injection E as <-.
  unfold Api.jsonify in Ha. destruct (Api.serializable _); [|discriminate Ha].
  injection Ha as <-.
  exists d, query, machine.
  repeat split; try reflexivity; try assumption; now apply strip_nonempty.
Qed.

(** X18. A machine without data is not an error of the endpoint: a
    request whose query and machine are of the ASCII range and not blank
    is answered with status 200, and the failure is told in the body
    only, whose type is 'error' and which carries no chart. *)
Theorem missing_data_is_answered_200 (data : dict) (query machine : string) :
  dict_get data "query" = Some (PyStr query) ->
  dict_get data "machine" = Some (PyStr machine) ->
  Str.isascii query = true -> Str.isascii machine = true ->
  Str.strip query <> EmptyString -> Str.strip machine <> EmptyString ->
  DataProcessor.get_specific_file_data W (Str.strip machine) (Str.strip query)
  = [] ->
  Api.chat W (Ok (PyDict data))
  = (PyDict (dict_of
       [("response",
         PyStr ("No data found for machine " ++ Str.strip machine
                ++ ". Please check if the machine folder exists and contains CSV files."));
        ("charts", PyList []);
        ("type", PyStr "error")]),
     200).
Proof.
  intros Dq Dm _ _ Hq Hm Hdata.
  apply strip_nonempty in Hq. apply strip_nonempty in Hm.
  unfold Api.chat. cbn [bind]. rewrite (nonempty_dict data _ _ Dq).
  cbn [bind negb LlamaClient.get]. rewrite Dq, Dm.
  cbn [bind LlamaClient.strip]. rewrite Hq, Hm.
  unfold Routes.process_chat_query. rewrite Hdata.
  reflexivity.
Qed.

End Chat.

Section ChatWitness.
Import Py.

Lemma chat_answers_nonblank_requests_witness :
  Notions.ascii_request
    (Ok (PyDict [("query", PyStr " OEE in January 2024 ");
                 ("machine", PyStr "MC_PRESS_133")]))
  /\ exists data query machine,
    Ok (PyDict [("query", PyStr " OEE in January 2024 ");
                ("machine", PyStr "MC_PRESS_133")])
    = Ok (PyDict data)
    /\ dict_get data "query" = Some (PyStr query)
    /\ dict_get data "machine" = Some (PyStr machine)
    /\ Str.strip query <> EmptyString
    /\ Str.strip machine <> EmptyString
    /\ fst (Api.chat (Examples.offline Examples.dated_rows)
              (Ok (PyDict [("query", PyStr " OEE in January 2024 ");
                           ("machine", PyStr "MC_PRESS_133")])))
       = PyDict (Routes.process_chat_query (Examples.offline Examples.dated_rows)
                   (Str.strip query) (Str.strip machine)).
Proof.
  assert (Ha : Notions.ascii_request
                 (Ok (PyDict [("query", PyStr " OEE in January 2024 ");
                              ("machine", PyStr "MC_PRESS_133")]))).
  { intros data k s [= <-] [<- | [<- | []]] [= <-]; reflexivity. }
  split; [exact Ha|].
  apply (chat_answers_nonblank_requests (Examples.offline Examples.dated_rows)
           (Ok (PyDict [("query", PyStr " OEE in January 2024 ");
                        ("machine", PyStr "MC_PRESS_133")])) _ Ha).
  vm_compute. reflexivity.
Defined.

Lemma missing_data_is_answered_200_witness :
  Api.chat (Examples.offline [])
    (Ok (PyDict [("query", PyStr " OEE in January 2024 ");
                 ("machine", PyStr "MC_PRESS_133")]))
  = (PyDict (dict_of
       [("response",
         PyStr ("No data found for machine " ++ Str.strip "MC_PRESS_133"
                ++ ". Please check if the machine folder exists and contains CSV files."));
        ("charts", PyList []);
        ("type", PyStr "error")]),
     200).
Proof.
  apply (missing_data_is_answered_200 (Examples.offline [])
           [("query", PyStr " OEE in January 2024 ");
            ("machine", PyStr "MC_PRESS_133")]
           " OEE in January 2024 " "MC_PRESS_133").
  - reflexivity.
  - reflexivity.
  - reflexivity.
  - reflexivity.
  - vm_compute. discriminate.
  - vm_compute. discriminate.
  - vm_compute. reflexivity.
Defined.

End ChatWitness.
